(** * Olist e-commerce pipeline: extract, clean, load, query runner

    A shallow embedding of the Python sources
    ([cleaner.py], [src/extract.py], [src/load.py], [src/transform.py],
    [src/config.py]) and the properties of the pipeline proved on it.

    Conventions of the embedding.
    - Python [str] is [string]; every [ascii] stands for the code point of
      the same number (0..255).  Text with code points above 255 is outside
      the embedding; in particular the byte-order mark U+FEFF cannot occur,
      so stripping it in [_read_sql] leaves every embedded text as it is.
    - A Python exception is a value of [Exn]; a call that may raise returns
      a [Result].
    - pandas, the SQL engine, the network and the file system are not part
      of the repository.  They appear as the interfaces [Pandas], [Engine],
      [Net] and as explicit file-system arguments, and every property of the
      pipeline is proved for all their implementations unless it says
      otherwise. *)

From Stdlib Require Import Bool Arith NArith ZArith Lia List Ascii String.
From Stdlib Require Import DecimalString DecimalZ Sorted.
Import ListNotations.

Local Open Scope list_scope.
Local Open Scope string_scope.

(* ------------------------------------------------------------------ *)
(** * Exceptions and results *)

Inductive Exn : Type :=
| FileNotFoundError (path : string)
| TypeError (msg : string)
| AttributeError (msg : string)
| ValueError (msg : string)
| EngineError (msg : string)
| HTTPException (msg : string)   (* [http.client]: RemoteDisconnected, IncompleteRead *)
| OSError (msg : string).        (* a reset or a timeout of the connection *)

Inductive Result (A : Type) : Type :=
| Ok (a : A)
| Raise (e : Exn).

Arguments Ok {A} a.
Arguments Raise {A} e.

Definition bind {A B : Type} (m : Result A) (f : A -> Result B) : Result B :=
  match m with
  | Ok a => f a
  | Raise e => Raise e
  end.

Notation "x <- m ;; k" := (bind m (fun x => k))
  (at level 61, m at next level, right associativity).

(* ------------------------------------------------------------------ *)
(** * Python text *)

Module Text.

Definition LF : ascii := "010"%char.
Definition CR : ascii := "013"%char.

Definition code (c : ascii) : N := N_of_ascii c.

Definition between (lo hi : N) (c : ascii) : bool :=
  (lo <=? code c)%N && (code c <=? hi)%N.

(** [str.isspace] on one character, which is also the class [\s] of [re]
    for [str] patterns: TAB..CR, FS..US, space, NEL and NBSP. *)
Definition isspace (c : ascii) : bool :=
  between 9 13 c || between 28 32 c || (code c =? 133)%N || (code c =? 160)%N.

(** The class [\w] of [re] for [str] patterns: the alphanumeric code
    points below 256, and the underscore. *)
Definition isword (c : ascii) : bool :=
  between 48 57 c || between 65 90 c || between 97 122 c || (code c =? 95)%N
  || (code c =? 170)%N || between 178 179 c || (code c =? 181)%N
  || between 185 186 c || between 188 190 c
  || between 192 214 c || between 216 246 c || between 248 255 c.

(** [str.lower] on one character. *)
Definition lower_char (c : ascii) : ascii :=
  if between 65 90 c || (between 192 222 c && negb (code c =? 215)%N)
  then ascii_of_N (code c + 32)
  else c.

Fixpoint lower (s : string) : string :=
  match s with
  | EmptyString => EmptyString
  | String c s' => String (lower_char c) (lower s')
  end.

Fixpoint lstrip (s : string) : string :=
  match s with
  | EmptyString => EmptyString
  | String c s' => if isspace c then lstrip s' else s
  end.

(** [rstrip] keeps a character when it is not a space or when something
    is kept after it. *)
Fixpoint rstrip (s : string) : string :=
  match s with
  | EmptyString => EmptyString
  | String c s' =>
      match rstrip s' with
      | EmptyString => if isspace c then EmptyString else String c EmptyString
      | r => String c r
      end
  end.

Definition strip (s : string) : string := rstrip (lstrip s).

(** Truth value of a Python [str]. *)
Definition truthy (s : string) : bool :=
  match s with
  | EmptyString => false
  | _ => true
  end.

Definition startswith (s p : string) : bool := String.prefix p s.

(** [s.replace("\r\n", "\n")] *)
Fixpoint replace_crlf (s : string) : string :=
  match s with
  | EmptyString => EmptyString
  | String c s' =>
      match s' with
      | String d s'' =>
          if Ascii.eqb c CR && Ascii.eqb d LF
          then String LF (replace_crlf s'')
          else String c (replace_crlf s')
      | EmptyString => String c EmptyString
      end
  end.

(** [s.replace("\r", "\n")] *)
Fixpoint replace_cr (s : string) : string :=
  match s with
  | EmptyString => EmptyString
  | String c s' => String (if Ascii.eqb c CR then LF else c) (replace_cr s')
  end.

Fixpoint mem (x : string) (l : list string) : bool :=
  match l with
  | [] => false
  | y :: l' => String.eqb x y || mem x l'
  end.

End Text.

(* ------------------------------------------------------------------ *)
(** * Regular expressions of Python's [re]

    The constructs the patterns of [transform.py] use, matched the way
    [re] matches: alternatives left to right, greedy repetition longest
    first, lazy repetition shortest first, backtracking into the
    continuation.  Every repetition in the source ranges over one
    character class. *)

Module Re.

Import Text.

Inductive regex : Type :=
| Eps
| Chr (c : ascii)               (* a literal character *)
| IChr (c : ascii)              (* a literal character under IGNORECASE *)
| Cls (p : ascii -> bool)       (* a character class *)
| Cat (r1 r2 : regex)
| Alt (r1 r2 : regex)
| Star (p : ascii -> bool)      (* [p*] *)
| LazyStar (p : ascii -> bool)  (* [p*?] *)
| EndS                          (* [$] *)
| EndL.                         (* [$] under MULTILINE *)

Fixpoint greedy {A : Type} (p : ascii -> bool) (s : string)
    (k : string -> option A) : option A :=
  match s with
  | EmptyString => k s
  | String c s' =>
      if p c then
        match greedy p s' k with
        | Some a => Some a
        | None => k s
        end
      else k s
  end.

Fixpoint lazy {A : Type} (p : ascii -> bool) (s : string)
    (k : string -> option A) : option A :=
  match k s with
  | Some a => Some a
  | None =>
      match s with
      | EmptyString => None
      | String c s' => if p c then lazy p s' k else None
      end
  end.

(** [rmatch r s k]: match [r] at the start of [s] and hand what is left to
    [k]; when [k] refuses, backtrack. *)
Fixpoint rmatch {A : Type} (r : regex) (s : string)
    (k : string -> option A) : option A :=
  match r with
  | Eps => k s
  | Chr c =>
      match s with
      | String d s' => if Ascii.eqb c d then k s' else None
      | EmptyString => None
      end
  | IChr c =>
      match s with
      | String d s' =>
          if Ascii.eqb (lower_char c) (lower_char d) then k s' else None
      | EmptyString => None
      end
  | Cls p =>
      match s with
      | String d s' => if p d then k s' else None
      | EmptyString => None
      end
  | Cat r1 r2 => rmatch r1 s (fun s1 => rmatch r2 s1 k)
  | Alt r1 r2 =>
      match rmatch r1 s k with
      | Some a => Some a
      | None => rmatch r2 s k
      end
  | Star p => greedy p s k
  | LazyStar p => lazy p s k
  | EndS =>
      match s with
      | EmptyString => k s
      | String c EmptyString => if Ascii.eqb c LF then k s else None
      | _ => None
      end
  | EndL =>
      match s with
      | EmptyString => k s
      | String c _ => if Ascii.eqb c LF then k s else None
      end
  end.

(** Rest of the text after the match of [r] at the start of [s]. *)
Definition match_rest (r : regex) (s : string) : option string :=
  rmatch r s (fun rest => Some rest).

(** Number of characters of the match of [r] at the start of [s]. *)
Definition match_len (r : regex) (s : string) : option nat :=
  match match_rest r s with
  | Some rest => Some (String.length s - String.length rest)
  | None => None
  end.

Fixpoint lit (s : string) : regex :=
  match s with
  | EmptyString => Eps
  | String c s' => Cat (Chr c) (lit s')
  end.

Fixpoint ilit (s : string) : regex :=
  match s with
  | EmptyString => Eps
  | String c s' => Cat (IChr c) (ilit s')
  end.

Definition opt (r : regex) : regex := Alt r Eps.
Definition plus (p : ascii -> bool) : regex := Cat (Cls p) (Star p).

(** [re.split(r, s)] for a pattern without groups that matches no empty
    text.  [skip] counts the characters of the current match still to
    pass; [piece] is the text since the last match, reversed. *)
Fixpoint rev_string (acc s : string) : string :=
  match s with
  | EmptyString => acc
  | String c s' => rev_string (String c acc) s'
  end.

Fixpoint split_at (r : regex) (s : string) (skip : nat) (piece : string)
  : list string :=
  match s with
  | EmptyString => [rev_string "" piece]
  | String c s' =>
      match skip with
      | S n => split_at r s' n piece
      | O =>
          match match_len r s with
          | Some (S n) => rev_string "" piece :: split_at r s' n ""
          | _ => split_at r s' 0 (String c piece)
          end
      end
  end.

Definition split (r : regex) (s : string) : list string := split_at r s 0 "".

(** [re.sub(r, "", s)], same restriction on the pattern. *)
Fixpoint remove_at (r : regex) (s : string) (skip : nat) : string :=
  match s with
  | EmptyString => EmptyString
  | String c s' =>
      match skip with
      | S n => remove_at r s' n
      | O =>
          match match_len r s with
          | Some (S n) => remove_at r s' n
          | _ => String c (remove_at r s' 0)
          end
      end
  end.

Definition remove (r : regex) (s : string) : string := remove_at r s 0.

(** [re.search] for a pattern [pre (name) post] with one group: the text
    of the group at the leftmost match. *)
Definition group_here (pre name post : regex) (s : string) : option string :=
  rmatch pre s (fun s1 =>
    rmatch name s1 (fun s2 =>
      rmatch post s2 (fun _ =>
        Some (String.substring 0 (String.length s1 - String.length s2) s1)))).

Fixpoint search_group (pre name post : regex) (s : string) : option string :=
  match group_here pre name post s with
  | Some g => Some g
  | None =>
      match s with
      | EmptyString => None
      | String _ s' => search_group pre name post s'
      end
  end.

End Re.

(* ------------------------------------------------------------------ *)
(** * [src/transform.py]: statements of a script *)

Module Transform.

Import Text Re.

Definition not_lf (c : ascii) : bool := negb (Ascii.eqb c LF).
Definition any_char (c : ascii) : bool := true.

(** The pattern of [re.split] in [_split_sql_statements]:
    [;\s*(?:--[^\n]*\r?\n|\r?\n|$)] *)
Definition STMT_BOUNDARY : regex :=
  Cat (Chr ";")
   (Cat (Star isspace)
     (Alt (Cat (lit "--")
            (Cat (Star not_lf) (Cat (opt (Chr CR)) (Chr LF))))
       (Alt (Cat (opt (Chr CR)) (Chr LF))
            EndS))).

(** [/\*.*?\*/] with [re.S] *)
Definition BLOCK_COMMENT : regex :=
  Cat (lit "/*") (Cat (LazyStar any_char) (lit "*/")).

(** [(?m)--.*?$] *)
Definition LINE_COMMENT : regex :=
  Cat (lit "--") (Cat (LazyStar not_lf) EndL).

Definition _strip_sql_comments (sql : string) : string :=
  let no_block := remove BLOCK_COMMENT sql in
  let no_line := remove LINE_COMMENT no_block in
  no_line.

Definition starters : list string :=
  ["select"; "with"; "create"; "drop"; "insert";
   "update"; "delete"; "alter"; "pragma"; "vacuum"].

Definition _looks_like_sql (stmt : string) : bool :=
  if negb (truthy stmt) then false
  else
    let s := lower (lstrip stmt) in
    existsb (startswith s) starters.

Definition _is_select_like (stmt : string) : bool :=
  let s := lower (lstrip stmt) in
  startswith s "select" || startswith s "with".

Definition _normalize_stmt (stmt : string) : string :=
  if negb (truthy stmt) then ""
  else
    let cleaned := strip (_strip_sql_comments stmt) in
    if negb (_looks_like_sql cleaned) then "" else cleaned.

Definition _split_sql_statements (sql : string) : list string :=
  let parts := filter (fun s => truthy (strip s)) (split STMT_BOUNDARY sql) in
  filter truthy (map _normalize_stmt parts).

(** [_VIEW_RE], under IGNORECASE, in three parts: before the group
    [create\s+(?:temp|temporary\s+)?view\s+(?:if\s+not\s+exists\s+)?],
    the group, an identifier start [A-Za-z_] followed by any number of
    [\w], and after the group [\s+as\s+]. *)
Definition ident_start (c : ascii) : bool :=
  between 65 90 c || between 97 122 c || (code c =? 95)%N.

Definition VIEW_PRE : regex :=
  Cat (ilit "create")
   (Cat (plus isspace)
     (Cat (opt (Alt (ilit "temp") (Cat (ilit "temporary") (plus isspace))))
       (Cat (ilit "view")
         (Cat (plus isspace)
           (opt (Cat (ilit "if")
                 (Cat (plus isspace)
                   (Cat (ilit "not")
                     (Cat (plus isspace)
                       (Cat (ilit "exists") (plus isspace))))))))))).

Definition VIEW_NAME : regex := Cat (Cls ident_start) (Star isword).

Definition VIEW_POST : regex :=
  Cat (plus isspace) (Cat (ilit "as") (plus isspace)).

Definition _extract_created_view_name (stmt : string) : option string :=
  search_group VIEW_PRE VIEW_NAME VIEW_POST stmt.

End Transform.

(* ------------------------------------------------------------------ *)
(** * Tables

    A pandas [DataFrame] as the pipeline uses it: a row count and an
    ordered list of labelled columns, each with a dtype and one cell per
    row.  Column labels are unique in every frame ([read_csv] renames
    repeated headers), so a loop [for col in cols: out[col] = f(out[col])]
    visits every selected column once and is written as a map over the
    columns. *)

Module Frame.

Inductive Cell : Type :=
| CNull                      (* None, NaN, NaT *)
| CStr (s : string)
| CInt (n : Z)
| CFloat (bits : Z)
| CBool (b : bool)
| CTime (ns : Z)             (* naive timestamp, nanoseconds since the epoch *)
| CNested (repr : string).   (* a list or a dict *)

Inductive Dtype : Type := DObject | DInt | DFloat | DBool | DDatetime.

Record Column : Type := mkColumn { dtype : Dtype; cells : list Cell }.

Record DataFrame : Type :=
  mkFrame { nrows : nat; columns : list (string * Column) }.

(** A Python [dict] with [str] keys, in insertion order. *)
Definition Dict (V : Type) : Type := list (string * V).

Fixpoint dict_get {V : Type} (d : Dict V) (k : string) : option V :=
  match d with
  | [] => None
  | (k', v) :: d' => if String.eqb k k' then Some v else dict_get d' k
  end.

(** [d[k] = v] *)
Fixpoint dict_set {V : Type} (d : Dict V) (k : string) (v : V) : Dict V :=
  match d with
  | [] => [(k, v)]
  | (k', v') :: d' =>
      if String.eqb k k' then (k', v) :: d' else (k', v') :: dict_set d' k v
  end.

Definition keys {V : Type} (d : Dict V) : list string := map fst d.

Definition is_object (d : Dtype) : bool :=
  match d with
  | DObject => true
  | _ => false
  end.

Definition is_datetime (d : Dtype) : bool :=
  match d with
  | DDatetime => true
  | _ => false
  end.

Definition is_time_or_null (c : Cell) : bool :=
  match c with
  | CTime _ | CNull => true
  | _ => false
  end.

Definition labels (df : DataFrame) : list string := keys (columns df).

(** [df.empty]: no rows or no columns. *)
Definition empty (df : DataFrame) : bool :=
  (nrows df =? 0)%nat || (List.length (columns df) =? 0)%nat.

(** [pd.DataFrame()] *)
Definition no_frame : DataFrame := mkFrame 0 [].

Local Unset Elimination Schemes.

(** A JSON document: the value [json.loads] decodes, an object being the
    [dict] it builds. *)
Inductive Json : Type :=
| JNull
| JBool (b : bool)
| JInt (n : Z)
| JFloat (bits : Z)           (* the binary64 pattern of the number *)
| JStr (s : string)
| JArr (items : list Json)
| JObj (fields : list (string * Json)).

Local Set Elimination Schemes.

(** A delimited text file with a header row, column by column. *)
Record Csv : Type := mkCsv { csv_nrows : nat; csv_columns : list (string * list string) }.

(** A file: plain text, a delimited text file, or a JSON document. *)
Inductive File : Type :=
| FText (text : string)
| FCsv (csv : Csv)
| FJson (doc : Json).

(** The file system: path to file. *)
Definition FS : Type := Dict File.

Definition path_join (dir file : string) : string := dir ++ "/" ++ file.

(** Every column has one cell per row. *)
Definition well_formed (df : DataFrame) : Prop :=
  Forall (fun nc => List.length (cells (snd nc)) = nrows df) (columns df).

(** What [pd.to_datetime(x, errors="coerce")] returns when [x] is one
    Python value and not a column: a timestamp, naive or with its time
    zone; NaT; or a value that is no timestamp and is kept as it is (the
    index built from a list). *)
Inductive Scalar : Type :=
| Stamp (ns : Z) (zone : option string)
| NaT
| Kept (c : Cell).

(** What the pipeline takes from pandas. *)
Class Pandas : Type := {
  (** [pd.to_datetime(col, errors="coerce")] on one value of a column
      that is neither a timestamp nor null: the timestamp, or [None] for
      what is coerced to NaT. *)
  coerce_datetime : Cell -> option Z;
  (** [pd.to_datetime(x, errors="coerce")] on one decoded JSON value [x]
      that is not [None]: what it returns, or what it raises. *)
  to_datetime_scalar : Json -> Result Scalar;
  (** [pd.to_datetime(col, errors="coerce")] on a column whose timestamps
      do not all have the same zone, given the zones in order ([None] for
      a naive timestamp): the zone of the result, or what it raises. *)
  mixed_zones : list (option string) -> Result (option string);
  (** dtype pandas infers for a column built from Python values *)
  infer_dtype : list Cell -> Dtype;
  (** text of one value in a file written by [to_csv] *)
  format_cell : Cell -> string;
  (** [read_csv]: a column that [parse_dates] does not list *)
  parse_column : list string -> Column;
  (** [read_csv]: a column that [parse_dates] lists *)
  parse_dates_column : list string -> Column
}.


Section WithPandas.

Context {P : Pandas}.

(** [pd.to_datetime(col, errors="coerce")]: timestamps and nulls stay,
    everything else is parsed or becomes null.  A time zone that pandas
    attaches to the dtype is no part of [Column]; where the pipeline
    promises a naive column, in the holidays table, the zone is kept
    beside the table. *)
Definition to_datetime_cell (c : Cell) : Cell :=
  match c with
  | CTime t => CTime t
  | CNull => CNull
  | _ =>
      match coerce_datetime c with
      | Some t => CTime t
      | None => CNull
      end
  end.

Definition to_datetime (col : Column) : Column :=
  mkColumn DDatetime (map to_datetime_cell (cells col)).

(** [col.map(f)]: the values [f] returns, and the dtype pandas infers for
    them.  The cells are the Python values; a dtype may store a value in
    another form (an integer in a float column). *)
Definition series_map (f : Cell -> Cell) (col : Column) : Column :=
  let cs := map f (cells col) in
  mkColumn (infer_dtype cs) cs.

Definition day_ns : Z := 86400000000000.

(** [.dt.normalize()]: midnight of the same day. *)
Definition normalize_cell (c : Cell) : Cell :=
  match c with
  | CTime t => CTime (t - t mod day_ns)
  | _ => c
  end.

Definition dt_normalize (col : Column) : Column :=
  mkColumn (dtype col) (map normalize_cell (cells col)).

(** [df.to_csv(path, index=False)] *)
Definition to_csv (df : DataFrame) : Csv :=
  mkCsv (nrows df)
        (map (fun nc => (fst nc, map format_cell (cells (snd nc)))) (columns df)).

(** The frame [read_csv] builds when every name of [parse_dates] is a
    column of the file. *)
Definition read_columns (csv : Csv) (parse_dates : list string) : DataFrame :=
  mkFrame (csv_nrows csv)
    (map (fun nt =>
            (fst nt,
             if Text.mem (fst nt) parse_dates
             then parse_dates_column (snd nt)
             else parse_column (snd nt)))
         (csv_columns csv)).

(** [pd.read_csv(path, parse_dates=cols)]: a name of [parse_dates] that is
    no column of the file raises [ValueError]. *)
Definition read_csv (csv : Csv) (parse_dates : list string) : Result DataFrame :=
  if forallb (fun c => Text.mem c (keys (csv_columns csv))) parse_dates
  then Ok (read_columns csv parse_dates)
  else Raise (ValueError "Missing column provided to 'parse_dates'").

(** [out[col] = f(out[col])] for every column that [sel] selects. *)
Definition update_columns (sel : string -> Column -> bool)
    (f : Column -> Column) (df : DataFrame) : DataFrame :=
  mkFrame (nrows df)
    (map (fun nc => if sel (fst nc) (snd nc) then (fst nc, f (snd nc)) else nc)
         (columns df)).

End WithPandas.

End Frame.

(* ------------------------------------------------------------------ *)
(** * [cleaner.py] *)

Module Cleaner.

Import Text Frame.

Definition _DATE_COLUMNS_KNOWN : list string :=
  [ "order_purchase_timestamp";
    "order_approved_at";
    "order_delivered_carrier_date";
    "order_delivered_customer_date";
    "order_estimated_delivery_date";
    "shipping_limit_date";
    "review_creation_date";
    "review_creation_timestamp";
    "review_answer_timestamp";
    "review_answer_date";
    "date" ].

Definition _HOLIDAYS_TABLE_HINTS : list string :=
  ["public_holidays"; "holidays"; "brazil_public_holidays"; "feriados"].

Definition DEFAULT_OUT_DIR : string := "data_cleaned".

(** [sorted] on strings *)
Fixpoint insert_sorted (x : string) (l : list string) : list string :=
  match l with
  | [] => [x]
  | y :: l' => if String.leb x y then x :: l else y :: insert_sorted x l'
  end.

Definition sorted (l : list string) : list string :=
  fold_right insert_sorted [] l.

Section WithPandas.

Context {P : Pandas}.

(** Known date columns present in [df]. *)
Definition _infer_date_columns (df : DataFrame) : list string :=
  sorted (filter (fun c => mem c (labels df)) _DATE_COLUMNS_KNOWN).

Definition strip_value (x : Cell) : Cell :=
  match x with
  | CStr s => CStr (strip s)
  | _ => x
  end.

Definition _strip_object_columns (df : DataFrame) : DataFrame :=
  if empty df then df
  else
    update_columns (fun _ col => is_object (dtype col))
                   (series_map strip_value) df.

Definition _parse_dates_safe (df : DataFrame) (only : option (list string))
  : DataFrame :=
  if empty df then df
  else
    let candidates :=
      match only with
      | Some l => l
      | None => _DATE_COLUMNS_KNOWN
      end in
    update_columns (fun col _ => mem col candidates) to_datetime df.

Definition _normalize_holidays_date (df : DataFrame) : DataFrame :=
  if empty df || negb (mem "date" (labels df)) then df
  else
    update_columns (fun col _ => String.eqb col "date")
                   (fun col => dt_normalize (to_datetime col)) df.

(** One turn of the loop of [clean]. *)
Definition clean_table (table_name : string) (df : DataFrame) : DataFrame :=
  let step := _strip_object_columns df in
  let step := _parse_dates_safe step None in
  if mem (lower table_name) _HOLIDAYS_TABLE_HINTS
  then _normalize_holidays_date step
  else step.

Definition clean (data_frames : Dict DataFrame) : Dict DataFrame :=
  fold_left (fun cleaned nd => dict_set cleaned (fst nd) (clean_table (fst nd) (snd nd)))
            data_frames [].

(** The sidecar schema as a JSON document, and back. *)
Definition json_dump (schema : Dict (list string)) : Json :=
  JObj (map (fun nc => (fst nc, JArr (map JStr (snd nc)))) schema).

Definition json_strings (v : Json) : list string :=
  match v with
  | JArr items =>
      flat_map (fun x => match x with JStr c => [c] | _ => [] end) items
  | _ => []
  end.

(** The entries [schema.items()] of a schema read by [json.load]. *)
Definition schema_items (doc : Json) : Result (Dict (list string)) :=
  match doc with
  | JObj fields => Ok (map (fun kv => (fst kv, json_strings (snd kv))) fields)
  | _ => Raise (AttributeError "object has no attribute 'items'")
  end.

Definition save_cleaned (cleaned : Dict DataFrame) (out_dir : string) (fs : FS)
  : FS :=
  let '(schema, fs1) :=
    fold_left
      (fun acc nd =>
         let out_path := path_join out_dir (fst nd ++ ".csv") in
         (dict_set (fst acc) (fst nd) (_infer_date_columns (snd nd)),
          dict_set (snd acc) out_path (FCsv (to_csv (snd nd)))))
      cleaned ([], fs) in
  let schema_path := path_join out_dir "_schema.json" in
  dict_set fs1 schema_path (FJson (json_dump schema)).

(** The loop of [load_cleaned] over the schema. *)
Fixpoint load_tables (out_dir : string) (fs : FS)
    (schema : Dict (list string)) (loaded : Dict DataFrame)
  : Result (Dict DataFrame) :=
  match schema with
  | [] => Ok loaded
  | (name, date_cols) :: rest =>
      let csv_path := path_join out_dir (name ++ ".csv") in
      match dict_get fs csv_path with
      | None => load_tables out_dir fs rest loaded
      | Some (FCsv csv) =>
          df <- read_csv csv date_cols ;;
          load_tables out_dir fs rest (dict_set loaded name df)
      | Some _ => Raise (ValueError "not a delimited text file")
      end
  end.

Definition load_cleaned (out_dir : string) (fs : FS) : Result (Dict DataFrame) :=
  let schema_path := path_join out_dir "_schema.json" in
  match dict_get fs schema_path with
  | None => Raise (FileNotFoundError schema_path)
  | Some (FJson doc) =>
      schema <- schema_items doc ;;
      load_tables out_dir fs schema []
  | Some _ => Raise (ValueError "not a JSON document")
  end.




End WithPandas.

End Cleaner.

(* ------------------------------------------------------------------ *)
(** * [src/extract.py] *)

Module Extract.

Import Text Frame Cleaner.

(** The failures of the connection that are none of [URLError],
    [HTTPError] and [ValueError]: the server closes the connection
    without an answer, the body ends before its length, the connection is
    reset, or it times out while the answer is read. *)
Inductive Escaping : Type :=
| RemoteDisconnected
| IncompleteRead
| ConnectionResetError
| TimeoutError.

Definition escaping_exn (x : Escaping) : Exn :=
  match x with
  | RemoteDisconnected => HTTPException "Remote end closed connection without response"
  | IncompleteRead => HTTPException "IncompleteRead"
  | ConnectionResetError => OSError "Connection reset by peer"
  | TimeoutError => OSError "timed out"
  end.

(** What [resp.read().decode("utf-8")] followed by [json.loads] gives:
    the two failures of decoding are [ValueError]s. *)
Inductive Body : Type :=
| UnicodeDecodeError_
| JSONDecodeError_
| Decoded (v : Json)
| ReadFails (x : Escaping).

(** What [urllib.request.urlopen(url)] gives. *)
Inductive HttpOutcome : Type :=
| URLError_
| HTTPError_ (status : Z)
| ValueError_                   (* the URL is refused: unknown url type *)
| Escapes (x : Escaping)
| Response (status : Z) (body : Body).

Class Net : Type := { urlopen : string -> HttpOutcome }.

Definition TIMESTAMP_COLS_BY_TABLE : Dict (list string) :=
  [ ("olist_orders",
      [ "order_purchase_timestamp";
        "order_approved_at";
        "order_delivered_carrier_date";
        "order_delivered_customer_date";
        "order_estimated_delivery_date" ]);
    ("olist_order_items", ["shipping_limit_date"]);
    ("olist_order_reviews", ["review_creation_date"; "review_answer_timestamp"]) ].

(** Truth value of a decoded JSON value. *)
Definition json_truthy (v : Json) : bool :=
  match v with
  | JNull => false
  | JBool b => b
  | JInt n => negb (n =? 0)%Z
  | JFloat bits =>                       (* 0.0 and -0.0 are false *)
      negb ((bits =? 0)%Z || (bits =? 9223372036854775808)%Z)
  | JStr s => truthy s
  | JArr l => negb (List.length l =? 0)%nat
  | JObj l => negb (List.length l =? 0)%nat
  end.

(** The Python value of a JSON value, as a cell of a frame. *)
Definition cell_of_json (v : Json) : Cell :=
  match v with
  | JNull => CNull
  | JBool b => CBool b
  | JInt n => CInt n
  | JFloat bits => CFloat bits
  | JStr s => CStr s
  | JArr _ => CNested "list"
  | JObj _ => CNested "dict"
  end.

(** [x.get(key)]; a missing key gives [None]. *)
Definition get_field (fields : list (string * Json)) (key : string) : Cell :=
  match dict_get fields key with
  | Some v => cell_of_json v
  | None => CNull
  end.

Definition cols : list string :=
  ["date"; "localName"; "name"; "countryCode"; "fixed"; "global"; "launchYear"].

Section WithLibraries.

Context {P : Pandas} {W : Net}.

Definition _read_csv_stable (csv : Csv) (table_name : string) : Result DataFrame :=
  let parse_cols :=
    match dict_get TIMESTAMP_COLS_BY_TABLE table_name with
    | Some l => l
    | None => []
    end in
  read_csv csv parse_cols.

(** [None] when the fetch fails in one of the ways the function catches;
    any other failure is raised. *)
Definition _fetch_public_holidays_json (url : string) : Result (option Json) :=
  if negb (truthy url) then Ok None
  else
    match urlopen url with
    | Response status body =>
        if negb (status =? 200)%Z then Ok None
        else
          match body with
          | Decoded v => Ok (Some v)
          | UnicodeDecodeError_ | JSONDecodeError_ => Ok None
          | ReadFails x => Raise (escaping_exn x)
          end
    | URLError_ | HTTPError_ _ | ValueError_ => Ok None
    | Escapes x => Raise (escaping_exn x)
    end.

(** [pd.DataFrame(columns=cols).astype({"date": "datetime64[ns]"})] *)
Definition empty_holidays : DataFrame :=
  mkFrame 0
    (map (fun c => (c, mkColumn (if String.eqb c "date" then DDatetime else DObject) []))
         cols).

(** The table of the holidays, and the time zone of its [date] column:
    [None] for [datetime64[ns]].  [Column] records no zone; with a zone,
    the cells of [date] are the instants. *)
Record Holidays : Type := mkHolidays { table : DataFrame; date_zone : option string }.

(** [pd.to_datetime(x.get("date"), errors="coerce")]; for [None] the call
    returns [None]. *)
Definition date_of (fields : list (string * Json)) : Result Scalar :=
  match dict_get fields "date" with
  | None | Some JNull => Ok NaT
  | Some v => to_datetime_scalar v
  end.

(** One turn of the loop over [data]: the date of a row, and its six
    other values. *)
Definition holiday_row (x : Json) : Result (Scalar * list Cell) :=
  match x with
  | JObj fields =>
      date <- date_of fields ;;
      Ok (date,
          map (get_field fields)
              ["localName"; "name"; "countryCode"; "fixed"; "global"; "launchYear"])
  | _ => Raise (AttributeError "object has no attribute 'get'")
  end.

Fixpoint holiday_rows (data : list Json) : Result (list (Scalar * list Cell)) :=
  match data with
  | [] => Ok []
  | x :: data' =>
      r <- holiday_row x ;;
      rs <- holiday_rows data' ;;
      Ok (r :: rs)
  end.

(** [pd.DataFrame(rows, columns=cols)], the columns after [date]: column
    [i] holds value [i] of every row. *)
Definition other_columns (rows : list (list Cell)) : list (string * Column) :=
  map (fun ic =>
         let cs := map (fun r => nth (fst ic) r CNull) rows in
         (snd ic, mkColumn (infer_dtype cs) cs))
      (combine (seq 0 (List.length (tl cols))) (tl cols)).

(** The cell of the converted [date] column for one date of the rows. *)
Definition stamp_cell (d : Scalar) : Cell :=
  match d with
  | Stamp t _ => CTime t
  | NaT => CNull
  | Kept c => to_datetime_cell c
  end.

Definition is_stamp (d : Scalar) : bool :=
  match d with
  | Stamp _ _ => true
  | _ => false
  end.

Definition is_kept (d : Scalar) : bool :=
  match d with
  | Kept _ => true
  | _ => false
  end.

Definition zone (d : Scalar) : option string :=
  match d with
  | Stamp _ z => z
  | _ => None
  end.

Definition same_zone (a b : option string) : bool :=
  match a, b with
  | None, None => true
  | Some x, Some y => String.eqb x y
  | _, _ => false
  end.

(** The zone of [pd.to_datetime(df["date"], errors="coerce")]: that of the
    timestamps when they all have the same and the column holds nothing
    else but NaT; pandas decides otherwise. *)
Definition zone_of_dates (dates : list Scalar) : Result (option string) :=
  let zones := map zone (filter is_stamp dates) in
  if existsb is_kept dates then mixed_zones zones
  else
    match zones with
    | [] => Ok None
    | z :: rest => if forallb (same_zone z) rest then Ok z else mixed_zones zones
    end.

(** What [for x in data] walks through. *)
Definition iterate (data : Json) : Result (list Json) :=
  match data with
  | JArr items => Ok items
  | JObj fields => Ok (map (fun kv => JStr (fst kv)) fields)
  | JStr s => Ok (map (fun c => JStr (String c "")) (list_ascii_of_string s))
  | _ => Raise (TypeError "object is not iterable")
  end.

Definition _normalize_public_holidays (data : option Json) : Result Holidays :=
  match data with
  | None => Ok (mkHolidays empty_holidays None)
  | Some v =>
      if negb (json_truthy v) then Ok (mkHolidays empty_holidays None)
      else
        items <- iterate v ;;
        rows <- holiday_rows items ;;
        let dates := map fst rows in
        date_zone <- zone_of_dates dates ;;
        Ok (mkHolidays
              (mkFrame (List.length rows)
                 (("date", mkColumn DDatetime (map stamp_cell dates))
                  :: other_columns (map snd rows)))
              date_zone)
  end.

(** [s.rstrip("/")] *)
Fixpoint rstrip_slash (s : string) : string :=
  match s with
  | EmptyString => EmptyString
  | String c s' =>
      match rstrip_slash s' with
      | EmptyString => if Ascii.eqb c "/" then EmptyString else String c EmptyString
      | r => String c r
      end
  end.

Definition get_public_holidays (base_url year country : string)
  : Result Holidays :=
  let url := rstrip_slash base_url ++ "/" ++ year ++ "/" ++ country in
  raw <- _fetch_public_holidays_json url ;;
  _normalize_public_holidays raw.

(** What [extract] returns: the mapping, and the time zone of the [date]
    column of its [public_holidays] table. *)
Record Extracted : Type :=
  mkExtracted { tables : Dict DataFrame; holidays_zone : option string }.

(** The loop of [extract] over the mapping table -> CSV file. *)
Fixpoint read_tables (fs : FS) (csv_folder : string)
    (table_to_csv : Dict string) (result : Dict DataFrame)
  : Result (Dict DataFrame) :=
  match table_to_csv with
  | [] => Ok result
  | (table_name, csv_name) :: rest =>
      let csv_path := path_join csv_folder csv_name in
      match dict_get fs csv_path with
      | None => Raise (FileNotFoundError csv_path)
      | Some (FCsv csv) =>
          df <- _read_csv_stable csv table_name ;;
          read_tables fs csv_folder rest (dict_set result table_name df)
      | Some _ => Raise (ValueError "not a delimited text file")
      end
  end.

Definition extract (fs : FS) (csv_folder : string) (table_to_csv : Dict string)
    (public_holidays_url : option string) : Result Extracted :=
  result <- read_tables fs csv_folder table_to_csv [] ;;
  let year := "2017" in
  holidays <-
    match public_holidays_url with
    | Some url =>
        if truthy url then get_public_holidays url year "BR"
        else _normalize_public_holidays None
    | None => _normalize_public_holidays None
    end ;;
  Ok (mkExtracted (dict_set result "public_holidays" (table holidays))
                  (date_zone holidays)).

End WithLibraries.

End Extract.

(* ------------------------------------------------------------------ *)
(** * The SQL engine

    SQLAlchemy's [Engine] over the relational store, as the loader and the
    query runner use it.  [Store] is the content of the database; an
    operation either gives the new content or raises. *)

Module Sql.

Import Frame.

(** Bound parameters of a query. *)
Definition Params : Type := Dict Cell.

Class Engine : Type := {
  Store : Type;
  (** [df.to_sql(name, con=conn, if_exists="replace", index=False)]:
      whether it returns, and the content it leaves; when it raises, the
      content before the rollback of its block. *)
  to_sql : string -> DataFrame -> Store -> Result unit * Store;
  (** [conn.execute(text(stmt))]; a statement that raises changes nothing *)
  execute : string -> Store -> Result Store;
  (** [conn.exec_driver_sql(stmt)], result discarded *)
  exec_driver_sql : string -> Store -> Result Store;
  (** [pd.read_sql_query(stmt, conn, params=params)] *)
  read_sql_query : string -> Params -> Store -> Result DataFrame;
  (** [rollback s0 s]: the content after the rollback of a block that was
      entered at content [s0] and raised at content [s].  An engine that
      undoes every statement of the block gives [s0]; SQLite through
      [sqlite3] runs a CREATE or a DROP outside the transaction and does
      not undo it. *)
  rollback : Store -> Store -> Store
}.

(** [with engine.begin() as conn: body]: commit when [body] returns, roll
    back when it raises. *)
Definition begin {E : Engine} (body : Store -> Result unit * Store) (s : Store)
  : Result unit * Store :=
  match body s with
  | (Ok _, s') => (Ok tt, s')
  | (Raise e, s') => (Raise e, rollback s s')
  end.

(** [for stmt in stmts: run(stmt)], stopping at the first that raises:
    whether the loop ends, and the content it leaves. *)
Fixpoint run_all {E : Engine} (run : string -> Store -> Result Store)
    (stmts : list string) (s : Store) : Result unit * Store :=
  match stmts with
  | [] => (Ok tt, s)
  | stmt :: rest =>
      match run stmt s with
      | Ok s' => run_all run rest s'
      | Raise e => (Raise e, s)
      end
  end.

End Sql.

(* ------------------------------------------------------------------ *)
(** * [src/config.py] *)

Module Config.

Import Frame.

Definition TABLES : Dict string :=
  [ ("orders", "olist_orders");
    ("order_items", "olist_order_items");
    ("products", "olist_products");
    ("customers", "olist_customers");
    ("payments", "olist_order_payments");
    ("sellers", "olist_sellers");
    ("reviews", "olist_order_reviews");
    ("geolocation", "olist_geolocation");
    ("category_tr", "product_category_name_translation");
    ("public_holidays", "public_holidays") ].

Definition REVENUE_EXPR : string := "price + freight_value".

Definition DELIVERED_WHERE : string :=
  "order_status = 'delivered' AND order_delivered_customer_date IS NOT NULL".

Definition get_csv_to_table_mapping : Dict string :=
  [ ("olist_customers", "olist_customers_dataset.csv");
    ("olist_geolocation", "olist_geolocation_dataset.csv");
    ("olist_order_items", "olist_order_items_dataset.csv");
    ("olist_order_payments", "olist_order_payments_dataset.csv");
    ("olist_order_reviews", "olist_order_reviews_dataset.csv");
    ("olist_orders", "olist_orders_dataset.csv");
    ("olist_products", "olist_products_dataset.csv");
    ("olist_sellers", "olist_sellers_dataset.csv");
    ("product_category_name_translation", "product_category_name_translation.csv") ].

(** [TABLES[key]] for the keys [load.py] uses, all present. *)
Definition table (key : string) : string :=
  match dict_get TABLES key with
  | Some physical => physical
  | None => ""
  end.

End Config.

(* ------------------------------------------------------------------ *)
(** * [src/load.py] *)

Module Load.

Import Text Frame Sql Config.

Section WithPandas.

Context {P : Pandas}.

Definition null_nested (x : Cell) : Cell :=
  match x with
  | CNested _ => CNull
  | _ => x
  end.

Definition _sanitize_for_sqlite (df : DataFrame) : DataFrame :=
  if empty df then df
  else
    update_columns (fun _ col => is_object (dtype col))
                   (series_map null_nested) df.

End WithPandas.

(** The canonical views, one per entry of [TABLES] but the two
    auxiliary ones. *)
Definition canonical_views : list string :=
  flat_map
    (fun cp =>
       if mem (fst cp) ["category_tr"; "public_holidays"] then []
       else ["CREATE VIEW IF NOT EXISTS " ++ fst cp
               ++ " AS SELECT * FROM " ++ snd cp ++ ";"])
    TABLES.

Definition product_category_en : string :=
  "
        CREATE VIEW IF NOT EXISTS product_category_en AS
        SELECT
          p.product_id,
          COALESCE(t.product_category_name_english, p.product_category_name) AS category,
          p.product_category_name
        FROM " ++ table "products" ++ " p
        LEFT JOIN " ++ table "category_tr" ++ " t
          ON t.product_category_name = p.product_category_name;
        ".

Definition order_item_revenue : string :=
  "
        CREATE VIEW IF NOT EXISTS order_item_revenue AS
        SELECT
          order_id,
          order_item_id,
          " ++ REVENUE_EXPR ++ " AS revenue,
          product_id,
          seller_id
        FROM " ++ table "order_items" ++ ";
        ".

Definition delivered_orders : string :=
  "
        CREATE VIEW IF NOT EXISTS delivered_orders AS
        SELECT *
        FROM " ++ table "orders" ++ "
        WHERE " ++ DELIVERED_WHERE ++ ";
        ".

Definition per_order_revenue : string :=
  "
        CREATE VIEW IF NOT EXISTS per_order_revenue AS
        SELECT
          order_id,
          SUM(revenue) AS order_revenue
        FROM order_item_revenue
        GROUP BY order_id;
        ".

Definition per_order_with_delivery : string :=
  "
        CREATE VIEW IF NOT EXISTS per_order_with_delivery AS
        SELECT
          d.order_id,
          por.order_revenue,
          date(d.order_delivered_customer_date) AS delivered_date,
          strftime('%Y', d.order_delivered_customer_date) AS yr,
          printf('%02d', CAST(strftime('%m', d.order_delivered_customer_date) AS INTEGER)) AS month_no
        FROM delivered_orders d
        JOIN per_order_revenue por USING(order_id);
        ".

Definition delivered_monthly_revenue : string :=
  "
        CREATE VIEW IF NOT EXISTS delivered_monthly_revenue AS
        SELECT
          yr,
          month_no,
          SUM(order_revenue) AS revenue
        FROM per_order_with_delivery
        GROUP BY yr, month_no;
        ".

(** The list [stmts] that [create_compat_views] builds. *)
Definition view_stmts : list string :=
  canonical_views
  ++ [ product_category_en; order_item_revenue; delivered_orders;
       per_order_revenue; per_order_with_delivery; delivered_monthly_revenue ].

Section WithEngine.

Context {P : Pandas} {E : Engine}.

Definition create_compat_views (s : Store) : Result unit * Store :=
  begin (run_all execute view_stmts) s.

(** The loop of [load] over the tables: every table in a transaction of
    its own; the loop ends at the first that raises. *)
Fixpoint write_tables (tables : Dict DataFrame) (s : Store)
  : Result unit * Store :=
  match tables with
  | [] => (Ok tt, s)
  | (name, df) :: rest =>
      let safe_df := _sanitize_for_sqlite df in
      match begin (to_sql name safe_df) s with
      | (Ok _, s') => write_tables rest s'
      | (Raise e, s') => (Raise e, s')
      end
  end.

(** A Python value passed to [load].  There is one engine, over the store
    that the functions thread. *)
Inductive PyArg : Type :=
| AnEngine
| ADict (tables : Dict DataFrame)
| AnyOther (repr : string).

Definition load (data_frames database : PyArg) (s : Store)
  : Result unit * Store :=
  let resolved :=
    match data_frames, database with
    | AnEngine, ADict tables => Ok tables
    | ADict tables, AnEngine => Ok tables
    | _, _ =>
        Raise (TypeError
          "load() espera (Engine, Dict[str, DataFrame]) o (Dict[str, DataFrame], Engine).")
    end in
  match resolved with
  | Raise e => (Raise e, s)
  | Ok tables =>
      match write_tables tables s with
      | (Ok _, s') => create_compat_views s'
      | (Raise e, s') => (Raise e, s')
      end
  end.

End WithEngine.

End Load.

(* ------------------------------------------------------------------ *)
(** * [src/transform.py]: the query runner *)

Module Query.

Import Text Frame Sql Transform.

Definition _QUERIES_DIR : string := "queries".

(** Read [queries/<name>.sql]; line endings become LF.  No embedded text
    starts with a byte-order mark, so nothing is stripped at its start. *)
Definition _read_sql (fs : FS) (name : string) : Result string :=
  let path := path_join _QUERIES_DIR (name ++ ".sql") in
  match dict_get fs path with
  | None => Raise (FileNotFoundError path)
  | Some (FText txt) => Ok (replace_cr (replace_crlf txt))
  | Some _ => Raise (ValueError "not a text file")
  end.

(** [for i in range(n - 1, -1, -1): if pred(stmts[i]): return i] *)
Fixpoint scan_down (pred : string -> bool) (stmts : list string) (n : nat)
  : option nat :=
  match n with
  | O => None
  | S i => if pred (nth i stmts "") then Some i else scan_down pred stmts i
  end.

(** The same scan for the name of a created view. *)
Fixpoint scan_down_view (stmts : list string) (n : nat) : option string :=
  match n with
  | O => None
  | S j =>
      match _extract_created_view_name (nth j stmts "") with
      | Some name => if truthy name then Some name else scan_down_view stmts j
      | None => scan_down_view stmts j
      end
  end.

Section WithEngine.

Context {E : Engine}.

(** [for idx, stmt in enumerate(stmts)]: run everything but the fetch
    target.  The connection is not a transaction: when a statement
    raises, the store is what the statements before it made of it. *)
Fixpoint run_setup (stmts : list string) (idx : nat)
    (last_select_idx : option nat) (s : Store) : Result unit * Store :=
  match stmts with
  | [] => (Ok tt, s)
  | stmt :: rest =>
      let is_target :=
        match last_select_idx with
        | Some i => (idx =? i)%nat
        | None => false
        end in
      if is_target then run_setup rest (S idx) last_select_idx s
      else if negb (truthy stmt) then run_setup rest (S idx) last_select_idx s
      else
        match exec_driver_sql stmt s with
        | Ok s' => run_setup rest (S idx) last_select_idx s'
        | Raise e => (Raise e, s)
        end
  end.

(** [params or {}] *)
Definition params_or_empty (params : option Params) : Params :=
  match params with
  | Some p => p
  | None => []
  end.

(** The result of [_run_df] and the store as the connection leaves it. *)
Definition _run_df (fs : FS) (query_name : string) (params : option Params)
    (s : Store) : Result DataFrame * Store :=
  match _read_sql fs query_name with
  | Raise e => (Raise e, s)
  | Ok sql =>
      if negb (truthy (strip sql)) then (Ok no_frame, s)
      else
        let stmts := _split_sql_statements sql in
        match stmts with
        | [] => (Ok no_frame, s)
        | _ =>
            let last_select_idx :=
              scan_down _is_select_like stmts (List.length stmts) in
            let fallback_view :=
              match last_select_idx with
              | None => scan_down_view stmts (List.length stmts)
              | Some _ => None
              end in
            match run_setup stmts 0 last_select_idx s with
            | (Raise e, s') => (Raise e, s')
            | (Ok _, s') =>
                match last_select_idx with
                | Some i =>
                    (read_sql_query (nth i stmts "") (params_or_empty params) s', s')
                | None =>
                    match fallback_view with
                    | Some v =>
                        (read_sql_query ("SELECT * FROM " ++ v)
                                        (params_or_empty params) s', s')
                    | None => (Ok no_frame, s')
                    end
                end
            end
        end
  end.

End WithEngine.

End Query.

(* ------------------------------------------------------------------ *)
(** * [src/run_pipeline.py] *)

Module Pipeline.

Import Frame Extract Sql Load.

Definition _default_table_to_csv (csv_folder : string) : Dict string :=
  [ ("olist_customers", "olist_customers_dataset.csv");
    ("olist_geolocation", "olist_geolocation_dataset.csv");
    ("olist_order_items", "olist_order_items_dataset.csv");
    ("olist_order_payments", "olist_order_payments_dataset.csv");
    ("olist_order_reviews", "olist_order_reviews_dataset.csv");
    ("olist_orders", "olist_orders_dataset.csv");
    ("olist_products", "olist_products_dataset.csv");
    ("olist_sellers", "olist_sellers_dataset.csv");
    ("product_category_name_translation", "product_category_name_translation.csv") ].

Section WithLibraries.

Context {P : Pandas} {W : Net} {E : Engine}.

(** The tables extracted, or what [extract] or [load] raised, and the
    store. *)
Definition run_extract_load (fs : FS) (csv_folder : string) (s : Store)
  : Result (Dict DataFrame) * Store :=
  let table_to_csv := _default_table_to_csv csv_folder in
  match extract fs csv_folder table_to_csv None with
  | Raise e => (Raise e, s)
  | Ok extracted =>
      match load (ADict (tables extracted)) AnEngine s with
      | (Ok _, s') => (Ok (tables extracted), s')
      | (Raise e, s') => (Raise e, s')
      end
  end.

End WithLibraries.

End Pipeline.

(* ------------------------------------------------------------------ *)
(** * Implementations of the interfaces

    Small implementations of [Pandas], [Net] and [Engine], on which the
    pipeline runs by computation.  [Lite] follows SQLite for the few
    statements it knows: a table cannot be created without columns, one
    call runs one statement, a view is created without looking at the
    tables it names, and anything else is refused. *)

Module Doubles.

Import Text Re Frame Sql Extract.

(** ** pandas: timestamps written as [T] and a decimal number *)

Definition format_time (t : Z) : string :=
  String "T" (DecimalString.NilEmpty.string_of_int (Z.to_int t)).

Definition parse_time (s : string) : option Z :=
  match s with
  | String "T" digits =>
      option_map Z.of_int (DecimalString.NilEmpty.int_of_string digits)
  | _ => None
  end.

Definition format_value (c : Cell) : string :=
  match c with
  | CNull => ""
  | CStr s => s
  | CInt n => DecimalString.NilEmpty.string_of_int (Z.to_int n)
  | CFloat bits => DecimalString.NilEmpty.string_of_int (Z.to_int bits)
  | CBool true => "True"
  | CBool false => "False"
  | CTime t => format_time t
  | CNested repr => repr
  end.

Definition text_cell (s : string) : Cell :=
  if truthy s then CStr s else CNull.

Definition date_cell (s : string) : Cell :=
  match parse_time s with
  | Some t => CTime t
  | None => CNull
  end.

Definition all_same_kind (cs : list Cell) : Dtype :=
  if forallb (fun c => match c with CInt _ => true | _ => false end) cs
  then DInt
  else if forallb (fun c => match c with CBool _ => true | _ => false end) cs
  then DBool
  else DObject.

(** ISO 8601 dates, as the feed writes them and pandas reads them:
    [YYYY-MM-DD], [YYYY-MM-DDTHH:MM:SS], and the latter with [Z] for UTC. *)
Definition digit (c : ascii) : option Z :=
  let n := Z.of_N (N_of_ascii c) in
  if (48 <=? n)%Z && (n <=? 57)%Z then Some (n - 48)%Z else None.

Fixpoint number (s : string) (acc : Z) : option Z :=
  match s with
  | EmptyString => Some acc
  | String c s' =>
      match digit c with
      | Some d => number s' (10 * acc + d)%Z
      | None => None
      end
  end.

(** The number written in the [len] characters of [s] from [start]. *)
Definition field (s : string) (start len : nat) : option Z :=
  let t := String.substring start len s in
  if (String.length t =? len)%nat then number t 0 else None.

Definition is_char (s : string) (i : nat) (c : ascii) : bool :=
  match String.get i s with
  | Some d => Ascii.eqb c d
  | None => false
  end.

Definition days_in_month (y m : Z) : Z :=
  if (m =? 2)%Z then
    if ((y mod 4 =? 0) && negb (y mod 100 =? 0) || (y mod 400 =? 0))%Z then 29 else 28
  else if ((m =? 4) || (m =? 6) || (m =? 9) || (m =? 11))%Z then 30
  else 31.

(** Days from 1970-01-01 to the day [d] of month [m] of year [y]. *)
Definition days_from_civil (y m d : Z) : Z :=
  let y' := if (m <=? 2)%Z then (y - 1)%Z else y in
  let era := (y' / 400)%Z in
  let yoe := (y' - era * 400)%Z in
  let mp := if (m >? 2)%Z then (m - 3)%Z else (m + 9)%Z in
  let doy := ((153 * mp + 2) / 5 + d - 1)%Z in
  let doe := (yoe * 365 + yoe / 4 - yoe / 100 + doy)%Z in
  (era * 146097 + doe - 719468)%Z.

Definition iso_date (s : string) : option Z :=
  match field s 0 4, field s 5 2, field s 8 2 with
  | Some y, Some m, Some d =>
      if (is_char s 4 "-" && is_char s 7 "-"
          && (1 <=? m)%Z && (m <=? 12)%Z && (1 <=? d)%Z && (d <=? days_in_month y m)%Z)%bool
      then Some (days_from_civil y m d * 86400)%Z
      else None
  | _, _, _ => None
  end.

Definition iso_time (s : string) : option Z :=
  match field s 11 2, field s 14 2, field s 17 2 with
  | Some h, Some mi, Some sec =>
      if (is_char s 10 "T" && is_char s 13 ":" && is_char s 16 ":"
          && (h <=? 23)%Z && (mi <=? 59)%Z && (sec <=? 59)%Z)%bool
      then Some (h * 3600 + mi * 60 + sec)%Z
      else None
  | _, _, _ => None
  end.

(** The instant in nanoseconds, and the zone. *)
Definition parse_iso (s : string) : option (Z * option string) :=
  match String.length s with
  | 10 => option_map (fun day => (day * 1000000000, None)%Z) (iso_date s)
  | 19 =>
      match iso_date s, iso_time s with
      | Some day, Some sec => Some ((day + sec) * 1000000000, None)%Z
      | _, _ => None
      end
  | 20 =>
      match iso_date s, iso_time s with
      | Some day, Some sec =>
          if is_char s 19 "Z" then Some ((day + sec) * 1000000000, Some "UTC")%Z
          else None
      | _, _ => None
      end
  | _ => None
  end.

Definition is_list (v : Json) : bool :=
  match v with
  | JArr _ => true
  | _ => false
  end.

(** [pd.to_datetime(x, errors="coerce")] on one value: a text in ISO 8601
    is its timestamp and any other text NaT, an integer counts
    nanoseconds, a list gives an index, an object is taken for the
    columns of a frame and raises, and so does a boolean.  The feed holds
    no other number; the double reads it as NaT. *)
Definition scalar_datetime (v : Json) : Result Scalar :=
  match v with
  | JNull => Ok NaT
  | JStr s =>
      match parse_iso s with
      | Some (t, z) => Ok (Stamp t z)
      | None => Ok NaT
      end
  | JInt n => Ok (Stamp n None)
  | JFloat _ => Ok NaT
  | JBool _ => Raise (TypeError "<class 'bool'> is not convertible to datetime")
  | JArr _ => Ok (Kept (CNested "list"))
  | JObj fields =>
      if existsb (fun kv => is_list (snd kv)) fields
      then Raise (ValueError
             "to assemble mappings requires at least that [year, month, day] be specified")
      else Raise (ValueError "If using all scalar values, you must pass an index")
  end.

Definition zones_agree (zones : list (option string)) : Result (option string) :=
  match zones with
  | [] => Ok None
  | z :: rest =>
      if forallb (same_zone z) rest then Ok z
      else Raise (ValueError "Cannot mix tz-aware with tz-naive values")
  end.

(** A column read under [parse_dates]; a file without rows gives a column
    of dtype [object]. *)
Definition dates_column (texts : list string) : Column :=
  match texts with
  | [] => mkColumn DObject []
  | _ => mkColumn DDatetime (map date_cell texts)
  end.

#[export] Instance pandas : Pandas := {
  coerce_datetime c :=
    match c with
    | CStr s => parse_time s
    | CInt n => Some n
    | _ => None
    end;
  to_datetime_scalar := scalar_datetime;
  mixed_zones := zones_agree;
  infer_dtype := all_same_kind;
  format_cell := format_value;
  parse_column texts := mkColumn DObject (map text_cell texts);
  parse_dates_column := dates_column
}.

(** ** the network: one URL answers, with what [feed] says *)

Definition holidays_url : string := "https://date.nager.at/api/v3/PublicHolidays".

Definition net (feed : HttpOutcome) : Net :=
  {| urlopen url :=
       if String.eqb url (holidays_url ++ "/2017/BR") then feed else URLError_ |}.

(** ** the engine *)

Record Db : Type := mkDb {
  db_tables : Dict DataFrame;
  db_views : Dict (list string)    (* the words of the SELECT of a view *)
}.

Definition empty_db : Db := mkDb [] [].

Fixpoint dict_del {V : Type} (d : Dict V) (k : string) : Dict V :=
  match d with
  | [] => []
  | (k', v) :: d' => if String.eqb k k' then dict_del d' k else (k', v) :: dict_del d' k
  end.

Definition has_key {V : Type} (d : Dict V) (k : string) : bool :=
  match dict_get d k with
  | Some _ => true
  | None => false
  end.

(** The words of a text; [word] is the current word, reversed. *)
Fixpoint words_from (s : string) (word : string) : list string :=
  let flush (rest : list string) :=
    match word with
    | EmptyString => rest
    | _ => rev_string "" word :: rest
    end in
  match s with
  | EmptyString => flush []
  | String c s' =>
      if isspace c then flush (words_from s' "")
      else words_from s' (String c word)
  end.

Definition words (s : string) : list string := words_from s "".

Fixpoint contains_char (c : ascii) (s : string) : bool :=
  match s with
  | EmptyString => false
  | String d s' => Ascii.eqb c d || contains_char c s'
  end.

(** Drop one semicolon at the end of a statement. *)
Fixpoint drop_last_semicolon (s : string) : string :=
  match s with
  | EmptyString => EmptyString
  | String c EmptyString => if Ascii.eqb c ";" then EmptyString else s
  | String c s' => String c (drop_last_semicolon s')
  end.

Definition kw (word keyword : string) : bool := String.eqb (lower word) keyword.

(** The words after the keywords, when the words start with them. *)
Fixpoint after (keywords ws : list string) : option (list string) :=
  match keywords with
  | [] => Some ws
  | k :: keywords' =>
      match ws with
      | w :: ws' => if kw w k then after keywords' ws' else None
      | [] => None
      end
  end.

Inductive Stmt : Type :=
| DropViewIfExists (name : string)
| CreateView (if_not_exists : bool) (name : string) (body : list string)
| Select (body : list string)
| Unsupported.

Definition is_query (ws : list string) : bool :=
  match ws with
  | w :: _ => kw w "select" || kw w "with"
  | [] => false
  end.

Definition parse (stmt : string) : Stmt :=
  let text := drop_last_semicolon (strip stmt) in
  if contains_char ";" text then Unsupported  (* one statement at a time *)
  else
    let ws := words text in
    match after ["drop"; "view"; "if"; "exists"] ws with
    | Some [name] => DropViewIfExists name
    | Some _ => Unsupported
    | None =>
        match after ["create"; "view"; "if"; "not"; "exists"] ws with
        | Some (name :: w :: body) =>
            if kw w "as" && is_query body then CreateView true name body
            else Unsupported
        | Some _ => Unsupported
        | None =>
            match after ["create"; "view"] ws with
            | Some (name :: w :: body) =>
                if kw w "as" && is_query body then CreateView false name body
                else Unsupported
            | Some _ => Unsupported
            | None => if is_query ws then Select ws else Unsupported
            end
        end
    end.

(** The queries [Lite] answers: [SELECT 1 AS x] and [SELECT * FROM t];
    [fuel] bounds the depth of views over views. *)
Fixpoint eval (fuel : nat) (db : Db) (body : list string) : Result DataFrame :=
  match body with
  | [w1; w2; w3; w4] =>
      if kw w1 "select" && String.eqb w2 "1" && kw w3 "as"
      then Ok (mkFrame 1 [(w4, mkColumn DInt [CInt 1])])
      else if kw w1 "select" && String.eqb w2 "*" && kw w3 "from"
      then
        match dict_get (db_tables db) w4 with
        | Some df => Ok df
        | None =>
            match dict_get (db_views db) w4, fuel with
            | Some view_body, S fuel' => eval fuel' db view_body
            | _, _ => Raise (EngineError "no such table")
            end
        end
      else Raise (EngineError "unsupported query")
  | _ => Raise (EngineError "unsupported query")
  end.

Definition query (db : Db) (body : list string) : Result DataFrame :=
  eval (S (List.length (db_views db))) db body.

(** [to_sql] with [if_exists="replace"] drops the table and creates it
    again; the creation fails for a table without columns. *)
Definition lite_to_sql (name : string) (df : DataFrame) (db : Db)
  : Result unit * Db :=
  match columns df with
  | [] => (Raise (EngineError "syntax error: a table needs a column"),
           mkDb (dict_del (db_tables db) name) (db_views db))
  | _ => (Ok tt, mkDb (dict_set (db_tables db) name df) (db_views db))
  end.

Definition lite_execute (stmt : string) (db : Db) : Result Db :=
  match parse stmt with
  | DropViewIfExists name => Ok (mkDb (db_tables db) (dict_del (db_views db) name))
  | CreateView if_not_exists name body =>
      if has_key (db_tables db) name || has_key (db_views db) name
      then
        if if_not_exists then Ok db
        else Raise (EngineError "view already exists")
      else Ok (mkDb (db_tables db) (dict_set (db_views db) name body))
  | Select body =>
      match query db body with
      | Ok _ => Ok db
      | Raise e => Raise e
      end
  | Unsupported => Raise (EngineError "unsupported statement")
  end.

Definition lite_read (stmt : string) (params : Params) (db : Db)
  : Result DataFrame :=
  match parse stmt with
  | Select body => query db body
  | _ => Raise (EngineError "This result object does not return rows")
  end.

(** The rollback of [Lite] undoes nothing: the statements it knows create
    and drop, and SQLite through [sqlite3] runs them outside the
    transaction. *)
#[export] Instance Lite : Engine := {
  Store := Db;
  to_sql := lite_to_sql;
  execute := lite_execute;
  exec_driver_sql := lite_execute;
  read_sql_query := lite_read;
  rollback := fun _ db => db
}.


(** [Lite] on a disk that fails when the view [name] is created. *)
Definition FailsAt (name : string) : Engine := {|
  Store := Db;
  to_sql := lite_to_sql;
  execute := fun stmt db =>
    match parse stmt with
    | CreateView _ view _ =>
        if String.eqb view name then Raise (EngineError "disk I/O error")
        else lite_execute stmt db
    | _ => lite_execute stmt db
    end;
  exec_driver_sql := lite_execute;
  read_sql_query := lite_read;
  rollback := fun _ db => db
|}.

(** The same failure on an engine whose rollback undoes every statement
    of the block. *)
Definition Transactional (name : string) : Engine := {|
  Store := Db;
  to_sql := lite_to_sql;
  execute := @execute (FailsAt name);
  exec_driver_sql := lite_execute;
  read_sql_query := lite_read;
  rollback := fun db0 _ => db0
|}.

(** A table of orders with one row. *)
Definition orders_frame : DataFrame :=
  mkFrame 1
    [ ("order_id", mkColumn DObject [CStr " a1 "]);
      ("order_purchase_timestamp", mkColumn DObject [CStr "T1483574400"]) ].

Definition orders_tables : Dict DataFrame := [("olist_orders", orders_frame)].


(** A source directory with the file of the orders. *)
Definition dataset : FS :=
  [("dataset/olist_orders_dataset.csv",
    FCsv (mkCsv 1 [("order_id", ["a1"]);
                   ("order_purchase_timestamp", ["T1483574400"])]))].

End Doubles.

(* ------------------------------------------------------------------ *)
(** * Notions the statements below use *)

Module Spec.

Import Text Re Transform Frame Cleaner Extract Sql Load Query.

(** Same row count, same labels in the same order, same number of cells
    in every column. *)
Definition same_shape (df df' : DataFrame) : Prop :=
  nrows df' = nrows df
  /\ labels df' = labels df
  /\ map (fun nc => List.length (cells (snd nc))) (columns df')
     = map (fun nc => List.length (cells (snd nc))) (columns df).

Definition is_holidays (table_name : string) : bool :=
  mem (lower table_name) _HOLIDAYS_TABLE_HINTS.


(** What is left of [s] after its first [n] characters. *)
Fixpoint drop (n : nat) (s : string) : string :=
  match n, s with
  | O, _ => s
  | S n', String _ s' => drop n' s'
  | S _, EmptyString => EmptyString
  end.

(** The two alternatives of the pattern of the splitter that end a line. *)
Definition line_break : regex := Cat (opt (Chr CR)) (Chr LF).

Definition line_comment : regex :=
  Cat (lit "--") (Cat (Star not_lf) line_break).

(** The path of the file of a table under [out_dir]. *)
Definition csv_path (out_dir name : string) : string :=
  path_join out_dir (name ++ ".csv")%string.



Definition is_record (x : Json) : bool :=
  match x with
  | JObj _ => true
  | _ => false
  end.

(** The holiday schema: seven columns in order, [date] of timestamp type
    holding timestamps and nulls only. *)
Definition holiday_schema (df : DataFrame) : Prop :=
  labels df = cols
  /\ exists col,
       dict_get (columns df) "date" = Some col
       /\ dtype col = DDatetime
       /\ forallb is_time_or_null (cells col) = true.

(** No holidays URL is given. *)
Definition no_url (public_holidays_url : option string) : Prop :=
  public_holidays_url = None \/ public_holidays_url = Some "".

(** Every character of [s] satisfies [p]. *)
Fixpoint all_chars (p : ascii -> bool) (s : string) : bool :=
  match s with
  | EmptyString => true
  | String c s' => p c && all_chars p s'
  end.

(** [boundary sep rest]: the text [sep], followed by [rest], is a
    semicolon, any white space, and then a line comment with its line
    break, or a line break, or the end of the input (a last line break
    aside). *)
Inductive boundary : string -> string -> Prop :=
| boundary_comment (ws c rest : string) :
    all_chars isspace ws = true ->
    all_chars not_lf c = true ->
    boundary (";" ++ ws ++ "--" ++ c ++ String LF "") rest
| boundary_break (ws rest : string) :
    all_chars isspace ws = true ->
    boundary (";" ++ ws ++ String LF "") rest
| boundary_end (ws rest : string) :
    all_chars isspace ws = true ->
    rest = "" \/ rest = String LF "" ->
    boundary (";" ++ ws) rest.

Section WithPandas.

Context {P : Pandas}.

(** What [clean] makes of one column of a table that is not empty. *)
Definition clean_column (table_name label : string) (col : Column) : Column :=
  let col1 := if is_object (dtype col) then series_map strip_value col else col in
  let col2 := if mem label _DATE_COLUMNS_KNOWN then to_datetime col1 else col1 in
  if is_holidays table_name && String.eqb label "date"
  then dt_normalize (to_datetime col2)
  else col2.


(** [x] is a record whose date pandas converts without raising. *)
Definition good_record (x : Json) : Prop :=
  exists fields d, x = JObj fields /\ date_of fields = Ok d.


Definition csv_files (out_dir : string) (cleaned : Dict DataFrame) (fs : FS) : FS :=
  fold_left (fun f nd => dict_set f (csv_path out_dir (fst nd)) (FCsv (to_csv (snd nd))))
            cleaned fs.

(** The date typing of [T] survives the round trip through [out_dir]:
    every column that [clean T] holds with timestamp type is read back
    as it was. *)
Definition dates_survive (T : Dict DataFrame) (out_dir : string) (fs : FS) : Prop :=
  forall name df label col,
    dict_get (clean T) name = Some df ->
    dict_get (columns df) label = Some col ->
    dtype col = DDatetime ->
    exists loaded df',
      load_cleaned out_dir (save_cleaned (clean T) out_dir fs) = Ok loaded
      /\ dict_get loaded name = Some df'
      /\ dict_get (columns df') label = Some col.

End WithPandas.

Section WithPandasAndNet.

Context {P : Pandas} {W : Net}.


End WithPandasAndNet.

Section WithEngine.

Context {E : Engine}.

(** Run the statements in order; stop at the first that raises. *)
Fixpoint exec_each (stmts : list string) (s : Store) : Result unit * Store :=
  match stmts with
  | [] => (Ok tt, s)
  | stmt :: rest =>
      match exec_driver_sql stmt s with
      | Ok s' => exec_each rest s'
      | Raise e => (Raise e, s)
      end
  end.

(** After the setup [r], read the rows of the query [q]. *)
Definition fetch (q : string) (params : option Params)
    (r : Result unit * Store) : Result DataFrame * Store :=
  match r with
  | (Ok _, s') => (read_sql_query q (params_or_empty params) s', s')
  | (Raise e, s') => (Raise e, s')
  end.

End WithEngine.

Section WithPandasAndEngine.

Context {P : Pandas} {E : Engine}.




End WithPandasAndEngine.

(** The two arguments are a table mapping and the engine, in some order. *)
Definition tables_and_engine (a b : PyArg) : bool :=
  match a, b with
  | AnEngine, ADict _ => true
  | ADict _, AnEngine => true
  | _, _ => false
  end.

(** Lists equal up to the grouping of [++]. *)
Ltac list_assoc := repeat (rewrite <- app_assoc; simpl); reflexivity.

(** One row, one column [x], value 1. *)
Definition one_by_one : DataFrame := mkFrame 1 [("x", mkColumn DInt [CInt 1])].

(** The script of three statements, one statement per line, and on one
    line; the script that only creates the view. *)
Definition script_by_lines : string :=
  "DROP VIEW IF EXISTS v;
CREATE VIEW v AS SELECT 1 AS x;
SELECT * FROM v;".

Definition script_on_one_line : string :=
  "DROP VIEW IF EXISTS v; CREATE VIEW v AS SELECT 1 AS x; SELECT * FROM v;".

Definition script_view_only : string := "CREATE VIEW v AS SELECT 1 AS x;".

(** A file system with one query script, [queries/v.sql]. *)
Definition one_script (text : string) : FS := [("queries/v.sql", FText text)].

End Spec.

(* ------------------------------------------------------------------ *)
(** * Further notions *)

Module Notions.

Import Text Re Transform Frame Cleaner Extract Sql Load Query Spec.

(** A text cell without white space at either end; any other cell. *)
Definition stripped_cell (c : Cell) : Prop :=
  match c with
  | CStr s => strip s = s
  | _ => True
  end.

(** A timestamp at midnight, or a null. *)
Definition at_midnight (c : Cell) : Prop :=
  match c with
  | CTime t => (t mod day_ns = 0)%Z
  | CNull => True
  | _ => False
  end.

Definition not_nested (c : Cell) : Prop :=
  match c with
  | CNested _ => False
  | _ => True
  end.

(** [path] is a file of [fs], of any kind. *)
Definition file_exists (fs : FS) (path : string) : bool :=
  match dict_get fs path with
  | Some _ => true
  | None => false
  end.

(** [path] is a delimited text file of [fs]. *)
Definition csv_exists (fs : FS) (path : string) : bool :=
  match dict_get fs path with
  | Some (FCsv _) => true
  | _ => false
  end.

(** The text holds two hyphens in a row. *)
Fixpoint has_comment_mark (s : string) : bool :=
  match s with
  | EmptyString => false
  | String c s' =>
      match s' with
      | String d _ => (Ascii.eqb c "-" && Ascii.eqb d "-") || has_comment_mark s'
      | EmptyString => false
      end
  end.

Definition is_cr (c : ascii) : bool := Ascii.eqb c CR.

(** Two records of the feed agree on the seven fields of the schema. *)
Definition same_holiday_fields (x y : Json) : Prop :=
  match x, y with
  | JObj f, JObj g => Forall (fun k => dict_get f k = dict_get g k) cols
  | _, _ => False
  end.

(** The pattern of [_VIEW_RE] up to the white space after VIEW; [r] is
    what follows in the pattern. *)
Definition view_head (r : regex) : regex :=
  Cat (ilit "create")
   (Cat (plus isspace)
     (Cat (opt (Alt (ilit "temp") (Cat (ilit "temporary") (plus isspace))))
       (Cat (ilit "view") (Cat (plus isspace) r)))).


(** The timestamp columns [_read_csv_stable] asks for in a table. *)
Definition timestamp_cols (table_name : string) : list string :=
  match dict_get TIMESTAMP_COLS_BY_TABLE table_name with
  | Some l => l
  | None => []
  end.

(** Every name of [names] is a column of the file. *)
Definition has_columns (csv : Csv) (names : list string) : bool :=
  forallb (fun c => mem c (keys (csv_columns csv))) names.

(** The file has a header: at least one column. *)
Definition has_header (csv : Csv) : bool :=
  match csv_columns csv with
  | [] => false
  | _ => true
  end.

(** The file of an entry of the mapping is there, a delimited text file
    with a header that holds the timestamp columns of its table. *)
Definition readable (fs : FS) (csv_folder : string) (tf : string * string) : bool :=
  match dict_get fs (path_join csv_folder (snd tf)) with
  | Some (FCsv csv) => has_header csv && has_columns csv (timestamp_cols (fst tf))
  | _ => false
  end.

(** The file of an entry of the sidecar is not there, or it is a
    delimited text file with a header that holds the date columns of the
    entry. *)
Definition listed_ok (fs : FS) (out_dir : string) (nd : string * list string) : bool :=
  match dict_get fs (csv_path out_dir (fst nd)) with
  | Some (FCsv csv) => has_header csv && has_columns csv (snd nd)
  | Some _ => false
  | None => true
  end.

(** The order of [sorted] on names. *)
Definition leb_true (a b : string) : Prop := String.leb a b = true.


(** The text is empty or starts a new line. *)
Definition end_of_line (s : string) : Prop :=
  match s with
  | EmptyString => True
  | String c _ => c = LF
  end.

Definition starts_with_hyphen (s : string) : bool :=
  match s with
  | String c _ => Ascii.eqb c "-"
  | EmptyString => false
  end.

Section WithPandas.

Context {P : Pandas}.

(** What the loop of [load_cleaned] reads: the tables of the schema whose
    file is there. *)
Definition read_present (out_dir : string) (fs : FS) (schema : Dict (list string))
  : Dict DataFrame :=
  flat_map (fun nd =>
              match dict_get fs (csv_path out_dir (fst nd)) with
              | Some (FCsv csv) => [(fst nd, read_columns csv (snd nd))]
              | _ => []
              end) schema.

(** The tables read from the files of the mapping, in its order. *)
Definition tables_of (fs : FS) (csv_folder : string) (table_to_csv : Dict string)
    (tables : Dict DataFrame) : Prop :=
  Forall2 (fun tf nd =>
             fst nd = fst tf
             /\ exists csv,
                  dict_get fs (path_join csv_folder (snd tf)) = Some (FCsv csv)
                  /\ _read_csv_stable csv (fst tf) = Ok (snd nd))
          table_to_csv tables.

End WithPandas.

End Notions.

(* ------------------------------------------------------------------ *)
(** * Inputs on which the theorems are run *)

Module Inputs.

Import Text Frame Cleaner Extract Sql Pipeline Doubles Notions.

(** A holidays table as a feed gives it, one second after midnight, under
    a name in capitals. *)
Definition holidays_tables : Dict DataFrame :=
  [("Public_Holidays",
    mkFrame 1 [ ("date", mkColumn DObject [CStr "T86400000000001"]);
                ("launchYear", mkColumn DInt [CInt 1]) ])].

(** A table with a nested value in a text column. *)
Definition nested_frame : DataFrame :=
  mkFrame 2 [ ("types", mkColumn DObject [CNested "['Public']"; CStr "x"]);
              ("n", mkColumn DInt [CInt 1; CInt 2]) ].

Definition orders_csv : Csv :=
  mkCsv 1 [("order_id", ["a1"]); ("order_purchase_timestamp", ["T1483574400"])].

(** The file of a table: one row, with an identifier and the timestamp
    columns of the table. *)
Definition table_csv (table_name : string) : Csv :=
  mkCsv 1 (("id", ["a1"])
           :: map (fun c => (c, ["2017-10-02 10:56:33"])) (timestamp_cols table_name)).

(** A source directory with a file for each table of the pipeline. *)
Definition full_dataset : FS :=
  map (fun tf => (path_join "dataset" (snd tf), FCsv (table_csv (fst tf))))
      (_default_table_to_csv "dataset").

(** A source directory with the file of the orders alone. *)
Definition orders_dataset : FS :=
  [("dataset/olist_orders_dataset.csv", FCsv (table_csv "olist_orders"))].

(** The file of the orders without four of its timestamp columns. *)
Definition short_dataset : FS :=
  [("dataset/olist_orders_dataset.csv", FCsv orders_csv)].

(** The mapping that holds the empty holidays table alone. *)
Definition no_holidays : Dict DataFrame := [("public_holidays", empty_holidays)].

(** A directory of cleaned tables in which the file of one table of the
    schema is gone. *)
Definition cleaned_schema : Dict (list string) :=
  [("olist_orders", ["order_purchase_timestamp"]); ("olist_sellers", [])].

Definition cleaned_dir : FS :=
  [ ("data_cleaned/_schema.json", FJson (json_dump cleaned_schema));
    ("data_cleaned/olist_orders.csv", FCsv orders_csv) ].

(** A directory of cleaned tables whose sidecar lists a date column that
    the file of the orders does not hold. *)
Definition stale_schema : Dict (list string) :=
  [("olist_sellers", []); ("olist_orders", ["order_approved_at"])].

Definition stale_dir : FS :=
  [ ("data_cleaned/_schema.json", FJson (json_dump stale_schema));
    ("data_cleaned/olist_orders.csv", FCsv orders_csv) ].

(** The source directory without the file of the last table. *)
Definition dataset_without_translation : FS := removelast full_dataset.

(** Two records of the feed that differ outside the schema. *)
Definition new_year : list (string * Json) :=
  [ ("date", JStr "2017-01-01"); ("localName", JStr "Confraternizacao Universal");
    ("name", JStr "New Year's Day"); ("countryCode", JStr "BR");
    ("fixed", JBool true); ("global", JBool true); ("launchYear", JNull) ].

Definition new_year_with_types : list (string * Json) :=
  new_year ++ [("types", JArr [JStr "Public"]); ("counties", JNull)].


Definition new_year_object : list (string * Json) :=
  ("date", JObj [("a", JInt 1)]) :: tl new_year.


(** The feed that answers with the records [items]. *)
Definition feed (items : list (list (string * Json))) : Net :=
  net (Response 200 (Decoded (JArr (map JObj items)))).

(** A script that only drops a view. *)
Definition drop_script : string := String.append "DROP VIEW IF EXISTS v;" (String LF "").

End Inputs.

(* ------------------------------------------------------------------ *)
(** * Properties of the text functions *)

Module TextFacts.

Import Text Spec.

Lemma rstrip_cons (c : ascii) (s : string) :
  rstrip (String c s) =
  match rstrip s with
  | EmptyString => if isspace c then EmptyString else String c EmptyString
  | String d r => String c (String d r)
  end.
Proof. reflexivity. Qed.

Lemma rstrip_idem (s : string) : rstrip (rstrip s) = rstrip s.
Proof.
  induction s as [|c s IH]; [reflexivity|].
  rewrite rstrip_cons.
  destruct (rstrip s) as [|d r] eqn:Hr.
  - destruct (isspace c) eqn:Hc; [reflexivity|].
    rewrite rstrip_cons. simpl. now rewrite Hc.
  - rewrite rstrip_cons, IH. reflexivity.
Qed.

Lemma lstrip_head (s : string) :
  match lstrip s with
  | EmptyString => True
  | String c _ => isspace c = false
  end.
Proof.
  induction s as [|c s IH]; simpl; [exact I|].
  destruct (isspace c) eqn:Hc; [exact IH | exact Hc].
Qed.

Lemma rstrip_head (c : ascii) (s : string) :
  isspace c = false -> exists r, rstrip (String c s) = String c r.
Proof.
  intros Hc. rewrite rstrip_cons. destruct (rstrip s) as [|d r].
  - rewrite Hc. now exists EmptyString.
  - now exists (String d r).
Qed.

Lemma lstrip_fixed (c : ascii) (s : string) :
  isspace c = false -> lstrip (String c s) = String c s.
Proof. intros Hc. simpl. now rewrite Hc. Qed.

Lemma strip_idem (s : string) : strip (strip s) = strip s.
Proof.
  unfold strip. pose proof (lstrip_head s) as Hh.
  destruct (lstrip s) as [|c t] eqn:Hl; [reflexivity|].
  destruct (rstrip_head c t Hh) as [r Hr]. rewrite Hr.
  rewrite (lstrip_fixed c r Hh), <- Hr. apply rstrip_idem.
Qed.

Lemma length_append (s t : string) :
  String.length (s ++ t) = String.length s + String.length t.
Proof. induction s as [|c s IH]; simpl; [reflexivity | now rewrite IH]. Qed.

Lemma append_assoc (s t u : string) : (s ++ t) ++ u = s ++ (t ++ u).
Proof. induction s as [|c s IH]; simpl; [reflexivity | now rewrite IH]. Qed.

Lemma append_nil_r (s : string) : s ++ "" = s.
Proof. induction s as [|c s IH]; simpl; [reflexivity | now rewrite IH]. Qed.


Lemma append_inj_r (s t u : string) : s ++ u = t ++ u -> s = t.
Proof.
  revert t. induction s as [|c s IH]; intros [|d t] H; simpl in H.
  - reflexivity.
  - apply (f_equal String.length) in H. simpl in H. rewrite length_append in H. lia.
  - apply (f_equal String.length) in H. simpl in H. rewrite length_append in H. lia.
  - injection H as -> H. f_equal. now apply IH.
Qed.


End TextFacts.

(* ------------------------------------------------------------------ *)
(** * Properties of dictionaries *)

Module DictFacts.

Import Frame.

Local Open Scope list_scope.

Lemma dict_set_fresh {V : Type} (d : Dict V) (k : string) (v : V) :
  ~ In k (keys d) -> dict_set d k v = d ++ [(k, v)].
Proof.
  induction d as [|[k' v'] d IH]; simpl; intros Hk; [reflexivity|].
  destruct (String.eqb_spec k k') as [->|Hne].
  - exfalso. apply Hk. now left.
  - rewrite IH; [reflexivity|]. intros Hin. apply Hk. now right.
Qed.


Lemma keys_app {V : Type} (d1 d2 : Dict V) : keys (d1 ++ d2) = keys d1 ++ keys d2.
Proof. unfold keys. apply map_app. Qed.



Lemma dict_get_set_same {V : Type} (d : Dict V) (k : string) (v : V) :
  dict_get (dict_set d k v) k = Some v.
Proof.
  induction d as [|[k' v'] d IH]; simpl.
  - now rewrite String.eqb_refl.
  - destruct (String.eqb_spec k k') as [->|Hne]; simpl.
    + now rewrite String.eqb_refl.
    + destruct (String.eqb_spec k k'); [contradiction | exact IH].
Qed.

Lemma dict_get_set_other {V : Type} (d : Dict V) (k k' : string) (v : V) :
  k' <> k -> dict_get (dict_set d k v) k' = dict_get d k'.
Proof.
  intros Hne. induction d as [|[k0 v0] d IH]; simpl.
  - destruct (String.eqb_spec k' k); [contradiction | reflexivity].
  - destruct (String.eqb_spec k k0) as [->|Hk]; simpl.
    + destruct (String.eqb_spec k' k0); [contradiction | reflexivity].
    + destruct (String.eqb_spec k' k0); [reflexivity | exact IH].
Qed.


Lemma in_dict_get {V : Type} (d : Dict V) (k : string) (v : V) :
  NoDup (keys d) -> In (k, v) d -> dict_get d k = Some v.
Proof.
  induction d as [|[k' v'] d IH]; simpl; intros Hd Hin; [contradiction|].
  inversion Hd as [|? ? Hk Hd']; subst.
  destruct Hin as [[= -> ->]|Hin].
  - now rewrite String.eqb_refl.
  - destruct (String.eqb_spec k k') as [->|Hne].
    + exfalso. apply Hk. change k' with (fst (k', v)). now apply in_map.
    + now apply IH.
Qed.

Lemma mem_In (x : string) (l : list string) : Text.mem x l = true <-> In x l.
Proof.
  induction l as [|y l IH]; simpl; [split; [discriminate | contradiction]|].
  rewrite orb_true_iff, IH. split.
  - intros [H|H]; [left; symmetry; now apply String.eqb_eq | now right].
  - intros [H|H]; [left; subst; apply String.eqb_refl | now right].
Qed.

(** A loop [for k, v in d.items(): out[k] = f(k, v)] over a dictionary
    writes the entries in order. *)
Lemma fold_dict_set_map {V W : Type} (f : string -> V -> W) (d : Dict V) (acc : Dict W) :
  NoDup (keys acc ++ keys d) ->
  fold_left (fun out kv => dict_set out (fst kv) (f (fst kv) (snd kv))) d acc
  = acc ++ map (fun kv => (fst kv, f (fst kv) (snd kv))) d.
Proof.
  revert acc. induction d as [|[k v] d IH]; intros acc Hnd; simpl.
  - now rewrite app_nil_r.
  - simpl in Hnd. pose proof (NoDup_remove_2 _ _ _ Hnd) as Hk.
    rewrite dict_set_fresh by (intros Hin; apply Hk, in_or_app; now left).
    rewrite IH.
    + now rewrite <- app_assoc.
    + rewrite keys_app. simpl. now rewrite <- app_assoc.
Qed.




End DictFacts.

(* ------------------------------------------------------------------ *)
(** * The cleaner: shape and idempotence *)

Module CleanerFacts.

Import Text Frame Cleaner Spec TextFacts DictFacts.

Local Open Scope list_scope.

Section WithPandas.

Context {P : Pandas}.


Lemma to_datetime_cell_idem (c : Cell) :
  to_datetime_cell (to_datetime_cell c) = to_datetime_cell c.
Proof.
  destruct c; simpl; try reflexivity;
    match goal with |- context [coerce_datetime ?x] => destruct (coerce_datetime x) end;
    reflexivity.
Qed.

Lemma to_datetime_cell_time_or_null (c : Cell) :
  is_time_or_null (to_datetime_cell c) = true.
Proof.
  destruct c; simpl; try reflexivity;
    match goal with |- context [coerce_datetime ?x] => destruct (coerce_datetime x) end;
    reflexivity.
Qed.





(** ** One column *)

Lemma clean_column_length (table_name label : string) (col : Column) :
  List.length (cells (clean_column table_name label col)) = List.length (cells col).
Proof.
  unfold clean_column, dt_normalize, to_datetime, series_map.
  repeat match goal with |- context [if ?b then _ else _] => destruct b end;
    simpl; repeat rewrite length_map; reflexivity.
Qed.


(** ** One table *)

Lemma empty_update_columns (sel : string -> Column -> bool)
    (f : Column -> Column) (df : DataFrame) :
  empty (update_columns sel f df) = empty df.
Proof. unfold empty, update_columns. simpl. now rewrite length_map. Qed.

Lemma labels_update_columns (sel : string -> Column -> bool)
    (f : Column -> Column) (df : DataFrame) :
  labels (update_columns sel f df) = labels df.
Proof.
  unfold labels, keys, update_columns. simpl. rewrite map_map.
  apply map_ext. intros [n c]. simpl. now destruct (sel n c).
Qed.

Lemma update_columns_twice (sel1 sel2 : string -> Column -> bool)
    (f1 f2 : Column -> Column) (df : DataFrame) :
  update_columns sel2 f2 (update_columns sel1 f1 df)
  = mkFrame (nrows df)
      (map (fun nc =>
              let c1 := if sel1 (fst nc) (snd nc) then f1 (snd nc) else snd nc in
              (fst nc, if sel2 (fst nc) c1 then f2 c1 else c1))
           (columns df)).
Proof.
  unfold update_columns. simpl. f_equal. rewrite map_map.
  apply map_ext. intros [n c]. simpl.
  destruct (sel1 n c); simpl; now destruct (sel2 n _).
Qed.

Lemma update_columns_absent (label : string) (f : Column -> Column) (df : DataFrame) :
  mem label (labels df) = false ->
  update_columns (fun col _ => String.eqb col label) f df = df.
Proof.
  destruct df as [n cols]. unfold update_columns, labels, keys. simpl.
  intros Habs. f_equal. induction cols as [|[l c] cols IH]; simpl in *; [reflexivity|].
  apply orb_false_iff in Habs as [Hl Hrest].
  rewrite String.eqb_sym, Hl. f_equal. now apply IH.
Qed.

Lemma clean_table_empty (table_name : string) (df : DataFrame) :
  empty df = true -> clean_table table_name df = df.
Proof.
  intros He.
  assert (H1 : _strip_object_columns df = df).
  { unfold _strip_object_columns. now rewrite He. }
  assert (H2 : _parse_dates_safe df None = df).
  { unfold _parse_dates_safe. now rewrite He. }
  assert (H3 : _normalize_holidays_date df = df).
  { unfold _normalize_holidays_date. now rewrite He. }
  unfold clean_table. rewrite H1, H2, H3. now destruct (mem _ _).
Qed.

(** On a table with rows and columns, [clean] is [clean_column] on every
    column. *)
Lemma clean_table_columns (table_name : string) (df : DataFrame) :
  empty df = false ->
  clean_table table_name df
  = mkFrame (nrows df)
      (map (fun nc => (fst nc, clean_column table_name (fst nc) (snd nc)))
           (columns df)).
Proof.
  intros He.
  unfold clean_table, _strip_object_columns, _parse_dates_safe. rewrite He.
  rewrite empty_update_columns, He.
  set (step := update_columns _ to_datetime _).
  assert (Hstep : step
    = mkFrame (nrows df)
        (map (fun nc => (fst nc,
                let col1 := if is_object (dtype (snd nc))
                            then series_map strip_value (snd nc) else snd nc in
                if mem (fst nc) _DATE_COLUMNS_KNOWN then to_datetime col1 else col1))
             (columns df))).
  { unfold step. rewrite update_columns_twice. reflexivity. }
  assert (Hnorm : _normalize_holidays_date step
    = update_columns (fun col _ => String.eqb col "date")
                     (fun col => dt_normalize (to_datetime col)) step).
  { unfold _normalize_holidays_date.
    assert (Hes : empty step = false).
    { unfold step. now rewrite !empty_update_columns. }
    rewrite Hes. simpl.
    destruct (mem "date" (labels step)) eqn:Hd; simpl; [reflexivity|].
    symmetry. now apply update_columns_absent. }
  unfold clean_column, is_holidays.
  destruct (mem (lower table_name) _HOLIDAYS_TABLE_HINTS); simpl.
  - rewrite Hnorm, Hstep. unfold update_columns. simpl. f_equal.
    rewrite map_map. apply map_ext. intros [n c]. simpl.
    now destruct (String.eqb n "date").
  - rewrite Hstep. reflexivity.
Qed.

Lemma clean_table_shape (table_name : string) (df : DataFrame) :
  same_shape df (clean_table table_name df).
Proof.
  destruct (empty df) eqn:He.
  - rewrite clean_table_empty by exact He. repeat split.
  - rewrite clean_table_columns by exact He.
    unfold same_shape, labels, keys. simpl. repeat split.
    + rewrite map_map. reflexivity.
    + rewrite map_map. apply map_ext. intros [n c]. simpl.
      apply clean_column_length.
Qed.


(** ** The mapping of tables *)

Lemma clean_dict (data_frames : Dict DataFrame) :
  NoDup (keys data_frames) ->
  clean data_frames
  = map (fun nd => (fst nd, clean_table (fst nd) (snd nd))) data_frames.
Proof.
  intros Hnd. unfold clean.
  now rewrite (fold_dict_set_map clean_table data_frames []).
Qed.



(** C8: every table passed through [clean] keeps its row count and its
    columns, names and order, with as many cells in each; the mapping
    keeps its table names. *)
Theorem clean_preserves_shape (data_frames : Dict DataFrame) :
  NoDup (keys data_frames) ->
  keys (clean data_frames) = keys data_frames
  /\ Forall2 (fun before after =>
                fst after = fst before /\ same_shape (snd before) (snd after))
             data_frames (clean data_frames).
Proof.
  intros Hnd. rewrite clean_dict by exact Hnd. split.
  - unfold keys. rewrite map_map. reflexivity.
  - clear Hnd. induction data_frames as [|[k df] l IH]; simpl; constructor.
    + simpl. split; [reflexivity | apply clean_table_shape].
    + exact IH.
Qed.

End WithPandas.

End CleanerFacts.

(* ------------------------------------------------------------------ *)
(** * Saving and loading cleaned tables *)

Module PersistFacts.

Import Text Frame Cleaner Spec TextFacts DictFacts CleanerFacts.

Local Open Scope list_scope.

Lemma In_insert_sorted (x y : string) (l : list string) :
  In x (insert_sorted y l) <-> x = y \/ In x l.
Proof.
  induction l as [|z l IH]; simpl.
  - intuition.
  - destruct (String.leb y z); simpl; [intuition|]. rewrite IH. intuition.
Qed.

Lemma In_sorted (x : string) (l : list string) : In x (sorted l) <-> In x l.
Proof.
  induction l as [|y l IH]; simpl; [reflexivity|].
  rewrite In_insert_sorted, IH. intuition.
Qed.

Lemma dict_get_map {V W : Type} (g : string -> V -> W) (d : Dict V) (k : string) :
  dict_get (map (fun kv => (fst kv, g (fst kv) (snd kv))) d) k
  = option_map (g k) (dict_get d k).
Proof.
  induction d as [|[k' v] d IH]; simpl; [reflexivity|].
  destruct (String.eqb_spec k k') as [->|]; [reflexivity | exact IH].
Qed.


Lemma json_strings_dump (l : list string) : json_strings (JArr (map JStr l)) = l.
Proof. simpl. induction l as [|x l IH]; simpl; [reflexivity | now rewrite IH]. Qed.

Lemma schema_items_dump (schema : Dict (list string)) :
  schema_items (json_dump schema) = Ok schema.
Proof.
  unfold schema_items, json_dump.
  assert (H : map (fun kv : string * Json => (fst kv, json_strings (snd kv)))
                  (map (fun nc : string * list string =>
                          (fst nc, JArr (map JStr (snd nc)))) schema)
              = schema).
  { induction schema as [|[k l] schema IH]; [reflexivity|].
    cbn [map fst snd]. rewrite json_strings_dump, IH. reflexivity. }
  now rewrite H.
Qed.

(** ** Paths *)



(** ** Loops that write one entry per table *)

Lemma fold_set_get_other {V W : Type} (key : string -> string) (val : V -> W)
    (d : Dict V) (acc : Dict W) (k : string) :
  (forall n, In n (keys d) -> key n <> k) ->
  dict_get (fold_left (fun f nd => dict_set f (key (fst nd)) (val (snd nd))) d acc) k
  = dict_get acc k.
Proof.
  revert acc. induction d as [|[n v] d IH]; intros acc Hk; simpl; [reflexivity|].
  rewrite IH.
  - apply dict_get_set_other. intros ->. apply (Hk n); [now left | reflexivity].
  - intros m Hm. apply Hk. now right.
Qed.


Section WithPandas.

Context {P : Pandas}.










End WithPandas.

End PersistFacts.

(* ------------------------------------------------------------------ *)
(** * Properties of the matcher *)

Module ReFacts.

Import Text Re Spec TextFacts.

Lemma greedy_inv {A : Type} (p : ascii -> bool) (s : string)
    (k : string -> option A) (a : A) :
  greedy p s k = Some a ->
  exists w rest, s = w ++ rest /\ k rest = Some a.
Proof.
  induction s as [|c s IH]; simpl.
  - intros H. now exists "", "".
  - destruct (p c).
    + destruct (greedy p s k) as [a'|] eqn:Hg.
      * intros [= ->]. destruct (IH eq_refl) as (w & rest & -> & Hk).
        now exists (String c w), rest.
      * intros H. now exists "", (String c s).
    + intros H. now exists "", (String c s).
Qed.

Lemma lazy_inv {A : Type} (p : ascii -> bool) (s : string)
    (k : string -> option A) (a : A) :
  lazy p s k = Some a ->
  exists w rest, s = w ++ rest /\ k rest = Some a.
Proof.
  induction s as [|c s IH]; simpl.
  - destruct (k "") eqn:Hk; [|discriminate]. intros [= ->]. now exists "", "".
  - destruct (k (String c s)) eqn:Hk.
    + intros [= ->]. now exists "", (String c s).
    + destruct (p c); [|discriminate]. intros H.
      destruct (IH H) as (w & rest & -> & Hr). now exists (String c w), rest.
Qed.

(** A match hands a suffix of the text to its continuation. *)
Lemma rmatch_inv {A : Type} (r : regex) :
  forall (s : string) (k : string -> option A) (a : A),
    rmatch r s k = Some a ->
    exists w rest, s = w ++ rest /\ k rest = Some a.
Proof.
  induction r as [| c | c | p | r1 IH1 r2 IH2 | r1 IH1 r2 IH2 | p | p | |];
    intros s k a; simpl.
  - intros H. now exists "", s.
  - destruct s as [|d s]; [discriminate|]. destruct (Ascii.eqb c d); [|discriminate].
    intros H. now exists (String d ""), s.
  - destruct s as [|d s]; [discriminate|].
    destruct (Ascii.eqb (lower_char c) (lower_char d)); [|discriminate].
    intros H. now exists (String d ""), s.
  - destruct s as [|d s]; [discriminate|]. destruct (p d); [|discriminate].
    intros H. now exists (String d ""), s.
  - intros H. apply IH1 in H as (w1 & s1 & -> & H).
    apply IH2 in H as (w2 & s2 & -> & H).
    exists (w1 ++ w2), s2. now rewrite append_assoc.
  - destruct (rmatch r1 s k) as [a'|] eqn:H1.
    + intros [= ->]. now apply IH1 in H1.
    + apply IH2.
  - apply greedy_inv.
  - apply lazy_inv.
  - destruct s as [|c [|d s]].
    + intros H. now exists "", "".
    + destruct (Ascii.eqb c LF); [|discriminate]. intros H. now exists "", (String c "").
    + discriminate.
  - destruct s as [|c s].
    + intros H. now exists "", "".
    + destruct (Ascii.eqb c LF); [|discriminate]. intros H. now exists "", (String c s).
Qed.

Lemma match_rest_suffix (r : regex) (s rest : string) :
  match_rest r s = Some rest -> exists w, s = w ++ rest.
Proof.
  unfold match_rest. intros H. apply rmatch_inv in H as (w & rest' & -> & [= ->]).
  now exists w.
Qed.

Lemma match_len_rest (r : regex) (s : string) (n : nat) :
  match_len r s = Some n ->
  exists w rest, s = w ++ rest /\ String.length w = n /\ match_rest r s = Some rest.
Proof.
  unfold match_len. destruct (match_rest r s) as [rest|] eqn:Hm; [|discriminate].
  intros [= <-]. destruct (match_rest_suffix _ _ _ Hm) as [w ->].
  exists w, rest. rewrite length_append. repeat split. lia.
Qed.

(** ** Reversal of the current piece *)

Lemma rev_string_acc (s acc : string) : rev_string acc s = rev_string "" s ++ acc.
Proof.
  revert acc. induction s as [|c s IH]; intros acc; simpl; [reflexivity|].
  rewrite (IH (String c acc)), (IH (String c "")), append_assoc. reflexivity.
Qed.

Lemma rev_string_cons (c : ascii) (s : string) :
  rev_string "" (String c s) = rev_string "" s ++ String c "".
Proof. simpl. apply rev_string_acc. Qed.

(** ** [split] *)

Lemma drop_append (w rest : string) : drop (String.length w) (w ++ rest) = rest.
Proof. induction w as [|c w IH]; simpl; [reflexivity | exact IH]. Qed.

Lemma split_at_skip (r : regex) (s : string) (n : nat) (piece : string) :
  split_at r s n piece = split_at r (drop n s) 0 piece.
Proof.
  revert s. induction n as [|n IH]; intros s; [reflexivity|].
  destruct s as [|c s]; [reflexivity|]. simpl. apply IH.
Qed.

(** The current piece is a prefix of the first piece returned. *)
Lemma split_at_piece (r : regex) (s : string) (piece : string) :
  exists p tl,
    split_at r s 0 "" = p :: tl
    /\ split_at r s 0 piece = (rev_string "" piece ++ p) :: tl.
Proof.
  revert piece.
  assert (Hgen : forall piece0 piece, exists p tl,
            split_at r s 0 piece0 = (rev_string "" piece0 ++ p) :: tl
            /\ split_at r s 0 piece = (rev_string "" piece ++ p) :: tl).
  { induction s as [|c s IH]; intros piece0 piece.
    - exists "", []. simpl. now rewrite !append_nil_r.
    - simpl. destruct (match_len r (String c s)) as [[|n]|].
      + destruct (IH (String c piece0) (String c piece)) as (p & tl & H0 & H1).
        exists (String c p), tl. rewrite H0, H1, !rev_string_cons, !append_assoc.
        now split.
      + exists "", (split_at r s n ""). now rewrite !append_nil_r.
      + destruct (IH (String c piece0) (String c piece)) as (p & tl & H0 & H1).
        exists (String c p), tl. rewrite H0, H1, !rev_string_cons, !append_assoc.
        now split. }
  intros piece. destruct (Hgen "" piece) as (p & tl & H0 & H1).
  exists p, tl. now split.
Qed.

(** The first cut of [split]: the text up to a match, then the rest of the
    text split in the same way. *)
Lemma split_first_cut (r : regex) (s p q : string) (tl : list string) :
  split r s = p :: q :: tl ->
  exists sep rest,
    s = p ++ sep ++ rest
    /\ match_rest r (sep ++ rest) = Some rest
    /\ sep <> ""
    /\ split r rest = q :: tl.
Proof.
  unfold split. revert p. induction s as [|c s IH]; intros p; simpl.
  - discriminate.
  - destruct (match_len r (String c s)) as [[|n]|] eqn:Hm.
    + destruct (split_at_piece r s (String c "")) as (p0 & tl0 & H0 & H1).
      rewrite H1. simpl. intros [= <- Htl]. rewrite Htl in H0.
      destruct (IH _ H0) as (sep & rest & -> & Hsep & Hne & Hrest).
      now exists sep, rest.
    + intros [= <- Hq].
      apply match_len_rest in Hm as (w & rest & Hs & Hlen & Hrest).
      destruct w as [|d w]; [discriminate Hlen|].
      simpl in Hs. injection Hs as <- ->. simpl in Hlen. injection Hlen as <-.
      exists (String c w), rest. repeat split.
      * exact Hrest.
      * discriminate.
      * unfold split. rewrite split_at_skip, drop_append in Hq. exact Hq.
    + destruct (split_at_piece r s (String c "")) as (p0 & tl0 & H0 & H1).
      rewrite H1. simpl. intros [= <- Htl]. rewrite Htl in H0.
      destruct (IH _ H0) as (sep & rest & -> & Hsep & Hne & Hrest).
      now exists sep, rest.
Qed.

End ReFacts.

(* ------------------------------------------------------------------ *)
(** * Where a script is divided into statements *)

Module SplitFacts.

Import Text Re Transform Spec TextFacts ReFacts.

Lemma all_chars_append (p : ascii -> bool) (s t : string) :
  all_chars p (s ++ t) = all_chars p s && all_chars p t.
Proof.
  induction s as [|c s IH]; simpl; [reflexivity|]. now rewrite IH, andb_assoc.
Qed.

Lemma greedy_inv_class {A : Type} (p : ascii -> bool) (s : string)
    (k : string -> option A) (a : A) :
  greedy p s k = Some a ->
  exists w rest, s = w ++ rest /\ all_chars p w = true /\ k rest = Some a.
Proof.
  induction s as [|c s IH]; simpl.
  - intros H. now exists "", "".
  - destruct (p c) eqn:Hc.
    + destruct (greedy p s k) as [a'|] eqn:Hg.
      * intros [= ->]. destruct (IH eq_refl) as (w & rest & -> & Hw & Hk).
        exists (String c w), rest. simpl. now rewrite Hc, Hw.
      * intros H. now exists "", (String c s).
    + intros H. now exists "", (String c s).
Qed.

Lemma line_break_inv (s rest : string) :
  rmatch line_break s (fun r => Some r) = Some rest ->
  s = String LF rest \/ s = String CR (String LF rest).
Proof.
  unfold line_break, opt. cbn [rmatch].
  destruct s as [|c s]; [discriminate|].
  destruct (Ascii.eqb_spec CR c) as [<-|Hcr].
  - destruct s as [|d s].
    + destruct (Ascii.eqb_spec LF CR); discriminate.
    + destruct (Ascii.eqb_spec LF d) as [<-|Hlf].
      * intros [= ->]. now right.
      * destruct (Ascii.eqb_spec LF CR); discriminate.
  - destruct (Ascii.eqb_spec LF c) as [<-|Hlf]; [|discriminate].
    intros [= ->]. now left.
Qed.

Lemma line_comment_inv (s rest : string) :
  rmatch line_comment s (fun r => Some r) = Some rest ->
  exists c, s = "--" ++ c ++ String LF rest /\ all_chars not_lf c = true.
Proof.
  unfold line_comment. cbn [rmatch lit].
  destruct s as [|c1 s]; [discriminate|].
  destruct (Ascii.eqb_spec "-" c1) as [<-|]; [|discriminate].
  destruct s as [|c2 s]; [discriminate|].
  destruct (Ascii.eqb_spec "-" c2) as [<-|]; [|discriminate].
  intros H. apply greedy_inv_class in H as (w & s' & -> & Hw & H).
  apply line_break_inv in H as [->| ->].
  - now exists w.
  - exists (w ++ String CR ""). rewrite all_chars_append, Hw.
    split; [|reflexivity]. simpl. now rewrite append_assoc.
Qed.

Lemma STMT_BOUNDARY_parts :
  STMT_BOUNDARY
  = Cat (Chr ";") (Cat (Star isspace) (Alt line_comment (Alt line_break EndS))).
Proof. reflexivity. Qed.

Lemma rmatch_semicolon_space {A : Type} (r : regex) (s : string)
    (k : string -> option A) :
  rmatch (Cat (Chr ";") (Cat (Star isspace) r)) s k
  = match s with
    | String c s' =>
        if Ascii.eqb ";" c then greedy isspace s' (fun s1 => rmatch r s1 k) else None
    | EmptyString => None
    end.
Proof. reflexivity. Qed.

Lemma rmatch_alternatives {A : Type} (r1 r2 r3 : regex) (s : string)
    (k : string -> option A) :
  rmatch (Alt r1 (Alt r2 r3)) s k
  = match rmatch r1 s k with
    | Some a => Some a
    | None =>
        match rmatch r2 s k with
        | Some a => Some a
        | None => rmatch r3 s k
        end
    end.
Proof. reflexivity. Qed.

Lemma rmatch_EndS {A : Type} (s : string) (k : string -> option A) :
  rmatch EndS s k
  = match s with
    | EmptyString => k s
    | String c EmptyString => if Ascii.eqb c LF then k s else None
    | _ => None
    end.
Proof. reflexivity. Qed.

(** The pattern of the splitter matches nothing but a boundary. *)
Lemma stmt_boundary_inv (s rest : string) :
  match_rest STMT_BOUNDARY s = Some rest ->
  exists sep, s = sep ++ rest /\ boundary sep rest.
Proof.
  unfold match_rest. rewrite STMT_BOUNDARY_parts, rmatch_semicolon_space.
  destruct s as [|c s]; [discriminate|].
  destruct (Ascii.eqb_spec ";" c) as [<-|]; [|discriminate].
  intros H. apply greedy_inv_class in H as (ws & s' & -> & Hws & H).
  rewrite rmatch_alternatives in H.
  destruct (rmatch line_comment s' (fun r => Some r)) as [r1|] eqn:H1.
  - injection H as ->. apply line_comment_inv in H1 as (c & -> & Hc).
    exists (";" ++ ws ++ "--" ++ c ++ String LF ""). split.
    + simpl. f_equal. rewrite !append_assoc. simpl. now rewrite !append_assoc.
    + now constructor.
  - destruct (rmatch line_break s' (fun r => Some r)) as [r2|] eqn:H2.
    + injection H as ->. apply line_break_inv in H2 as [->| ->].
      * exists (";" ++ ws ++ String LF ""). split.
        -- simpl. f_equal. now rewrite append_assoc.
        -- now constructor.
      * exists (";" ++ (ws ++ String CR "") ++ String LF ""). split.
        -- simpl. f_equal. now rewrite !append_assoc.
        -- constructor. now rewrite all_chars_append, Hws.
    + exists (";" ++ ws). rewrite rmatch_EndS in H.
      destruct s' as [|d [|e s'']].
      * injection H as <-. split; [reflexivity|]. constructor; [exact Hws | now left].
      * destruct (Ascii.eqb_spec d LF) as [->|]; [|discriminate].
        injection H as <-. split; [reflexivity|]. constructor; [exact Hws | now right].
      * discriminate.
Qed.

Lemma line_comment_none (c : ascii) (rest : string) :
  startswith (String c rest) "--" = false ->
  rmatch line_comment (String c rest) (fun r => Some r) = None.
Proof.
  unfold startswith, line_comment. cbn [rmatch lit String.prefix].
  destruct (Ascii.eqb_spec "-" c) as [<-|Hc].
  - destruct (ascii_dec "-" "-") as [_|Hn]; [|contradiction].
    destruct rest as [|d s']; [reflexivity|].
    destruct (Ascii.eqb_spec "-" d) as [<-|Hd]; [|reflexivity].
    destruct (ascii_dec "-" "-") as [_|Hn]; [|contradiction].
    destruct s'; discriminate.
  - reflexivity.
Qed.

Lemma line_break_none (c : ascii) (rest : string) :
  c <> LF ->
  (c = CR -> match rest with String e _ => e <> LF | EmptyString => True end) ->
  rmatch line_break (String c rest) (fun r => Some r) = None.
Proof.
  intros Hc Hnext. unfold line_break, opt. cbn [rmatch].
  destruct (Ascii.eqb_spec LF c) as [<-|_]; [contradiction|].
  destruct (Ascii.eqb_spec CR c) as [<-|_]; [|reflexivity].
  specialize (Hnext eq_refl).
  destruct rest as [|e tail]; [reflexivity|].
  destruct (Ascii.eqb_spec LF e) as [<-|_]; [contradiction | reflexivity].
Qed.

(** A semicolon with more text on its line is no boundary. *)
Lemma stmt_boundary_same_line (ws : string) (c : ascii) (rest : string) :
  all_chars isspace ws = true ->
  all_chars not_lf ws = true ->
  isspace c = false ->
  startswith (String c rest) "--" = false ->
  match_rest STMT_BOUNDARY (";" ++ ws ++ String c rest) = None.
Proof.
  intros Hws Hlf Hc Hcomment.
  assert (HcLF : c <> LF) by (intros ->; discriminate Hc).
  assert (HcCR : c <> CR) by (intros ->; discriminate Hc).
  unfold match_rest. rewrite STMT_BOUNDARY_parts, rmatch_semicolon_space.
  cbn [append]. change (Ascii.eqb ";" ";") with true. cbv iota.
  induction ws as [|d ws IH].
  - cbn [append greedy]. rewrite Hc, rmatch_alternatives.
    rewrite (line_comment_none c rest Hcomment).
    rewrite line_break_none; [|exact HcLF|intros; contradiction].
    rewrite rmatch_EndS. destruct rest; [|reflexivity].
    destruct (Ascii.eqb_spec c LF); [contradiction | reflexivity].
  - cbn [all_chars] in Hws, Hlf. apply andb_true_iff in Hws as [Hd Hws].
    apply andb_true_iff in Hlf as [Hdlf Hlf].
    assert (HdLF : d <> LF).
    { intros ->. discriminate Hdlf. }
    cbn [append greedy]. rewrite Hd, (IH Hws Hlf), rmatch_alternatives.
    rewrite line_comment_none.
    + rewrite line_break_none; [|exact HdLF|].
      * rewrite rmatch_EndS.
        destruct (ws ++ String c rest) eqn:Htail; [|reflexivity].
        destruct ws; discriminate Htail.
      * intros _. destruct ws as [|e ws]; cbn [append]; [exact HcLF|].
        cbn [all_chars] in Hlf. apply andb_true_iff in Hlf as [He _].
        intros ->. discriminate He.
    + unfold startswith. cbn [String.prefix].
      destruct (ascii_dec "-" d) as [<-|_]; [discriminate Hd | reflexivity].
Qed.

Lemma no_lf_append_lf (a b : string) : all_chars not_lf (a ++ String LF b) = false.
Proof.
  rewrite all_chars_append. cbn [all_chars]. unfold not_lf at 2.
  rewrite Ascii.eqb_refl. cbn [negb andb]. apply andb_false_r.
Qed.

(** On one line, the only boundary is the one at the end of the text. *)
Lemma split_one_line (s piece : string) :
  all_chars not_lf s = true ->
  split_at STMT_BOUNDARY s 0 piece = [rev_string "" piece ++ s]
  \/ exists a, split_at STMT_BOUNDARY s 0 piece = [a; ""].
Proof.
  revert piece. induction s as [|c s IH]; intros piece Hlf.
  - left. simpl. now rewrite append_nil_r.
  - assert (Hlf' : all_chars not_lf s = true).
    { cbn [all_chars] in Hlf. now apply andb_true_iff in Hlf as [_ H]. }
    assert (Hnext : split_at STMT_BOUNDARY s 0 (String c piece)
                      = [rev_string "" piece ++ String c s]
                    \/ exists a, split_at STMT_BOUNDARY s 0 (String c piece) = [a; ""]).
    { destruct (IH (String c piece) Hlf') as [H|H]; [left|now right].
      rewrite H, rev_string_cons, append_assoc. reflexivity. }
    cbn [split_at].
    destruct (match_len STMT_BOUNDARY (String c s)) as [[|n]|] eqn:Hm;
      [exact Hnext | | exact Hnext].
    right. exists (rev_string "" piece).
    apply match_len_rest in Hm as (w & rest & Hs & Hlen & Hrest).
    apply stmt_boundary_inv in Hrest as (sep & Hsep & Hb).
    assert (Hsep_lf : all_chars not_lf sep = true).
    { rewrite Hsep, all_chars_append in Hlf. now apply andb_true_iff in Hlf as [H _]. }
    assert (Hrest_lf : all_chars not_lf rest = true).
    { rewrite Hsep, all_chars_append in Hlf. now apply andb_true_iff in Hlf as [_ H]. }
    assert (Hempty : rest = "").
    { inversion Hb as [ws cm r Hws Hcm Heq Hr | ws r Hws Heq Hr | ws r Hws Hend Heq Hr];
        subst.
      - exfalso.
        replace (";" ++ ws ++ "--" ++ cm ++ String LF "")
          with ((";" ++ ws ++ "--" ++ cm) ++ String LF "") in Hsep_lf
          by (cbn [append]; now rewrite !append_assoc).
        rewrite no_lf_append_lf in Hsep_lf. discriminate Hsep_lf.
      - exfalso.
        replace (";" ++ ws ++ String LF "")
          with ((";" ++ ws) ++ String LF "") in Hsep_lf
          by (cbn [append]; reflexivity).
        rewrite no_lf_append_lf in Hsep_lf. discriminate Hsep_lf.
      - destruct Hend as [->| ->]; [reflexivity|]. discriminate Hrest_lf. }
    subst rest. rewrite append_nil_r in Hs. subst w.
    cbn [String.length] in Hlen. injection Hlen as <-.
    rewrite split_at_skip.
    replace (drop (String.length s) s) with "".
    + reflexivity.
    + symmetry. rewrite <- (append_nil_r s) at 2. apply drop_append.
Qed.

Lemma strip_empty : strip "" = "".
Proof. reflexivity. Qed.

(** C10: the splitter divides a script only at a semicolon followed by
    white space and then a line comment with its line break, a line
    break, or the end of the input; a semicolon followed by more text on
    the same line ends no statement; so a script written on one line is
    at most one statement, as the three statements of the example are. *)
Theorem statements_end_their_line :
  (forall sql p q tl,
      split STMT_BOUNDARY sql = p :: q :: tl ->
      exists sep rest,
        sql = p ++ sep ++ rest
        /\ boundary sep rest
        /\ split STMT_BOUNDARY rest = q :: tl)
  /\ (forall ws c rest,
        all_chars isspace ws = true ->
        all_chars not_lf ws = true ->
        isspace c = false ->
        startswith (String c rest) "--" = false ->
        match_rest STMT_BOUNDARY (";" ++ ws ++ String c rest) = None)
  /\ (forall sql,
        all_chars not_lf sql = true ->
        List.length (_split_sql_statements sql) <= 1)
  /\ _split_sql_statements
       "DROP VIEW IF EXISTS v; CREATE VIEW v AS SELECT 1 AS x; SELECT * FROM v;"
     = ["DROP VIEW IF EXISTS v; CREATE VIEW v AS SELECT 1 AS x; SELECT * FROM v"].
Proof.
  split; [|split; [|split]].
  - intros sql p q tl Hsplit.
    apply split_first_cut in Hsplit as (sep & rest & Hsql & Hm & _ & Hrest).
    apply stmt_boundary_inv in Hm as (sep' & Heq & Hb).
    apply append_inj_r in Heq. subst sep'.
    now exists sep, rest.
  - exact stmt_boundary_same_line.
  - intros sql Hlf. unfold _split_sql_statements, split.
    destruct (split_one_line sql "" Hlf) as [H|[a H]]; rewrite H; cbn [filter].
    + destruct (truthy (strip _)); cbn [map filter]; [|apply Nat.le_0_l].
      destruct (truthy (_normalize_stmt _)); simpl; lia.
    + rewrite strip_empty. cbn [truthy].
      destruct (truthy (strip a)); cbn [map filter]; [|apply Nat.le_0_l].
      destruct (truthy (_normalize_stmt _)); simpl; lia.
  - vm_compute. reflexivity.
Qed.

End SplitFacts.

(* ------------------------------------------------------------------ *)
(** * The query runner *)

Module QueryFacts.

Import Text Re Transform Frame Sql Query Spec TextFacts ReFacts SplitFacts Doubles.

Local Open Scope list_scope.

(** ** Scans from the last statement to the first *)

Lemma existsb_false_In {A : Type} (pred : A -> bool) (l : list A) (x : A) :
  existsb pred l = false -> In x l -> pred x = false.
Proof.
  intros Hex Hin. destruct (pred x) eqn:Hx; [|reflexivity].
  rewrite <- Hex. symmetry. apply existsb_exists. now exists x.
Qed.

Lemma scan_down_none (pred : string -> bool) (stmts : list string) (n : nat) :
  n <= List.length stmts ->
  existsb pred stmts = false ->
  scan_down pred stmts n = None.
Proof.
  intros Hn Hex. induction n as [|i IH]; [reflexivity|]. simpl.
  rewrite (existsb_false_In pred stmts (nth i stmts "") Hex) by (apply nth_In; lia).
  apply IH. lia.
Qed.

Lemma scan_down_last (pred : string -> bool) (pre : list string) (t : string)
    (post : list string) :
  pred t = true ->
  existsb pred post = false ->
  scan_down pred (pre ++ t :: post) (List.length (pre ++ t :: post))
  = Some (List.length pre).
Proof.
  intros Ht Hpost.
  assert (Hgen : forall extra,
    scan_down pred (pre ++ t :: post ++ extra) (List.length pre + S (List.length post))
    = Some (List.length pre)).
  { induction post as [|x post' IH] using rev_ind; intros extra.
    - simpl. rewrite Nat.add_1_r. simpl. now rewrite nth_middle, Ht.
    - rewrite existsb_app in Hpost. apply orb_false_iff in Hpost as [Hpost' Hx].
      simpl in Hx. rewrite orb_false_r in Hx.
      rewrite length_app. simpl. rewrite Nat.add_1_r, Nat.add_succ_r. simpl.
      replace (pre ++ t :: (post' ++ [x]) ++ extra)
        with ((pre ++ t :: post') ++ x :: extra)
        by list_assoc.
      replace (List.length pre + S (List.length post'))
        with (List.length (pre ++ t :: post')) at 1
        by (rewrite length_app; reflexivity).
      rewrite nth_middle, Hx.
      replace ((pre ++ t :: post') ++ x :: extra)
        with (pre ++ t :: post' ++ (x :: extra))
        by list_assoc.
      apply (IH Hpost'). }
  specialize (Hgen []). rewrite app_nil_r in Hgen.
  rewrite length_app. exact Hgen.
Qed.

Lemma scan_down_view_last (pre : list string) (t : string) (post : list string)
    (v : string) :
  _extract_created_view_name t = Some v ->
  truthy v = true ->
  (forall p, In p post -> _extract_created_view_name p = None) ->
  scan_down_view (pre ++ t :: post) (List.length (pre ++ t :: post)) = Some v.
Proof.
  intros Ht Hv Hpost.
  assert (Hgen : forall extra,
    scan_down_view (pre ++ t :: post ++ extra) (List.length pre + S (List.length post))
    = Some v).
  { induction post as [|x post' IH] using rev_ind; intros extra.
    - simpl. rewrite Nat.add_1_r. simpl. now rewrite nth_middle, Ht, Hv.
    - rewrite length_app. simpl. rewrite Nat.add_1_r, Nat.add_succ_r. simpl.
      replace (pre ++ t :: (post' ++ [x]) ++ extra)
        with ((pre ++ t :: post') ++ x :: extra)
        by list_assoc.
      replace (List.length pre + S (List.length post'))
        with (List.length (pre ++ t :: post')) at 1
        by (rewrite length_app; reflexivity).
      rewrite nth_middle, (Hpost x) by (apply in_or_app; right; now left).
      replace ((pre ++ t :: post') ++ x :: extra)
        with (pre ++ t :: post' ++ (x :: extra))
        by list_assoc.
      apply IH. intros p Hp. apply Hpost, in_or_app. now left. }
  specialize (Hgen []). rewrite app_nil_r in Hgen.
  rewrite length_app. exact Hgen.
Qed.

(** ** The name of a created view is not empty *)

Lemma substring_head (n : nat) (c : ascii) (s : string) :
  String.substring 0 (S n) (String c s) = String c (String.substring 0 n s).
Proof. reflexivity. Qed.

Lemma group_text_nonempty (d : ascii) (w rest g : string) :
  Some (String.substring 0
          (String.length (String d (w ++ rest)) - String.length rest)
          (String d (w ++ rest))) = Some g ->
  truthy g = true.
Proof.
  assert (Hlen : String.length (String d (w ++ rest)) - String.length rest
                 = S (String.length w)).
  { cbn [String.length]. rewrite length_append. lia. }
  rewrite Hlen. now intros [= <-].
Qed.

Lemma group_here_nonempty (s g : string) :
  group_here VIEW_PRE VIEW_NAME VIEW_POST s = Some g -> truthy g = true.
Proof.
  unfold group_here. intros H.
  apply rmatch_inv in H as (w & s1 & _ & H).
  unfold VIEW_NAME in H. cbn [rmatch] in H.
  destruct s1 as [|d s1']; [discriminate|].
  destruct (ident_start d); [|discriminate].
  apply greedy_inv in H as (w1 & s2 & -> & H).
  apply rmatch_inv in H as (w2 & s3 & _ & H).
  exact (group_text_nonempty d w1 s2 g H).
Qed.

Lemma view_name_nonempty (stmt v : string) :
  _extract_created_view_name stmt = Some v -> truthy v = true.
Proof.
  unfold _extract_created_view_name.
  induction stmt as [|c stmt IH]; cbn [search_group].
  - destruct (group_here VIEW_PRE VIEW_NAME VIEW_POST "") eqn:Hg; [|discriminate].
    intros [= <-]. exact (group_here_nonempty _ _ Hg).
  - destruct (group_here VIEW_PRE VIEW_NAME VIEW_POST (String c stmt)) eqn:Hg.
    + intros [= <-]. exact (group_here_nonempty _ _ Hg).
    + exact IH.
Qed.

(** ** Text without statements *)

Lemma strip_empty_all_space (s : string) :
  strip s = "" -> all_chars isspace s = true.
Proof.
  unfold strip. induction s as [|c s IH]; [reflexivity|].
  cbn [lstrip all_chars]. destruct (isspace c) eqn:Hc.
  - exact IH.
  - intros H. destruct (rstrip_head c s Hc) as [r Hr]. rewrite Hr in H. discriminate H.
Qed.

Lemma split_all_space (s piece : string) :
  all_chars isspace s = true ->
  split_at STMT_BOUNDARY s 0 piece = [(rev_string "" piece ++ s)%string].
Proof.
  revert piece. induction s as [|c s IH]; intros piece Hs.
  - simpl. now rewrite append_nil_r.
  - cbn [all_chars] in Hs. apply andb_true_iff in Hs as [Hc Hs].
    cbn [split_at].
    assert (Hm : match_len STMT_BOUNDARY (String c s) = None).
    { unfold match_len, match_rest.
      rewrite STMT_BOUNDARY_parts, rmatch_semicolon_space.
      destruct (Ascii.eqb_spec ";" c) as [<-|]; [discriminate Hc | reflexivity]. }
    rewrite Hm, (IH _ Hs), rev_string_cons, append_assoc. reflexivity.
Qed.

Lemma blank_script_no_statements (sql : string) :
  truthy (strip sql) = false -> _split_sql_statements sql = [].
Proof.
  intros Hblank. assert (Hs : strip sql = "") by (now destruct (strip sql)).
  unfold _split_sql_statements, split.
  rewrite split_all_space by (now apply strip_empty_all_space).
  cbn [rev_string append filter]. now rewrite Hblank.
Qed.

Lemma statements_truthy (sql : string) :
  Forall (fun stmt => truthy stmt = true) (_split_sql_statements sql).
Proof.
  unfold _split_sql_statements. apply Forall_forall. intros x Hx.
  now apply filter_In in Hx as [_ Hx].
Qed.

Section WithEngine.

Context {E : Engine}.

(** ** The setup loop *)

Lemma run_setup_past_target (stmts : list string) (idx i : nat) (s : Store) :
  i < idx ->
  Forall (fun stmt => truthy stmt = true) stmts ->
  run_setup stmts idx (Some i) s = exec_each stmts s.
Proof.
  intros Hi Hall. revert idx s Hi.
  induction Hall as [|stmt stmts Hstmt _ IH]; intros idx s Hi; [reflexivity|].
  cbn [run_setup exec_each].
  replace (idx =? i)%nat with false by (symmetry; apply Nat.eqb_neq; lia).
  rewrite Hstmt. cbn [negb].
  destruct (exec_driver_sql stmt s); [|reflexivity]. apply IH. lia.
Qed.

Lemma run_setup_no_target (stmts : list string) (idx : nat) (s : Store) :
  Forall (fun stmt => truthy stmt = true) stmts ->
  run_setup stmts idx None s = exec_each stmts s.
Proof.
  intros Hall. revert idx s.
  induction Hall as [|stmt stmts Hstmt _ IH]; intros idx s; [reflexivity|].
  cbn [run_setup exec_each]. rewrite Hstmt. cbn [negb].
  destruct (exec_driver_sql stmt s); [|reflexivity]. apply IH.
Qed.

Lemma run_setup_skips_target (pre : list string) (t : string) (post : list string)
    (idx : nat) (s : Store) :
  Forall (fun stmt => truthy stmt = true) (pre ++ t :: post) ->
  run_setup (pre ++ t :: post) idx (Some (idx + List.length pre)) s
  = exec_each (pre ++ post) s.
Proof.
  revert idx s. induction pre as [|a pre IH]; intros idx s Hall.
  - cbn [app List.length run_setup]. rewrite Nat.add_0_r, Nat.eqb_refl.
    apply run_setup_past_target; [lia|]. now inversion Hall.
  - inversion Hall as [|? ? Ha Hall']; subst.
    cbn [app List.length run_setup exec_each].
    replace (idx =? idx + S (List.length pre))%nat with false
      by (symmetry; apply Nat.eqb_neq; lia).
    rewrite Ha. cbn [negb].
    destruct (exec_driver_sql a s) as [s'|e]; [|reflexivity].
    replace (idx + S (List.length pre)) with (S idx + List.length pre) by lia.
    now apply IH.
Qed.

(** ** The runner on a script with statements *)

Lemma run_df_statements (fs : FS) (name : string) (params : option Params)
    (s : Store) (sql : string) (stmts : list string) :
  _read_sql fs name = Ok sql ->
  _split_sql_statements sql = stmts ->
  stmts <> [] ->
  _run_df fs name params s
  = let last_select_idx := scan_down _is_select_like stmts (List.length stmts) in
    match run_setup stmts 0 last_select_idx s with
    | (Raise e, s') => (Raise e, s')
    | (Ok _, s') =>
        match last_select_idx with
        | Some i => (read_sql_query (nth i stmts "") (params_or_empty params) s', s')
        | None =>
            match scan_down_view stmts (List.length stmts) with
            | Some v =>
                (read_sql_query ("SELECT * FROM " ++ v)%string
                                (params_or_empty params) s', s')
            | None => (Ok no_frame, s')
            end
        end
    end.
Proof.
  intros Hread Hsplit Hne. unfold _run_df. rewrite Hread.
  destruct (truthy (strip sql)) eqn:Hblank.
  - cbn [negb]. rewrite Hsplit.
    destruct stmts as [|stmt stmts']; [contradiction|].
    cbv zeta. destruct (scan_down _ _ _); reflexivity.
  - exfalso. apply Hne. rewrite <- Hsplit. now apply blank_script_no_statements.
Qed.

Lemma run_df_last_select (fs : FS) (name : string) (params : option Params)
    (s : Store) (sql : string) (pre : list string) (t : string) (post : list string) :
  _read_sql fs name = Ok sql ->
  _split_sql_statements sql = pre ++ t :: post ->
  _is_select_like t = true ->
  existsb _is_select_like post = false ->
  _run_df fs name params s = fetch t params (exec_each (pre ++ post) s).
Proof.
  intros Hread Hsplit Ht Hpost.
  rewrite (run_df_statements fs name params s sql (pre ++ t :: post) Hread Hsplit)
    by (now destruct pre).
  cbv zeta. rewrite (scan_down_last _is_select_like pre t post Ht Hpost).
  change (Some (List.length pre)) with (Some (0 + List.length pre)).
  rewrite (run_setup_skips_target pre t post 0 s)
    by (rewrite <- Hsplit; apply statements_truthy).
  cbn [Nat.add].
  rewrite nth_middle. unfold fetch.
  destruct (exec_each (pre ++ post) s) as [[u|e] s']; reflexivity.
Qed.

Lemma run_df_fallback_view (fs : FS) (name : string) (params : option Params)
    (s : Store) (sql : string) (pre : list string) (t : string) (post : list string)
    (v : string) :
  _read_sql fs name = Ok sql ->
  _split_sql_statements sql = pre ++ t :: post ->
  existsb _is_select_like (pre ++ t :: post) = false ->
  _extract_created_view_name t = Some v ->
  (forall p, In p post -> _extract_created_view_name p = None) ->
  _run_df fs name params s
  = fetch ("SELECT * FROM " ++ v)%string params (exec_each (pre ++ t :: post) s).
Proof.
  intros Hread Hsplit Hnone Ht Hpost.
  rewrite (run_df_statements fs name params s sql (pre ++ t :: post) Hread Hsplit)
    by (now destruct pre).
  cbv zeta. rewrite (scan_down_none _is_select_like _ _ (le_n _) Hnone).
  rewrite run_setup_no_target by (rewrite <- Hsplit; apply statements_truthy).
  rewrite (scan_down_view_last pre t post v Ht (view_name_nonempty _ _ Ht) Hpost).
  unfold fetch.
  destruct (exec_each (pre ++ t :: post) s) as [[u|e] s']; reflexivity.
Qed.

(** C7: a missing script file is a hard failure, [FileNotFoundError];
    a script file whose content is empty, or blank, gives the empty table
    at once: the engine is not consulted and the store is as it was. *)
Theorem missing_script_fails_empty_script_is_empty
    (fs : FS) (query_name : string) (params : option Params) (s : Store) :
  let path := path_join _QUERIES_DIR (query_name ++ ".sql")%string in
  (dict_get fs path = None ->
   _run_df fs query_name params s = (Raise (FileNotFoundError path), s))
  /\ (dict_get fs path = Some (FText "") ->
      _run_df fs query_name params s = (Ok no_frame, s))
  /\ (forall txt,
        dict_get fs path = Some (FText txt) ->
        strip (replace_cr (replace_crlf txt)) = ""%string ->
        _run_df fs query_name params s = (Ok no_frame, s)).
Proof.
  cbv zeta. unfold _run_df, _read_sql. repeat split.
  - intros ->. reflexivity.
  - intros ->. reflexivity.
  - intros txt -> Hblank. now rewrite Hblank.
Qed.

End WithEngine.

(** On every engine, the three statements written on one line are run in
    one call, and the rows come from the view by the fallback. *)
Lemma one_line_script_on_any_engine (E : Engine) (s : Store) :
  _run_df (one_script script_on_one_line) "v" None s
  = fetch "SELECT * FROM v" None
      (exec_each
         ["DROP VIEW IF EXISTS v; CREATE VIEW v AS SELECT 1 AS x; SELECT * FROM v"]
         s).
Proof.
  apply (run_df_fallback_view (one_script script_on_one_line) "v" None s
           script_on_one_line []
           "DROP VIEW IF EXISTS v; CREATE VIEW v AS SELECT 1 AS x; SELECT * FROM v"
           [] "v").
  - reflexivity.
  - vm_compute. reflexivity.
  - vm_compute. reflexivity.
  - vm_compute. reflexivity.
  - intros p [].
Qed.

(** C2, as the code has it: when every statement of the script ends its
    line, the runner returns the rows of the last statement that starts
    with [select] or [with], after running the other statements in order;
    when no statement starts so and a statement creates a view, it
    returns [SELECT * FROM] the view of the last such statement, after
    running all statements.  So the three-statement script, written one
    statement per line, gives one row and one column with value 1 on the
    engine [Lite], and so does the script that only creates the view, by
    the fallback. *)
Theorem last_select_or_created_view :
  (forall (E : Engine) (fs : FS) (name : string) (params : option Params)
          (s : Store) (sql : string) (pre : list string) (t : string)
          (post : list string),
      _read_sql fs name = Ok sql ->
      _split_sql_statements sql = pre ++ t :: post ->
      _is_select_like t = true ->
      existsb _is_select_like post = false ->
      _run_df fs name params s = fetch t params (exec_each (pre ++ post) s))
  /\ (forall (E : Engine) (fs : FS) (name : string) (params : option Params)
             (s : Store) (sql : string) (pre : list string) (t : string)
             (post : list string) (v : string),
        _read_sql fs name = Ok sql ->
        _split_sql_statements sql = pre ++ t :: post ->
        existsb _is_select_like (pre ++ t :: post) = false ->
        _extract_created_view_name t = Some v ->
        (forall p, In p post -> _extract_created_view_name p = None) ->
        _run_df fs name params s
        = fetch ("SELECT * FROM " ++ v)%string params
                (exec_each (pre ++ t :: post) s))
  /\ fst (_run_df (E := Lite) (one_script script_by_lines) "v" None empty_db)
     = Ok one_by_one
  /\ fst (_run_df (E := Lite) (one_script script_view_only) "v" None empty_db)
     = Ok one_by_one.
Proof.
  split; [|split; [|split]].
  - intros E. apply run_df_last_select.
  - intros E. apply run_df_fallback_view.
  - vm_compute. reflexivity.
  - vm_compute. reflexivity.
Qed.

Lemma last_select_or_created_view_witness :
  (_read_sql (one_script script_by_lines) "v" = Ok script_by_lines
   /\ _split_sql_statements script_by_lines
      = ["DROP VIEW IF EXISTS v"; "CREATE VIEW v AS SELECT 1 AS x"]
        ++ "SELECT * FROM v" :: []
   /\ _is_select_like "SELECT * FROM v" = true
   /\ existsb _is_select_like [] = false)
  /\ _run_df (E := Lite) (one_script script_by_lines) "v" None empty_db
     = fetch "SELECT * FROM v" None
         (exec_each (["DROP VIEW IF EXISTS v"; "CREATE VIEW v AS SELECT 1 AS x"] ++ [])
                    empty_db).
Proof.
  split.
  - repeat split; vm_compute; reflexivity.
  - apply (proj1 last_select_or_created_view Lite (one_script script_by_lines) "v"
             None empty_db script_by_lines);
      vm_compute; reflexivity.
Defined.

(** The three-statement script as C2 writes it, on one line, is one
    statement for the splitter; the runner hands the whole line to the
    engine in one call, which [Lite], as SQLite, refuses: the runner
    raises and returns no row. *)
Lemma one_line_script_is_refused :
  _split_sql_statements script_on_one_line
  = ["DROP VIEW IF EXISTS v; CREATE VIEW v AS SELECT 1 AS x; SELECT * FROM v"]
  /\ fst (_run_df (E := Lite) (one_script script_on_one_line) "v" None empty_db)
     = Raise (EngineError "unsupported statement")
  /\ fst (_run_df (E := Lite) (one_script script_on_one_line) "v" None empty_db)
     <> Ok one_by_one.
Proof.
  split; [|split].
  - vm_compute. reflexivity.
  - vm_compute. reflexivity.
  - vm_compute. discriminate.
Qed.

Lemma missing_script_fails_empty_script_is_empty_witness :
  (dict_get (one_script "") (path_join _QUERIES_DIR ("w" ++ ".sql")%string) = None
   /\ _run_df (E := Lite) (one_script "") "w" None empty_db
      = (Raise (FileNotFoundError "queries/w.sql"), empty_db))
  /\ (dict_get (one_script "") (path_join _QUERIES_DIR ("v" ++ ".sql")%string)
      = Some (FText "")
      /\ _run_df (E := Lite) (one_script "") "v" None empty_db = (Ok no_frame, empty_db)).
Proof.
  split; split.
  - reflexivity.
  - apply (proj1 (missing_script_fails_empty_script_is_empty
                    (E := Lite) (one_script "") "w" None empty_db)).
    reflexivity.
  - reflexivity.
  - apply (proj1 (proj2 (missing_script_fails_empty_script_is_empty
                           (E := Lite) (one_script "") "v" None empty_db))).
    reflexivity.
Defined.

End QueryFacts.

(* ------------------------------------------------------------------ *)
(** * The extractor: the holidays table *)

Module ExtractFacts.

Import Text Frame Cleaner Extract Spec Notions DictFacts CleanerFacts Doubles.

Local Open Scope list_scope.

Lemma url_truthy (base_url year country : string) :
  truthy (rstrip_slash base_url ++ "/" ++ year ++ "/" ++ country)%string = true.
Proof. now destruct (rstrip_slash base_url). Qed.

Section WithLibraries.

Context {P : Pandas} {W : Net}.

Lemma empty_holidays_schema : holiday_schema empty_holidays /\ nrows empty_holidays = 0.
Proof.
  split; [split|]; [reflexivity | | reflexivity].
  eexists. repeat split; reflexivity.
Qed.

Lemma stamp_cell_time_or_null (d : Scalar) : is_time_or_null (stamp_cell d) = true.
Proof. destruct d; [reflexivity | reflexivity | apply to_datetime_cell_time_or_null]. Qed.

Lemma holidays_table_schema (n : nat) (dates : list Scalar) (rows : list (list Cell)) :
  holiday_schema
    (mkFrame n (("date", mkColumn DDatetime (map stamp_cell dates)) :: other_columns rows)).
Proof.
  split; [reflexivity|].
  eexists. split; [reflexivity|]. split; [reflexivity|].
  cbn [cells]. apply forallb_forall. intros c Hc.
  apply in_map_iff in Hc as [d [<- _]]. apply stamp_cell_time_or_null.
Qed.

Lemma normalize_schema (data : option Json) (h : Holidays) :
  _normalize_public_holidays data = Ok h -> holiday_schema (table h).
Proof.
  unfold _normalize_public_holidays.
  destruct data as [v|]; [|intros [= <-]; apply empty_holidays_schema].
  destruct (json_truthy v); cbn [negb]; [|intros [= <-]; apply empty_holidays_schema].
  destruct (iterate v) as [items|e]; cbn [bind]; [|discriminate].
  destruct (holiday_rows items) as [rows|e]; cbn [bind]; [|discriminate].
  cbv zeta. destruct (zone_of_dates (map fst rows)) as [z|e]; cbn [bind]; [|discriminate].
  intros [= <-]. apply holidays_table_schema.
Qed.







(** ** [extract] *)

Lemma readable_read (fs : FS) (csv_folder t f : string) :
  readable fs csv_folder (t, f) = true ->
  exists csv,
    dict_get fs (path_join csv_folder f) = Some (FCsv csv)
    /\ _read_csv_stable csv t = Ok (read_columns csv (timestamp_cols t)).
Proof.
  unfold readable. cbn [fst snd].
  destruct (dict_get fs (path_join csv_folder f)) as [[txt|csv|doc]|];
    try discriminate.
  intros Hcols. apply andb_true_iff in Hcols as [_ Hcols].
  exists csv. split; [reflexivity|].
  unfold _read_csv_stable, read_csv. fold (timestamp_cols t).
  unfold has_columns in Hcols. now rewrite Hcols.
Qed.

Lemma read_tables_present (fs : FS) (csv_folder : string)
    (table_to_csv : Dict string) (result : Dict DataFrame) :
  forallb (readable fs csv_folder) table_to_csv = true ->
  exists r, read_tables fs csv_folder table_to_csv result = Ok r.
Proof.
  revert result. induction table_to_csv as [|[t f] rest IH]; intros result Hfiles.
  - now exists result.
  - cbn [forallb] in Hfiles. apply andb_true_iff in Hfiles as [Hf Hrest].
    destruct (readable_read fs csv_folder t f Hf) as (csv & Hcsv & Hread).
    cbn [read_tables]. rewrite Hcsv, Hread. cbn [bind]. now apply IH.
Qed.

(** C9: whatever [extract] returns holds a table [public_holidays] of the
    holiday schema; when no holidays URL is given, that table is the
    empty table of the schema, its [date] naive, and [extract] returns
    once every source file is there and holds the timestamp columns of
    its table. *)
Theorem extract_has_public_holidays (fs : FS) (csv_folder : string)
    (table_to_csv : Dict string) (public_holidays_url : option string) :
  (forall r, extract fs csv_folder table_to_csv public_holidays_url = Ok r ->
     exists df, dict_get (tables r) "public_holidays" = Some df /\ holiday_schema df)
  /\ (no_url public_holidays_url ->
      forall r, extract fs csv_folder table_to_csv public_holidays_url = Ok r ->
        dict_get (tables r) "public_holidays" = Some empty_holidays
        /\ holidays_zone r = None)
  /\ (no_url public_holidays_url ->
      forallb (readable fs csv_folder) table_to_csv = true ->
      exists r, extract fs csv_folder table_to_csv public_holidays_url = Ok r)
  /\ (holiday_schema empty_holidays /\ nrows empty_holidays = 0).
Proof.
  unfold extract. split; [|split; [|split]].
  - intros r.
    destruct (read_tables fs csv_folder table_to_csv []) as [result|e]; cbn [bind];
      [|discriminate].
    match goal with |- context [bind ?h _] => destruct h as [holidays|e] eqn:Hh end;
      cbn [bind]; [|discriminate].
    intros [= <-]. exists (table holidays). cbn [tables].
    split; [apply dict_get_set_same|].
    destruct public_holidays_url as [url|].
    + destruct (truthy url).
      * unfold get_public_holidays in Hh.
        destruct (_fetch_public_holidays_json _) as [raw|e]; cbn [bind] in Hh;
          [|discriminate Hh].
        exact (normalize_schema _ _ Hh).
      * exact (normalize_schema _ _ Hh).
    + exact (normalize_schema _ _ Hh).
  - intros Hno r.
    destruct (read_tables fs csv_folder table_to_csv []) as [result|e]; cbn [bind];
      [|discriminate].
    destruct Hno as [->| ->]; cbn [truthy _normalize_public_holidays bind];
      intros [= <-]; cbn [tables holidays_zone table date_zone];
      (split; [apply dict_get_set_same | reflexivity]).
  - intros Hno Hfiles.
    destruct (read_tables_present fs csv_folder table_to_csv [] Hfiles) as [result ->].
    cbn [bind].
    destruct Hno as [->| ->]; cbn [truthy _normalize_public_holidays bind];
      eexists; reflexivity.
  - apply empty_holidays_schema.
Qed.

End WithLibraries.

End ExtractFacts.

(* ------------------------------------------------------------------ *)
(** * The loader *)

Module LoadFacts.

Import Text Frame Sql Load Spec Doubles.

Local Open Scope list_scope.

Section WithEngine.

Context {P : Pandas} {E : Engine}.




(** C6: [load] takes its two arguments in either order, with the same
    result and the same store; with anything but a table mapping and the
    engine it raises [TypeError] and leaves the store as it is. *)
Theorem load_either_order (s : Store) :
  (forall tables,
      load (ADict tables) AnEngine s = load AnEngine (ADict tables) s)
  /\ (forall a b,
        tables_and_engine a b = false ->
        exists msg, load a b s = (Raise (TypeError msg), s)).
Proof.
  split.
  - reflexivity.
  - intros a b Hab. destruct a, b; try discriminate Hab; eexists; reflexivity.
Qed.

End WithEngine.

Lemma load_either_order_witness :
  tables_and_engine (AnyOther "None") AnEngine = false
  /\ exists msg,
       load (P := pandas) (E := Lite) (AnyOther "None") AnEngine empty_db
       = (Raise (TypeError msg), empty_db).
Proof.
  split; [reflexivity|].
  apply (proj2 (load_either_order (P := pandas) (E := Lite) empty_db)).
  reflexivity.
Defined.


(** What the rollback leaves of the views is the engine's: when the
    creation of [product_category_en] fails, [Lite], as SQLite, keeps the
    eight views created before it; an engine whose rollback undoes the
    block keeps none.  The table stays in both. *)
Lemma views_before_the_failure_stay :
  (let r := load (P := pandas) (E := FailsAt "product_category_en")
                 (ADict orders_tables) AnEngine empty_db in
   fst r = Raise (EngineError "disk I/O error")
   /\ db_tables (snd r) = orders_tables
   /\ keys (db_views (snd r))
      = ["orders"; "order_items"; "products"; "customers";
         "payments"; "sellers"; "reviews"; "geolocation"]%string)
  /\ (let r := load (P := pandas) (E := Transactional "product_category_en")
                    (ADict orders_tables) AnEngine empty_db in
      fst r = Raise (EngineError "disk I/O error")
      /\ db_tables (snd r) = orders_tables
      /\ db_views (snd r) = []).
Proof. vm_compute. repeat split. Qed.

End LoadFacts.

(* ------------------------------------------------------------------ *)
(** * The theorems at concrete inputs *)

Module Witnesses.

Import Text Re Transform Frame Cleaner Extract Sql Load Query Spec Notions.
Import Doubles Inputs.
Import CleanerFacts PersistFacts SplitFacts ExtractFacts.

Local Open Scope list_scope.

(** ** The double of pandas keeps the contract of the CSV format *)



Lemma clean_preserves_shape_witness :
  NoDup (keys orders_tables)
  /\ keys (clean (P := pandas) orders_tables) = keys orders_tables
  /\ Forall2 (fun before after =>
                fst after = fst before /\ same_shape (snd before) (snd after))
             orders_tables (clean (P := pandas) orders_tables).
Proof.
  assert (Hnd : NoDup (keys orders_tables)).
  { repeat constructor. simpl. intros []. }
  split; [exact Hnd|].
  exact (clean_preserves_shape (P := pandas) orders_tables Hnd).
Defined.



(** It also loses the type of a known date column without rows: the file
    of the empty holidays table holds its header only, and its [date]
    comes back with dtype [object]. *)
Lemma date_column_without_rows_comes_back_as_text :
  ~ dates_survive (P := pandas) no_holidays "data_cleaned" []
  /\ exists loaded df,
       load_cleaned (P := pandas) "data_cleaned"
         (save_cleaned (P := pandas) (clean (P := pandas) no_holidays) "data_cleaned" [])
       = Ok loaded
       /\ dict_get loaded "public_holidays" = Some df
       /\ dict_get (columns df) "date" = Some (mkColumn DObject []).
Proof.
  split.
  - intros Hsurvive.
    destruct (Hsurvive "public_holidays" empty_holidays
                "date" (mkColumn DDatetime []) eq_refl eq_refl eq_refl)
      as (loaded & df' & Hload & Hdf & Hcol).
    vm_compute in Hload. injection Hload as <-.
    vm_compute in Hdf. injection Hdf as <-.
    vm_compute in Hcol. discriminate Hcol.
  - eexists. eexists. split; [vm_compute; reflexivity|].
    split; vm_compute; reflexivity.
Qed.



Lemma extract_has_public_holidays_witness :
  no_url None
  /\ forallb (readable orders_dataset "dataset")
             [("olist_orders", "olist_orders_dataset.csv")] = true
  /\ exists r,
       extract (P := pandas) (W := net URLError_) orders_dataset "dataset"
               [("olist_orders", "olist_orders_dataset.csv")] None = Ok r.
Proof.
  split; [now left|]. split; [reflexivity|].
  exact (proj1 (proj2 (proj2 (extract_has_public_holidays
                                (P := pandas) (W := net URLError_)
                                orders_dataset "dataset"
                                [("olist_orders", "olist_orders_dataset.csv")] None)))
               (or_introl eq_refl) eq_refl).
Defined.

(** When the file of a table lacks one of its timestamp columns,
    [extract] raises [ValueError]. *)
Lemma extract_needs_the_timestamp_columns :
  extract (P := pandas) (W := net URLError_) short_dataset "dataset"
          [("olist_orders", "olist_orders_dataset.csv")] None
  = Raise (ValueError "Missing column provided to 'parse_dates'").
Proof. reflexivity. Qed.

Lemma statements_end_their_line_witness :
  all_chars not_lf script_on_one_line = true
  /\ List.length (_split_sql_statements script_on_one_line) <= 1.
Proof.
  split; [reflexivity|].
  apply (proj1 (proj2 (proj2 statements_end_their_line))). reflexivity.
Defined.

End Witnesses.

(* ------------------------------------------------------------------ *)
(** * More on the cleaner *)

Module CleanerMore.

Import Text Frame Cleaner Spec Notions TextFacts DictFacts CleanerFacts PersistFacts Doubles.

Local Open Scope list_scope.

Lemma Forall2_map_r {A B : Type} (R : A -> B -> Prop) (f : A -> B) (l : list A) :
  (forall x, In x l -> R x (f x)) -> Forall2 R l (map f l).
Proof.
  induction l as [|x l IH]; intros H; simpl; constructor.
  - apply H. now left.
  - apply IH. intros y Hy. apply H. now right.
Qed.

Lemma Forall2_same {A : Type} (R : A -> A -> Prop) (l : list A) :
  (forall x, In x l -> R x x) -> Forall2 R l l.
Proof.
  induction l as [|x l IH]; intros H; constructor.
  - apply H. now left.
  - apply IH. intros y Hy. apply H. now right.
Qed.

Lemma empty_well_formed_cells (df : DataFrame) (nc : string * Column) :
  well_formed df -> empty df = true -> In nc (columns df) -> cells (snd nc) = [].
Proof.
  intros Hwf He Hin. unfold well_formed in Hwf. rewrite Forall_forall in Hwf.
  specialize (Hwf _ Hin). unfold empty in He. apply orb_true_iff in He as [He|He].
  - apply Nat.eqb_eq in He. rewrite He in Hwf. now destruct (cells (snd nc)).
  - apply Nat.eqb_eq in He. destruct (columns df); [contradiction | discriminate He].
Qed.

Section WithPandas.

Context {P : Pandas}.

Lemma clean_lookup (T : Dict DataFrame) (name : string) :
  NoDup (keys T) ->
  dict_get (clean T) name = option_map (clean_table name) (dict_get T name).
Proof.
  intros Hnd. rewrite clean_dict by exact Hnd.
  apply (dict_get_map clean_table T name).
Qed.

Lemma normalize_cell_midnight (c : Cell) :
  is_time_or_null c = true -> at_midnight (normalize_cell c).
Proof.
  destruct c; try discriminate; intros _; simpl; [exact I|].
  rewrite Zminus_mod, Z.mod_mod by (unfold day_ns; lia).
  rewrite Z.sub_diag. apply Z.mod_0_l. unfold day_ns; lia.
Qed.

Lemma normalized_time_or_null (c : Cell) :
  is_time_or_null (normalize_cell (to_datetime_cell c)) = true.
Proof.
  pose proof (to_datetime_cell_time_or_null c) as H.
  destruct (to_datetime_cell c); simpl in *; try discriminate; reflexivity.
Qed.

Lemma time_or_null_stripped (c : Cell) : is_time_or_null c = true -> stripped_cell c.
Proof. destruct c; try discriminate; intros _; exact I. Qed.

Lemma clean_column_stripped (table_name label : string) (col : Column) :
  is_object (dtype col) = true ->
  Forall stripped_cell (cells (clean_column table_name label col)).
Proof.
  intros Hobj. unfold clean_column. rewrite Hobj.
  destruct (mem label _DATE_COLUMNS_KNOWN) eqn:Hknown.
  - destruct (is_holidays table_name && String.eqb label "date");
      unfold dt_normalize, to_datetime; cbn [cells dtype]; rewrite ?map_map;
      apply Forall_forall; intros c Hc; apply in_map_iff in Hc as [c0 [<- _]];
      apply time_or_null_stripped.
    + apply normalized_time_or_null.
    + apply to_datetime_cell_time_or_null.
  - assert (Hdate : String.eqb label "date" = false).
    { destruct (String.eqb_spec label "date") as [->|]; [|reflexivity].
      discriminate Hknown. }
    rewrite Hdate, andb_false_r. unfold series_map. cbn [cells].
    apply Forall_forall. intros c Hc. apply in_map_iff in Hc as [c0 [<- _]].
    destruct c0; simpl; try exact I. apply strip_idem.
Qed.


Lemma clean_table_column_lookup (table_name : string) (df : DataFrame) (label : string) :
  empty df = false ->
  dict_get (columns (clean_table table_name df)) label
  = option_map (clean_column table_name label) (dict_get (columns df) label).
Proof.
  intros He. rewrite clean_table_columns by exact He. cbn [columns].
  apply (dict_get_map (clean_column table_name) (columns df) label).
Qed.

(** X1: after [clean], no text of a text column starts or ends with white
    space: in every column that came in with dtype [object], every text
    cell is its own [strip]. *)
Theorem clean_strips_text (T : Dict DataFrame) (name : string) (df : DataFrame) :
  NoDup (keys T) ->
  dict_get T name = Some df ->
  well_formed df ->
  exists df',
    dict_get (clean T) name = Some df'
    /\ Forall2 (fun before after =>
                  fst after = fst before
                  /\ (is_object (dtype (snd before)) = true ->
                      Forall stripped_cell (cells (snd after))))
               (columns df) (columns df').
Proof.
  intros Hnd Hdf Hwf. rewrite clean_lookup, Hdf by exact Hnd. cbn [option_map].
  eexists. split; [reflexivity|].
  destruct (empty df) eqn:He.
  - rewrite clean_table_empty by exact He. apply Forall2_same.
    intros nc Hin. split; [reflexivity|]. intros _.
    now rewrite (empty_well_formed_cells df nc Hwf He Hin).
  - rewrite clean_table_columns by exact He. cbn [columns].
    apply Forall2_map_r. intros [l c] _. cbn [fst snd]. split; [reflexivity|].
    apply clean_column_stripped.
Qed.


(** X3: after [clean], the [date] column of a holidays table with rows
    holds midnights and nulls only. *)
Theorem clean_holiday_dates_at_midnight (T : Dict DataFrame) (name : string)
    (df : DataFrame) (col : Column) :
  NoDup (keys T) ->
  dict_get T name = Some df ->
  empty df = false ->
  mem (lower name) _HOLIDAYS_TABLE_HINTS = true ->
  dict_get (columns df) "date" = Some col ->
  exists df' col',
    dict_get (clean T) name = Some df'
    /\ dict_get (columns df') "date" = Some col'
    /\ Forall at_midnight (cells col').
Proof.
  intros Hnd Hdf He Hhol Hcol. rewrite clean_lookup, Hdf by exact Hnd.
  cbn [option_map]. eexists. eexists. split; [reflexivity|].
  rewrite clean_table_column_lookup, Hcol by exact He. cbn [option_map].
  split; [reflexivity|].
  unfold clean_column, is_holidays. rewrite Hhol. cbn [mem String.eqb andb].
  change (mem "date" _DATE_COLUMNS_KNOWN) with true. cbv iota.
  unfold dt_normalize, to_datetime. cbn [cells dtype]. rewrite !map_map.
  apply Forall_forall. intros c Hc. apply in_map_iff in Hc as [c0 [<- _]].
  apply normalize_cell_midnight. rewrite to_datetime_cell_idem.
  apply to_datetime_cell_time_or_null.
Qed.

(** X4: [clean] leaves every column alone that is neither of dtype
    [object] nor a known date column: numbers and booleans are not
    touched. *)
Theorem clean_leaves_other_columns (T : Dict DataFrame) (name : string)
    (df : DataFrame) (label : string) (col : Column) :
  NoDup (keys T) ->
  dict_get T name = Some df ->
  dict_get (columns df) label = Some col ->
  is_object (dtype col) = false ->
  mem label _DATE_COLUMNS_KNOWN = false ->
  exists df',
    dict_get (clean T) name = Some df'
    /\ dict_get (columns df') label = Some col.
Proof.
  intros Hnd Hdf Hcol Hobj Hknown. rewrite clean_lookup, Hdf by exact Hnd.
  cbn [option_map]. eexists. split; [reflexivity|].
  destruct (empty df) eqn:He.
  - now rewrite clean_table_empty.
  - rewrite clean_table_column_lookup, Hcol by exact He. cbn [option_map].
    unfold clean_column. rewrite Hobj, Hknown.
    assert (Hdate : String.eqb label "date" = false).
    { destruct (String.eqb_spec label "date") as [->|]; [|reflexivity].
      discriminate Hknown. }
    now rewrite Hdate, andb_false_r.
Qed.

End WithPandas.

End CleanerMore.

(* ------------------------------------------------------------------ *)
(** * More on saving and loading cleaned tables *)

Module PersistMore.

Import Text Frame Cleaner Spec Notions TextFacts DictFacts CleanerFacts PersistFacts.
Import CleanerMore Doubles.

Local Open Scope list_scope.

Lemma insert_sorted_HdRel (x a : string) (l : list string) :
  String.leb a x = true -> HdRel leb_true a l -> HdRel leb_true a (insert_sorted x l).
Proof.
  intros Hax Hhd. destruct l as [|y l]; simpl.
  - now constructor.
  - destruct (String.leb x y); constructor; [exact Hax | now inversion Hhd].
Qed.

Lemma insert_sorted_Sorted (x : string) (l : list string) :
  Sorted leb_true l -> Sorted leb_true (insert_sorted x l).
Proof.
  induction 1 as [|y l Hs IH Hhd]; simpl.
  - repeat constructor.
  - destruct (String.leb x y) eqn:Hxy.
    + constructor; [now constructor | now constructor].
    + constructor; [exact IH|].
      apply insert_sorted_HdRel; [|exact Hhd].
      destruct (String.leb_total x y) as [H|H]; [congruence | exact H].
Qed.

Lemma sorted_Sorted (l : list string) : Sorted leb_true (sorted l).
Proof.
  induction l as [|x l IH]; simpl; [constructor | now apply insert_sorted_Sorted].
Qed.

Lemma NoDup_insert_sorted (x : string) (l : list string) :
  ~ In x l -> NoDup l -> NoDup (insert_sorted x l).
Proof.
  intros Hx Hnd. induction Hnd as [|y l Hy Hnd IH]; simpl.
  - repeat constructor. intros [].
  - destruct (String.leb x y).
    + constructor; [exact Hx | now constructor].
    + constructor.
      * rewrite In_insert_sorted. intros [->|H]; [apply Hx; now left | contradiction].
      * apply IH. intros H. apply Hx. now right.
Qed.

Lemma NoDup_sorted (l : list string) : NoDup l -> NoDup (sorted l).
Proof.
  induction 1 as [|x l Hx Hnd IH]; simpl; [constructor|].
  apply NoDup_insert_sorted; [|exact IH]. now rewrite In_sorted.
Qed.

Lemma NoDup_known : NoDup _DATE_COLUMNS_KNOWN.
Proof.
  unfold _DATE_COLUMNS_KNOWN.
  repeat (constructor; [simpl; intuition discriminate|]). constructor.
Qed.

(** X5: [_infer_date_columns] returns exactly the known date columns
    that are labels of the frame, each once, in ascending order. *)
Theorem infer_date_columns_sorted_known (df : DataFrame) :
  (forall c, In c (_infer_date_columns df)
             <-> mem c _DATE_COLUMNS_KNOWN = true /\ In c (labels df))
  /\ Sorted leb_true (_infer_date_columns df)
  /\ NoDup (_infer_date_columns df).
Proof.
  unfold _infer_date_columns. split; [|split].
  - intros c. rewrite In_sorted, filter_In, <- !mem_In. tauto.
  - apply sorted_Sorted.
  - apply NoDup_sorted, NoDup_filter, NoDup_known.
Qed.

Section WithPandas.

Context {P : Pandas}.

(** ** [load_cleaned] on any directory *)

Lemma keys_read_present (out_dir : string) (fs : FS) (schema : Dict (list string)) :
  keys (read_present out_dir fs schema)
  = filter (fun n => csv_exists fs (csv_path out_dir n)) (keys schema).
Proof.
  unfold read_present, csv_exists.
  induction schema as [|[n cols] schema IH]; [reflexivity|].
  cbn [flat_map keys map fst filter]. fold (keys schema).
  destruct (dict_get fs (csv_path out_dir n)) as [[t|csv|doc]|]; cbn [app]; try exact IH.
  cbn [keys map fst]. f_equal. exact IH.
Qed.

Lemma In_keys_filter_incl (f : string -> bool) (l : list string) (x : string) :
  In x (filter f l) -> In x l.
Proof. intros H. now apply filter_In in H as [H _]. Qed.

Lemma load_tables_present (out_dir : string) (fs : FS)
    (schema : Dict (list string)) (loaded : Dict DataFrame) :
  forallb (listed_ok fs out_dir) schema = true ->
  NoDup (keys loaded ++ keys schema) ->
  load_tables out_dir fs schema loaded
  = Ok (loaded ++ read_present out_dir fs schema).
Proof.
  revert loaded. induction schema as [|[n cols] schema IH]; intros loaded Hok Hnd.
  - simpl. now rewrite app_nil_r.
  - cbn [load_tables]. unfold read_present. cbn [flat_map fst snd].
    fold (read_present out_dir fs schema).
    change (path_join out_dir (n ++ ".csv")%string) with (csv_path out_dir n).
    cbn [forallb] in Hok. apply andb_true_iff in Hok as [Hn Hok].
    simpl in Hnd. pose proof (NoDup_remove_1 _ _ _ Hnd) as Hnd'.
    pose proof (NoDup_remove_2 _ _ _ Hnd) as Hk.
    unfold listed_ok in Hn. cbn [fst snd] in Hn.
    destruct (dict_get fs (csv_path out_dir n)) as [[t|csv|doc]|];
      try discriminate Hn.
    + apply andb_true_iff in Hn as [_ Hn].
      unfold read_csv. unfold has_columns in Hn. rewrite Hn. cbn [bind].
      rewrite dict_set_fresh by (intros Hin; apply Hk, in_or_app; now left).
      rewrite IH; [now rewrite <- app_assoc | exact Hok |].
      rewrite keys_app. simpl. now rewrite <- app_assoc.
    + cbn [app]. now apply IH.
Qed.

Lemma load_tables_missing_column (out_dir : string) (fs : FS)
    (pre : Dict (list string)) (n : string) (date_cols : list string)
    (post : Dict (list string)) (csv : Csv) (loaded : Dict DataFrame) :
  forallb (listed_ok fs out_dir) pre = true ->
  dict_get fs (csv_path out_dir n) = Some (FCsv csv) ->
  has_columns csv date_cols = false ->
  load_tables out_dir fs (pre ++ (n, date_cols) :: post) loaded
  = Raise (ValueError "Missing column provided to 'parse_dates'").
Proof.
  revert loaded. induction pre as [|[m cols] pre IH]; intros loaded Hok Hcsv Hcols.
  - cbn [app load_tables].
    change (path_join out_dir (n ++ ".csv")%string) with (csv_path out_dir n).
    rewrite Hcsv. unfold read_csv. unfold has_columns in Hcols. now rewrite Hcols.
  - cbn [forallb] in Hok. apply andb_true_iff in Hok as [Hm Hok].
    cbn [app load_tables].
    change (path_join out_dir (m ++ ".csv")%string) with (csv_path out_dir m).
    unfold listed_ok in Hm. cbn [fst snd] in Hm.
    destruct (dict_get fs (csv_path out_dir m)) as [[t|c|doc]|];
      try discriminate Hm.
    + apply andb_true_iff in Hm as [_ Hm].
      unfold read_csv. unfold has_columns in Hm. rewrite Hm. cbn [bind].
      now apply IH.
    + now apply IH.
Qed.

(** X6: [load_cleaned] raises [FileNotFoundError] when the sidecar is not
    there.  With the sidecar, when every file that is there holds the
    date columns the schema gives its table, it returns the tables of
    the schema whose file is there, in the order of the schema, each read
    with those date columns, and passes over the others; at the first
    file that lacks one of its date columns it raises [ValueError]. *)
Theorem load_cleaned_reads_present_tables (out_dir : string) (fs : FS)
    (schema : Dict (list string)) :
  let schema_path := path_join out_dir "_schema.json" in
  (dict_get fs schema_path = None ->
   load_cleaned out_dir fs = Raise (FileNotFoundError schema_path))
  /\ (dict_get fs schema_path = Some (FJson (json_dump schema)) ->
      NoDup (keys schema) ->
      forallb (listed_ok fs out_dir) schema = true ->
      exists loaded,
        load_cleaned out_dir fs = Ok loaded
        /\ keys loaded
           = filter (fun n => csv_exists fs (csv_path out_dir n)) (keys schema)
        /\ forall n date_cols csv,
             In (n, date_cols) schema ->
             dict_get fs (csv_path out_dir n) = Some (FCsv csv) ->
             dict_get loaded n = Some (read_columns csv date_cols))
  /\ (forall pre n date_cols post csv,
        dict_get fs schema_path = Some (FJson (json_dump schema)) ->
        schema = pre ++ (n, date_cols) :: post ->
        forallb (listed_ok fs out_dir) pre = true ->
        dict_get fs (csv_path out_dir n) = Some (FCsv csv) ->
        has_header csv = true ->
        has_columns csv date_cols = false ->
        load_cleaned out_dir fs
        = Raise (ValueError "Missing column provided to 'parse_dates'")).
Proof.
  cbv zeta. unfold load_cleaned. split; [|split].
  - intros ->. reflexivity.
  - intros -> Hnd Hok. rewrite schema_items_dump. cbn [bind].
    rewrite load_tables_present by assumption. cbn [app].
    eexists. split; [reflexivity|]. split; [apply keys_read_present|].
    intros n date_cols csv Hin Hcsv.
    apply in_dict_get.
    + rewrite keys_read_present. now apply NoDup_filter.
    + unfold read_present. apply in_flat_map. exists (n, date_cols).
      split; [exact Hin|]. cbn [fst snd]. rewrite Hcsv. now left.
  - intros pre n date_cols post csv -> -> Hok Hcsv _ Hcols.
    rewrite schema_items_dump. cbn [bind].
    exact (load_tables_missing_column out_dir fs pre n date_cols post csv [] Hok Hcsv Hcols).
Qed.

(** ** [save_cleaned] and the other files *)

Lemma save_cleaned_fs (cleaned : Dict DataFrame) (out_dir : string) (fs : FS) :
  exists schema,
    save_cleaned cleaned out_dir fs
    = dict_set (csv_files out_dir cleaned fs)
               (path_join out_dir "_schema.json") (FJson (json_dump schema)).
Proof.
  unfold save_cleaned.
  assert (Hsnd : forall d acc,
    snd (fold_left
           (fun acc nd =>
              let out_path := path_join out_dir (fst nd ++ ".csv")%string in
              (dict_set (fst acc) (fst nd) (_infer_date_columns (snd nd)),
               dict_set (snd acc) out_path (FCsv (to_csv (snd nd)))))
           d acc)
    = csv_files out_dir d (snd acc)).
  { induction d as [|nd d IH]; intros acc; [reflexivity|]. simpl. now rewrite IH. }
  specialize (Hsnd cleaned ([], fs)).
  match type of Hsnd with snd ?x = _ => set (r := x) in * end.
  destruct r as [schema fs1]. simpl in Hsnd. subst fs1.
  now exists schema.
Qed.

(** X7: [save_cleaned] writes the file of every table and the sidecar,
    and leaves every other file of the file system as it is. *)
Theorem save_cleaned_touches_only_its_files (cleaned : Dict DataFrame)
    (out_dir : string) (fs : FS) (path : string) :
  path <> path_join out_dir "_schema.json" ->
  (forall n, In n (keys cleaned) -> path <> csv_path out_dir n) ->
  dict_get (save_cleaned cleaned out_dir fs) path = dict_get fs path.
Proof.
  intros Hschema Hcsv. destruct (save_cleaned_fs cleaned out_dir fs) as [schema ->].
  rewrite dict_get_set_other by exact Hschema.
  unfold csv_files.
  apply (fold_set_get_other (csv_path out_dir) (fun df => FCsv (to_csv df))).
  intros n Hn Heq. exact (Hcsv n Hn (eq_sym Heq)).
Qed.

(** ** [clean_and_save_from_folder] *)





End WithPandas.

End PersistMore.

(* ------------------------------------------------------------------ *)
(** * More on the extractor *)

Module ExtractMore.

Import Text Frame Cleaner Extract Spec Notions DictFacts CleanerFacts ExtractFacts Doubles.

Local Open Scope list_scope.

Lemma rstrip_slash_append (s : string) :
  rstrip_slash (s ++ "/")%string = rstrip_slash s.
Proof.
  induction s as [|c s IH]; [reflexivity|].
  cbn [append rstrip_slash]. now rewrite IH.
Qed.

Lemma dict_get_same_fields (f g : list (string * Json)) (k : string) :
  dict_get f k = dict_get g k -> get_field f k = get_field g k.
Proof. unfold get_field. now intros ->. Qed.

Section WithLibraries.

Context {P : Pandas} {W : Net}.

(** ** The source files *)

Lemma tables_of_keys fs csv_folder table_to_csv tables :
  tables_of fs csv_folder table_to_csv tables -> keys tables = keys table_to_csv.
Proof.
  induction 1 as [|tf nd m l [Hk _] _ IH]; [reflexivity|].
  cbn [keys map]. rewrite Hk. f_equal. exact IH.
Qed.

Lemma read_tables_result (fs : FS) (csv_folder : string) (table_to_csv : Dict string)
    (result r : Dict DataFrame) :
  NoDup (keys result ++ keys table_to_csv) ->
  read_tables fs csv_folder table_to_csv result = Ok r ->
  exists tables, r = result ++ tables /\ tables_of fs csv_folder table_to_csv tables.
Proof.
  revert result. induction table_to_csv as [|[t f] rest IH]; intros result Hnd.
  - intros [= <-]. exists []. split; [now rewrite app_nil_r | constructor].
  - cbn [read_tables].
    destruct (dict_get fs (path_join csv_folder f)) as [[txt|csv|doc]|] eqn:Hf;
      try discriminate.
    destruct (_read_csv_stable csv t) as [df|e] eqn:Hread; cbn [bind];
      [|discriminate].
    simpl in Hnd. pose proof (NoDup_remove_2 _ _ _ Hnd) as Hk.
    rewrite dict_set_fresh by (intros Hin; apply Hk, in_or_app; now left).
    intros Hr. apply IH in Hr as (tables & -> & Htables).
    + exists ((t, df) :: tables). split.
      * now rewrite <- app_assoc.
      * constructor; [|exact Htables]. split; [reflexivity|]. now exists csv.
    + rewrite keys_app. simpl. now rewrite <- app_assoc.
Qed.

(** The loop stops at the first entry whose file cannot be read. *)
Lemma read_tables_stops (fs : FS) (csv_folder : string)
    (pre : Dict string) (t f : string) (post : Dict string) (result : Dict DataFrame)
    (e : Exn) :
  forallb (readable fs csv_folder) pre = true ->
  match dict_get fs (path_join csv_folder f) with
  | None => Raise (FileNotFoundError (path_join csv_folder f))
  | Some (FCsv csv) => _read_csv_stable csv t
  | Some _ => Raise (ValueError "not a delimited text file")
  end = Raise e ->
  read_tables fs csv_folder (pre ++ (t, f) :: post) result = Raise e.
Proof.
  revert result. induction pre as [|[t0 f0] pre IH]; intros result Hpre Hf.
  - cbn [app read_tables].
    destruct (dict_get fs (path_join csv_folder f)) as [[txt|csv|doc]|];
      try (injection Hf as <-; reflexivity).
    now rewrite Hf.
  - cbn [forallb] in Hpre. apply andb_true_iff in Hpre as [H0 Hpre].
    destruct (readable_read fs csv_folder t0 f0 H0) as (csv0 & Hcsv0 & Hread0).
    cbn [app read_tables]. rewrite Hcsv0, Hread0. cbn [bind].
    now apply IH.
Qed.

Lemma missing_column_raises (csv : Csv) (t : string) :
  has_columns csv (timestamp_cols t) = false ->
  _read_csv_stable csv t = Raise (ValueError "Missing column provided to 'parse_dates'").
Proof.
  intros Hcols. unfold _read_csv_stable, read_csv. fold (timestamp_cols t).
  unfold has_columns in Hcols. now rewrite Hcols.
Qed.

(** X9: [extract] reads the source files in the order of the mapping and
    stops at the first it cannot read, before the holidays feed is asked
    for anything: when the files before it are there with the timestamp
    columns of their tables, it raises [FileNotFoundError] with the path
    of a file that is missing, and [ValueError] for a file that lacks a
    timestamp column of its table. *)
Theorem extract_first_missing_file (fs : FS) (csv_folder : string)
    (pre : Dict string) (t f : string) (post : Dict string)
    (public_holidays_url : option string) :
  forallb (readable fs csv_folder) pre = true ->
  (dict_get fs (path_join csv_folder f) = None ->
   extract fs csv_folder (pre ++ (t, f) :: post) public_holidays_url
   = Raise (FileNotFoundError (path_join csv_folder f)))
  /\ (forall csv,
        dict_get fs (path_join csv_folder f) = Some (FCsv csv) ->
        has_header csv = true ->
        has_columns csv (timestamp_cols t) = false ->
        extract fs csv_folder (pre ++ (t, f) :: post) public_holidays_url
        = Raise (ValueError "Missing column provided to 'parse_dates'")).
Proof.
  intros Hpre. unfold extract. split.
  - intros Hf.
    rewrite (read_tables_stops fs csv_folder pre t f post []
               (FileNotFoundError (path_join csv_folder f)) Hpre);
      [reflexivity | now rewrite Hf].
  - intros csv Hf _ Hcols.
    rewrite (read_tables_stops fs csv_folder pre t f post []
               (ValueError "Missing column provided to 'parse_dates'") Hpre);
      [reflexivity | rewrite Hf; exact (missing_column_raises csv t Hcols)].
Qed.

(** X10: what [extract] returns is, in the order of the mapping, one
    table per entry, read from its file with the timestamp columns of
    that table, and then [public_holidays] as the last table. *)
Theorem extract_one_table_per_entry (fs : FS) (csv_folder : string)
    (table_to_csv : Dict string) (public_holidays_url : option string)
    (r : Extracted) :
  NoDup (keys table_to_csv) ->
  ~ In "public_holidays"%string (keys table_to_csv) ->
  extract fs csv_folder table_to_csv public_holidays_url = Ok r ->
  exists sources holidays,
    tables r = sources ++ [("public_holidays"%string, holidays)]
    /\ tables_of fs csv_folder table_to_csv sources
    /\ keys (tables r) = keys table_to_csv ++ ["public_holidays"%string].
Proof.
  intros Hnd Hph. unfold extract.
  destruct (read_tables fs csv_folder table_to_csv []) as [result|e] eqn:Hread;
    cbn [bind]; [|discriminate].
  apply read_tables_result in Hread as (sources & -> & Hsources); [|exact Hnd].
  cbn [app] in *.
  match goal with |- context [bind ?h _] => destruct h as [holidays|e] end;
    cbn [bind]; [|discriminate].
  intros [= <-]. exists sources, (table holidays). cbn [tables].
  pose proof (tables_of_keys _ _ _ _ Hsources) as Hkeys.
  rewrite dict_set_fresh by (now rewrite Hkeys).
  split; [reflexivity|]. split; [exact Hsources|].
  rewrite keys_app, Hkeys. reflexivity.
Qed.

(** ** The holidays feed *)

(** X11: slashes at the end of the base URL do not change what
    [get_public_holidays] asks for. *)
Theorem holidays_url_ignores_final_slash (base_url year country : string) :
  get_public_holidays (base_url ++ "/")%string year country
  = get_public_holidays base_url year country.
Proof. unfold get_public_holidays. now rewrite rstrip_slash_append. Qed.

Lemma holiday_row_same_fields (x y : Json) :
  same_holiday_fields x y -> holiday_row x = holiday_row y.
Proof.
  destruct x, y; try contradiction. unfold same_holiday_fields, cols.
  intros H. repeat (apply Forall_cons_iff in H as [? H]).
  cbn [holiday_row map]. unfold date_of.
  match goal with
  | Hd : dict_get _ "date"%string = dict_get _ "date"%string |- _ =>
      rewrite Hd; clear Hd
  end.
  repeat match goal with
         | Hk : dict_get _ ?k = dict_get _ ?k |- _ =>
             apply dict_get_same_fields in Hk; rewrite Hk; clear Hk
         end.
  reflexivity.
Qed.

Lemma holiday_rows_same_fields (items items' : list Json) :
  Forall2 same_holiday_fields items items' ->
  holiday_rows items = holiday_rows items'.
Proof.
  induction 1 as [|x y l l' Hxy _ IH]; [reflexivity|].
  cbn [holiday_rows]. now rewrite (holiday_row_same_fields x y Hxy), IH.
Qed.

(** X12: the holidays table depends on the seven fields of the schema
    only: two feeds whose records agree on them (whatever their [types],
    [counties] or other fields) give the same table. *)
Theorem holidays_ignore_other_fields (items items' : list Json) :
  Forall2 same_holiday_fields items items' ->
  _normalize_public_holidays (Some (JArr items))
  = _normalize_public_holidays (Some (JArr items')).
Proof.
  intros Hsame. unfold _normalize_public_holidays. cbn [json_truthy iterate bind].
  rewrite (Forall2_length Hsame), (holiday_rows_same_fields _ _ Hsame).
  reflexivity.
Qed.

Lemma holiday_rows_good (good : list Json) :
  Forall good_record good -> exists rows, holiday_rows good = Ok rows.
Proof.
  induction 1 as [|x good (fields & d & -> & Hd) _ [rows IH]]; [now exists []|].
  cbn [holiday_rows holiday_row bind]. rewrite Hd, IH. cbn [bind].
  eexists. reflexivity.
Qed.

(** The loop over the feed stops at the first item it cannot turn into a
    row, with what that item raises. *)
Lemma holiday_rows_stop (good : list Json) (bad : Json) (rest : list Json) (e : Exn) :
  Forall good_record good ->
  holiday_row bad = Raise e ->
  holiday_rows (good ++ bad :: rest) = Raise e.
Proof.
  intros Hgood Hbad.
  induction Hgood as [|x good (fields & d & -> & Hd) _ IH].
  - cbn [app holiday_rows]. now rewrite Hbad.
  - cbn [app holiday_rows holiday_row bind]. rewrite Hd. cbn [bind].
    now rewrite IH.
Qed.

Lemma normalize_stops (good : list Json) (bad : Json) (rest : list Json) (e : Exn) :
  Forall good_record good ->
  holiday_row bad = Raise e ->
  _normalize_public_holidays (Some (JArr (good ++ bad :: rest))) = Raise e.
Proof.
  intros Hgood Hbad. unfold _normalize_public_holidays.
  assert (Hne : json_truthy (JArr (good ++ bad :: rest)) = true).
  { cbn [json_truthy]. now destruct good. }
  rewrite Hne. cbn [negb iterate bind].
  now rewrite (holiday_rows_stop good bad rest e Hgood Hbad).
Qed.

(** X13: a feed answered with status 200 is not caught by the fallback
    when one of its items cannot be turned into a row: after records
    whose dates pandas converts, [get_public_holidays] raises
    [AttributeError] at an item that is no record, and what the
    conversion of the date raises at a record whose date pandas refuses
    (a [ValueError] for an object). *)
Theorem holidays_feed_with_bad_record_raises (base_url year country : string)
    (good : list Json) (bad : Json) (rest : list Json) :
  urlopen (rstrip_slash base_url ++ "/" ++ year ++ "/" ++ country)%string
  = Response 200 (Decoded (JArr (good ++ bad :: rest))) ->
  Forall good_record good ->
  (is_record bad = false ->
   exists msg, get_public_holidays base_url year country = Raise (AttributeError msg))
  /\ (forall fields e,
        bad = JObj fields ->
        date_of fields = Raise e ->
        get_public_holidays base_url year country = Raise e).
Proof.
  intros Hurl Hgood. unfold get_public_holidays, _fetch_public_holidays_json.
  rewrite Hurl, (url_truthy base_url year country).
  cbn [negb Z.eqb Pos.eqb bind]. split.
  - intros Hbad. eexists. apply normalize_stops; [exact Hgood|].
    destruct bad; try reflexivity. discriminate Hbad.
  - intros fields e -> Hdate. apply normalize_stops; [exact Hgood|].
    cbn [holiday_row]. now rewrite Hdate.
Qed.

End WithLibraries.

End ExtractMore.

(* ------------------------------------------------------------------ *)
(** * More on the loader *)

Module LoadMore.

Import Text Frame Sql Load Spec Notions DictFacts CleanerFacts CleanerMore Doubles.

Local Open Scope list_scope.

Section WithPandas.

Context {P : Pandas}.

Lemma null_nested_idem (x : Cell) : null_nested (null_nested x) = null_nested x.
Proof. now destruct x. Qed.

Lemma null_nested_not_nested (x : Cell) : not_nested (null_nested x).
Proof. now destruct x. Qed.

(** X14: [_sanitize_for_sqlite] keeps the shape of the frame; in every
    column of dtype [object] it leaves no list and no dict, and every
    text is where it was; the other columns are as they were. *)
Theorem sanitize_nulls_nested_cells (df : DataFrame) :
  well_formed df ->
  same_shape df (_sanitize_for_sqlite df)
  /\ Forall2 (fun before after =>
                fst after = fst before
                /\ (is_object (dtype (snd before)) = true ->
                    Forall not_nested (cells (snd after))
                    /\ forall i s,
                         nth_error (cells (snd before)) i = Some (CStr s) ->
                         nth_error (cells (snd after)) i = Some (CStr s))
                /\ (is_object (dtype (snd before)) = false -> snd after = snd before))
             (columns df) (columns (_sanitize_for_sqlite df)).
Proof.
  intros Hwf. unfold _sanitize_for_sqlite. destruct (empty df) eqn:He.
  - split; [repeat split|]. apply Forall2_same. intros nc Hin.
    rewrite (empty_well_formed_cells df nc Hwf He Hin).
    repeat split; [constructor|]. intros [|i] s Hnth; discriminate Hnth.
  - split.
    + unfold same_shape. rewrite labels_update_columns.
      split; [reflexivity|]. split; [reflexivity|].
      unfold update_columns. cbn [columns]. rewrite map_map.
      apply map_ext. intros [l c]. cbn [fst snd].
      destruct (is_object (dtype c)); [|reflexivity].
      unfold series_map. cbn [snd cells]. apply length_map.
    + unfold update_columns. cbn [columns]. apply Forall2_map_r.
      intros [l c] _. cbn [fst snd].
      destruct (is_object (dtype c)) eqn:Hobj; cbn [fst snd].
      * split; [reflexivity|]. split; [|discriminate].
        intros _. unfold series_map. cbn [cells]. split.
        -- apply Forall_forall. intros x Hx. apply in_map_iff in Hx as [x0 [<- _]].
           apply null_nested_not_nested.
        -- intros i s Hnth. rewrite nth_error_map, Hnth. reflexivity.
      * split; [reflexivity|]. split; [discriminate | reflexivity].
Qed.

(** X15: [_sanitize_for_sqlite] is idempotent. *)
Theorem sanitize_idempotent (df : DataFrame) :
  _sanitize_for_sqlite (_sanitize_for_sqlite df) = _sanitize_for_sqlite df.
Proof.
  unfold _sanitize_for_sqlite. destruct (empty df) eqn:He.
  - now rewrite He.
  - rewrite empty_update_columns, He. unfold update_columns at 1 2.
    cbn [nrows columns]. unfold update_columns. f_equal. rewrite map_map.
    apply map_ext. intros [l c]. cbn [fst snd].
    destruct (is_object (dtype c)) eqn:Hobj; cbn [fst snd].
    + destruct (is_object (dtype (series_map null_nested c))) eqn:Hobj'; [|reflexivity].
      unfold series_map. cbn [cells]. rewrite map_map.
      rewrite (map_ext (fun x => null_nested (null_nested x)) null_nested)
        by apply null_nested_idem.
      reflexivity.
    + now rewrite Hobj.
Qed.

End WithPandas.

End LoadMore.

(* ------------------------------------------------------------------ *)
(** * More on the statements of a script *)

Module TransformMore.

Import Text Re Transform Frame Sql Query Spec Notions.
Import TextFacts ReFacts SplitFacts QueryFacts Doubles.

Local Open Scope list_scope.

(** X16: every statement that [_split_sql_statements] returns is not
    empty, has no white space at either end and starts, whatever the
    case, with one of the ten keywords. *)
Theorem statements_are_trimmed_sql (sql stmt : string) :
  In stmt (_split_sql_statements sql) ->
  truthy stmt = true /\ strip stmt = stmt /\ _looks_like_sql stmt = true.
Proof.
  unfold _split_sql_statements. intros Hin.
  apply filter_In in Hin as [Hin Htruthy].
  apply in_map_iff in Hin as [part [Hnorm _]].
  split; [exact Htruthy|].
  unfold _normalize_stmt in Hnorm.
  destruct (truthy part); cbn [negb] in Hnorm; [|subst; discriminate Htruthy].
  destruct (_looks_like_sql (strip (_strip_sql_comments part))) eqn:Hlooks;
    cbn [negb] in Hnorm; [|subst; discriminate Htruthy].
  subst stmt. split; [apply strip_idem | exact Hlooks].
Qed.

(** ** Line comments *)

Lemma remove_at_skip (r : regex) (s : string) (n : nat) :
  remove_at r s n = remove_at r (drop n s) 0.
Proof.
  revert s. induction n as [|n IH]; intros s; [reflexivity|].
  destruct s as [|c s]; [reflexivity|]. simpl. apply IH.
Qed.

Lemma lazy_to_end_of_line (s : string) :
  exists w rest,
    s = (w ++ rest)%string
    /\ end_of_line rest
    /\ lazy not_lf s (fun r => rmatch EndL r (fun r0 => Some r0)) = Some rest.
Proof.
  induction s as [|c s IH].
  - exists ""%string, ""%string. repeat split.
  - cbn [lazy rmatch]. destruct (Ascii.eqb_spec c LF) as [->|Hc].
    + exists ""%string, (String LF s). repeat split.
    + destruct IH as (w & rest & -> & Hend & Hlazy).
      exists (String c w), rest. split; [reflexivity|]. split; [exact Hend|].
      unfold not_lf. destruct (Ascii.eqb_spec c LF); [contradiction|].
      cbn [negb]. exact Hlazy.
Qed.

Lemma line_comment_match (s : string) :
  exists w rest,
    s = (w ++ rest)%string
    /\ end_of_line rest
    /\ match_rest LINE_COMMENT (String "-" (String "-" s)) = Some rest.
Proof.
  destruct (lazy_to_end_of_line s) as (w & rest & Hs & Hend & Hlazy).
  exists w, rest. split; [exact Hs|]. split; [exact Hend|].
  unfold match_rest, LINE_COMMENT. cbn [rmatch lit].
  change (Ascii.eqb "-" "-") with true. cbv iota. exact Hlazy.
Qed.

Lemma line_comment_no_match (c : ascii) (s : string) :
  startswith (String c s) "--" = false ->
  match_len LINE_COMMENT (String c s) = None.
Proof.
  intros Hstart. unfold match_len, match_rest, LINE_COMMENT. cbn [rmatch lit].
  unfold startswith in Hstart. cbn [String.prefix] in Hstart.
  destruct (Ascii.eqb_spec "-" c) as [<-|]; [|reflexivity].
  destruct (ascii_dec "-" "-") as [_|Hn]; [|contradiction].
  destruct s as [|d s]; [reflexivity|].
  destruct (Ascii.eqb_spec "-" d) as [<-|]; [|reflexivity].
  destruct (ascii_dec "-" "-") as [_|Hn]; [|contradiction].
  destruct s; discriminate Hstart.
Qed.

Lemma has_comment_mark_cons (c : ascii) (s : string) :
  has_comment_mark (String c s)
  = (Ascii.eqb c "-" && starts_with_hyphen s) || has_comment_mark s.
Proof. destruct s; [now rewrite andb_false_r | reflexivity]. Qed.

Lemma remove_line_comments_bounded (n : nat) :
  forall s, String.length s <= n ->
    has_comment_mark (remove LINE_COMMENT s) = false
    /\ (starts_with_hyphen (remove LINE_COMMENT s) = true ->
        starts_with_hyphen s = true).
Proof.
  unfold remove. induction n as [|n IH]; intros s Hlen.
  - destruct s; [now split | simpl in Hlen; lia].
  - destruct s as [|c s]; [now split|].
    cbn [String.length] in Hlen.
    destruct (startswith (String c s) "--") eqn:Hstart.
    + (* a comment starts here: it is passed up to the end of the line *)
      unfold startswith in Hstart.
      destruct s as [|d s]; cbn [String.prefix] in Hstart;
        destruct (ascii_dec "-" c) as [<-|]; try discriminate Hstart.
      destruct (ascii_dec "-" d) as [<-|]; [|discriminate Hstart].
      destruct (line_comment_match s) as (w & rest & -> & Hend & Hm).
      cbn [remove_at]. unfold match_len. rewrite Hm.
      cbn [String.length]. rewrite length_append.
      replace (S (S (String.length w + String.length rest)) - String.length rest)
        with (S (S (String.length w))) by lia.
      rewrite remove_at_skip.
      change (drop (S (String.length w)) (String "-" (w ++ rest)))
        with (drop (String.length w) (w ++ rest)%string).
      rewrite drop_append.
      destruct (IH rest) as [Hmark Hhead].
      { cbn [String.length] in Hlen. rewrite length_append in Hlen. lia. }
      split; [exact Hmark|]. intros _. reflexivity.
    + cbn [remove_at]. rewrite (line_comment_no_match c s Hstart).
      destruct (IH s ltac:(lia)) as [Hmark Hhead].
      split.
      * rewrite has_comment_mark_cons, Hmark, orb_false_r.
        destruct (Ascii.eqb_spec c "-") as [->|]; [|reflexivity].
        cbn [andb].
        destruct (starts_with_hyphen (remove_at LINE_COMMENT s 0)) eqn:Hout;
          [|reflexivity].
        specialize (Hhead eq_refl).
        destruct s as [|d s]; [discriminate Hhead|].
        cbn [starts_with_hyphen] in Hhead. apply Ascii.eqb_eq in Hhead. subst d.
        unfold startswith in Hstart. cbn [String.prefix] in Hstart.
        destruct (ascii_dec "-" "-") as [_|Hn]; [|contradiction].
        destruct s; discriminate Hstart.
      * cbn [starts_with_hyphen]. trivial.
Qed.

(** X17: [_strip_sql_comments] leaves no line comment: its result never
    holds two hyphens in a row. *)
Theorem strip_sql_comments_leaves_no_line_comment (sql : string) :
  has_comment_mark (_strip_sql_comments sql) = false.
Proof.
  unfold _strip_sql_comments.
  exact (proj1 (remove_line_comments_bounded _ _ (le_n _))).
Qed.

(** X25: what the runner takes for a query, the splitter takes for SQL:
    a text that [_is_select_like] accepts, [_looks_like_sql] accepts. *)
Theorem select_like_looks_like_sql (stmt : string) :
  _is_select_like stmt = true -> _looks_like_sql stmt = true.
Proof.
  unfold _is_select_like, _looks_like_sql. cbv zeta.
  destruct stmt as [|c stmt]; [discriminate|].
  cbn [truthy negb]. unfold starters. cbn [existsb].
  intros H. apply orb_true_iff in H as [-> | ->]; [reflexivity|].
  now rewrite orb_true_r.
Qed.

End TransformMore.

(* ------------------------------------------------------------------ *)
(** * More on the query runner *)

Module QueryMore.

Import Text Re Transform Frame Sql Query Spec Notions.
Import TextFacts ReFacts SplitFacts QueryFacts Doubles.

Local Open Scope list_scope.

(** ** The name of a created view *)

Lemma substring_prefix (w s : string) :
  String.substring 0 (String.length w) (w ++ s)%string = w.
Proof. induction w as [|c w IH]; simpl; [now destruct s | now rewrite IH]. Qed.

Lemma group_text (d : ascii) (w rest : string) :
  String.substring 0
    (String.length (String d (w ++ rest)) - String.length rest)
    (String d (w ++ rest))
  = String d w.
Proof.
  assert (Hlen : String.length (String d (w ++ rest)) - String.length rest
                 = String.length (String d w)).
  { cbn [String.length]. rewrite length_append. lia. }
  rewrite Hlen. apply (substring_prefix (String d w) rest).
Qed.

Lemma group_here_identifier (s g : string) :
  group_here VIEW_PRE VIEW_NAME VIEW_POST s = Some g ->
  exists c rest, g = String c rest /\ ident_start c = true /\ all_chars isword rest = true.
Proof.
  unfold group_here. intros H.
  apply rmatch_inv in H as (w & s1 & _ & H).
  unfold VIEW_NAME in H. cbn [rmatch] in H.
  destruct s1 as [|d s1']; [discriminate|].
  destruct (ident_start d) eqn:Hd; [|discriminate].
  apply greedy_inv_class in H as (w1 & s2 & -> & Hw1 & H).
  apply rmatch_inv in H as (w2 & s3 & _ & H).
  exists d, w1. split; [|now split].
  pose proof (group_text d w1 s2) as Hg.
  assert (Hsome : Some (String.substring 0
                          (String.length (String d (w1 ++ s2)) - String.length s2)
                          (String d (w1 ++ s2))) = Some g) by exact H.
  rewrite Hg in Hsome. now injection Hsome as <-.
Qed.

(** X18: the name that [_extract_created_view_name] returns is an
    identifier: a letter or an underscore, followed by word characters. *)
Theorem created_view_name_is_identifier (stmt v : string) :
  _extract_created_view_name stmt = Some v ->
  exists c rest, v = String c rest /\ ident_start c = true /\ all_chars isword rest = true.
Proof.
  unfold _extract_created_view_name.
  induction stmt as [|c stmt IH]; cbn [search_group].
  - destruct (group_here VIEW_PRE VIEW_NAME VIEW_POST "") eqn:Hg; [|discriminate].
    intros [= <-]. exact (group_here_identifier _ _ Hg).
  - destruct (group_here VIEW_PRE VIEW_NAME VIEW_POST (String c stmt)) eqn:Hg.
    + intros [= <-]. exact (group_here_identifier _ _ Hg).
    + exact IH.
Qed.

Lemma ident_start_not_space (c : ascii) : ident_start c = true -> isspace c = false.
Proof.
  destruct c as [[] [] [] [] [] [] [] []]; vm_compute; intros H; congruence.
Qed.

Lemma isword_not_space (c : ascii) : isword c = true -> isspace c = false.
Proof.
  destruct c as [[] [] [] [] [] [] [] []]; vm_compute; intros H; congruence.
Qed.

Lemma greedy_const {A : Type} (p : ascii -> bool) (s : string) (a : A) :
  greedy p s (fun _ => Some a) = Some a.
Proof.
  induction s as [|c s IH]; [reflexivity|]. cbn [greedy]. rewrite IH.
  now destruct (p c).
Qed.

Lemma greedy_run {A : Type} (p : ascii -> bool) (w : string) (d : ascii) (t : string)
    (k : string -> option A) (a : A) :
  all_chars p w = true -> k (String d t) = Some a ->
  p d = false ->
  greedy p (w ++ String d t) k = Some a.
Proof.
  intros Hw Hk Hd. induction w as [|c w IH].
  - cbn [append greedy]. now rewrite Hd.
  - cbn [all_chars] in Hw. apply andb_true_iff in Hw as [Hc Hw].
    cbn [append greedy]. now rewrite Hc, (IH Hw).
Qed.

Lemma view_head_plain {A : Type} (r : regex) (c : ascii) (tail : string)
    (k : string -> option A) (a : A) :
  isspace c = false ->
  rmatch r (String c tail) k = Some a ->
  rmatch (view_head r) ("CREATE VIEW " ++ String c tail) k = Some a.
Proof.
  intros Hc Hk. unfold view_head. cbn. now rewrite Hc, Hk.
Qed.

Lemma view_head_temporary {A : Type} (r : regex) (c : ascii) (tail : string)
    (k : string -> option A) (a : A) :
  isspace c = false ->
  rmatch r (String c tail) k = Some a ->
  rmatch (view_head r) ("CREATE TEMPORARY VIEW " ++ String c tail) k = Some a.
Proof.
  intros Hc Hk. unfold view_head. cbn. now rewrite Hc, Hk.
Qed.

Lemma view_pre_head {A : Type} (c : ascii) (tail : string)
    (k : string -> option A) (a : A) :
  isspace c = false ->
  k (String c tail) = Some a ->
  rmatch VIEW_PRE ("CREATE VIEW IF NOT EXISTS " ++ String c tail) k = Some a.
Proof.
  intros Hc Hk. unfold VIEW_PRE. cbn. now rewrite Hc, Hk.
Qed.

(** IF NOT EXISTS does not match at a name that AS follows. *)
Lemma if_not_exists_fails {A : Type} (r : regex) (c : ascii) (rest body : string)
    (k : string -> option A) :
  all_chars isword rest = true ->
  rmatch (Cat (ilit "if") (Cat (plus isspace) (Cat (ilit "not") r)))
         (String c (rest ++ " AS " ++ body)) k
  = None.
Proof.
  intros Hrest. cbn [rmatch ilit].
  destruct (Ascii.eqb (lower_char "i") (lower_char c)); [|reflexivity].
  destruct rest as [|d rest]; [reflexivity|].
  cbn [append]. destruct (Ascii.eqb (lower_char "f") (lower_char d)); [|reflexivity].
  destruct rest as [|e rest]; [reflexivity|].
  cbn [all_chars] in Hrest. apply andb_true_iff in Hrest as [_ Hrest].
  apply andb_true_iff in Hrest as [He _].
  unfold plus. cbn [append rmatch]. now rewrite (isword_not_space e He).
Qed.

Lemma rmatch_opt_fails {A : Type} (r : regex) (s : string) (k : string -> option A) :
  rmatch r s k = None -> rmatch (opt r) s k = k s.
Proof. intros H. unfold opt. cbn [rmatch]. now rewrite H. Qed.

Lemma view_post_as {A : Type} (body : string) (a : A) :
  rmatch VIEW_POST (" AS " ++ body) (fun _ => Some a) = Some a.
Proof.
  unfold VIEW_POST. cbn. apply greedy_const.
Qed.

(** The name and what follows it, at the name. *)
Lemma view_name_here (c : ascii) (rest body : string) :
  ident_start c = true ->
  all_chars isword rest = true ->
  rmatch VIEW_NAME (String c (rest ++ " AS " ++ body))
    (fun s2 =>
       rmatch VIEW_POST s2 (fun _ =>
         Some (String.substring 0
                 (String.length (String c (rest ++ " AS " ++ body)) - String.length s2)
                 (String c (rest ++ " AS " ++ body)))))
  = Some (String c rest).
Proof.
  intros Hc Hrest. unfold VIEW_NAME. cbn [rmatch]. rewrite Hc.
  change (rest ++ " AS " ++ body)%string
    with (rest ++ String " " ("AS " ++ body))%string.
  apply greedy_run; [exact Hrest| |reflexivity].
  change (String " " ("AS " ++ body))%string with (" AS " ++ body)%string.
  rewrite view_post_as. f_equal.
  apply (group_text c rest (" AS " ++ body)).
Qed.

Lemma group_here_first (s g : string) :
  group_here VIEW_PRE VIEW_NAME VIEW_POST s = Some g ->
  _extract_created_view_name s = Some g.
Proof.
  intros Hg. unfold _extract_created_view_name.
  destruct s; cbn [search_group]; now rewrite Hg.
Qed.

Lemma group_here_after_head (head : string) (c : ascii) (rest body : string) :
  ident_start c = true ->
  all_chars isword rest = true ->
  (forall (k : string -> option string) (a : string),
      rmatch (opt (Cat (ilit "if")
                    (Cat (plus isspace)
                      (Cat (ilit "not")
                        (Cat (plus isspace)
                          (Cat (ilit "exists") (plus isspace)))))))
             (String c (rest ++ " AS " ++ body)) k = Some a ->
      rmatch VIEW_PRE (head ++ String c (rest ++ " AS " ++ body)) k = Some a) ->
  group_here VIEW_PRE VIEW_NAME VIEW_POST (head ++ String c rest ++ " AS " ++ body)
  = Some (String c rest).
Proof.
  intros Hc Hrest Hhead. unfold group_here.
  change (head ++ String c rest ++ " AS " ++ body)%string
    with (head ++ String c (rest ++ " AS " ++ body))%string.
  apply Hhead. rewrite rmatch_opt_fails by (apply if_not_exists_fails; exact Hrest).
  exact (view_name_here c rest body Hc Hrest).
Qed.

(** X21: in a statement that opens with CREATE VIEW, then an identifier,
    then AS between single spaces, [_extract_created_view_name] finds
    that identifier, whatever the body of the view is; the same with IF
    NOT EXISTS before the identifier. *)
Theorem created_view_is_recognised (c : ascii) (rest body : string) :
  ident_start c = true ->
  all_chars isword rest = true ->
  _extract_created_view_name ("CREATE VIEW " ++ String c rest ++ " AS " ++ body)
  = Some (String c rest)
  /\ _extract_created_view_name
       ("CREATE VIEW IF NOT EXISTS " ++ String c rest ++ " AS " ++ body)
     = Some (String c rest).
Proof.
  intros Hc Hrest. split; apply group_here_first.
  - apply (group_here_after_head "CREATE VIEW " c rest body Hc Hrest).
    intros k a Hk.
    exact (view_head_plain _ c _ k a (ident_start_not_space c Hc) Hk).
  - unfold group_here.
    change ("CREATE VIEW IF NOT EXISTS " ++ String c rest ++ " AS " ++ body)%string
      with ("CREATE VIEW IF NOT EXISTS " ++ String c (rest ++ " AS " ++ body))%string.
    apply view_pre_head; [now apply ident_start_not_space|].
    exact (view_name_here c rest body Hc Hrest).
Qed.

Lemma search_group_temp (tail : string) :
  search_group VIEW_PRE VIEW_NAME VIEW_POST ("CREATE TEMP VIEW " ++ tail)
  = search_group VIEW_PRE VIEW_NAME VIEW_POST tail.
Proof.
  cbn [append].
  repeat match goal with
         | |- search_group ?a ?b ?d (String ?x ?t) = _ =>
             let H := fresh "H" in
             assert (H : group_here a b d (String x t) = None)
               by (vm_compute; reflexivity);
             cbn [search_group]; rewrite H; clear H
         end.
  reflexivity.
Qed.

(** X24: of the two spellings the pattern of [_extract_created_view_name]
    lists for a temporary view, only TEMPORARY is recognised before the
    word VIEW: after TEMP the pattern takes no white space, so a view
    created with CREATE TEMP VIEW is none the runner can fall back on. *)
Theorem temp_view_only_when_spelled_out (c : ascii) (rest body : string) :
  ident_start c = true ->
  all_chars isword rest = true ->
  _extract_created_view_name (String c rest ++ " AS " ++ body) = None ->
  _extract_created_view_name
    ("CREATE TEMPORARY VIEW " ++ String c rest ++ " AS " ++ body)
  = Some (String c rest)
  /\ _extract_created_view_name
       ("CREATE TEMP VIEW " ++ String c rest ++ " AS " ++ body)
     = None.
Proof.
  intros Hc Hrest Hlater. split.
  - apply group_here_first.
    apply (group_here_after_head "CREATE TEMPORARY VIEW " c rest body Hc Hrest).
    intros k a Hk.
    exact (view_head_temporary _ c _ k a (ident_start_not_space c Hc) Hk).
  - unfold _extract_created_view_name in *. now rewrite search_group_temp.
Qed.

(** ** The script as read *)

Lemma replace_cr_no_cr (s : string) :
  all_chars (fun c => negb (is_cr c)) (replace_cr s) = true.
Proof.
  induction s as [|c s IH]; [reflexivity|].
  cbn [replace_cr all_chars]. rewrite IH, andb_true_r. unfold is_cr.
  destruct (Ascii.eqb_spec c CR) as [->|Hc]; [reflexivity|].
  now destruct (Ascii.eqb_spec c CR).
Qed.

Lemma replace_crlf_no_cr (s : string) :
  all_chars (fun c => negb (is_cr c)) s = true -> replace_crlf s = s.
Proof.
  induction s as [|c s IH]; [reflexivity|].
  cbn [all_chars]. intros H. apply andb_true_iff in H as [Hc Hs].
  cbn [replace_crlf]. destruct s as [|d s]; [reflexivity|].
  unfold is_cr in Hc. destruct (Ascii.eqb c CR); [discriminate Hc|].
  cbn [andb]. now rewrite (IH Hs).
Qed.

Lemma replace_cr_fixed (s : string) :
  all_chars (fun c => negb (is_cr c)) s = true -> replace_cr s = s.
Proof.
  induction s as [|c s IH]; [reflexivity|].
  cbn [all_chars]. intros H. apply andb_true_iff in H as [Hc Hs].
  cbn [replace_cr]. unfold is_cr in Hc.
  destruct (Ascii.eqb c CR); [discriminate Hc|]. now rewrite (IH Hs).
Qed.

(** X19: the text that [_read_sql] returns holds no carriage return; a
    script without carriage returns is returned as it is. *)
Theorem read_sql_normalises_line_ends (fs : FS) (name txt : string) :
  dict_get fs (path_join _QUERIES_DIR (name ++ ".sql")%string) = Some (FText txt) ->
  exists sql,
    _read_sql fs name = Ok sql
    /\ all_chars (fun c => negb (is_cr c)) sql = true
    /\ (all_chars (fun c => negb (is_cr c)) txt = true -> sql = txt).
Proof.
  intros Hfile. unfold _read_sql. rewrite Hfile. eexists. split; [reflexivity|].
  split; [apply replace_cr_no_cr|].
  intros Hno. now rewrite (replace_crlf_no_cr txt Hno), (replace_cr_fixed txt Hno).
Qed.

(** ** A script that fetches nothing *)

Lemma scan_down_view_none (stmts : list string) (n : nat) :
  n <= List.length stmts ->
  (forall p, In p stmts -> _extract_created_view_name p = None) ->
  scan_down_view stmts n = None.
Proof.
  intros Hn Hnone. induction n as [|j IH]; [reflexivity|]. cbn [scan_down_view].
  rewrite (Hnone (nth j stmts ""%string)) by (apply nth_In; lia).
  apply IH. lia.
Qed.

(** X20: when no statement of the script starts with [select] or [with]
    and none creates a view, the runner runs all statements in order and
    returns the empty table; when one of them raises, it raises the same
    and runs nothing after it. *)
Theorem setup_only_script_returns_empty (E : Engine) (fs : FS) (name : string)
    (params : option Params) (s : Store) (sql : string) :
  _read_sql fs name = Ok sql ->
  _split_sql_statements sql <> [] ->
  existsb _is_select_like (_split_sql_statements sql) = false ->
  (forall p, In p (_split_sql_statements sql) -> _extract_created_view_name p = None) ->
  _run_df fs name params s
  = match exec_each (_split_sql_statements sql) s with
    | (Ok _, s') => (Ok no_frame, s')
    | (Raise e, s') => (Raise e, s')
    end.
Proof.
  intros Hread Hne Hsel Hview.
  rewrite (run_df_statements fs name params s sql _ Hread eq_refl Hne).
  cbv zeta. rewrite (scan_down_none _is_select_like _ _ (le_n _) Hsel).
  rewrite run_setup_no_target by apply statements_truthy.
  rewrite (scan_down_view_none _ _ (le_n _) Hview).
  destruct (exec_each (_split_sql_statements sql) s) as [[u|e] s']; reflexivity.
Qed.

End QueryMore.

(* ------------------------------------------------------------------ *)
(** * The pipeline: extract, then load *)

Module PipelineMore.

Import Text Frame Cleaner Extract Sql Load Pipeline Spec Notions.
Import DictFacts ExtractFacts ExtractMore Doubles.

Local Open Scope list_scope.

Lemma NoDup_default_tables (csv_folder : string) :
  NoDup (keys (_default_table_to_csv csv_folder)).
Proof.
  unfold _default_table_to_csv. cbn [keys map fst].
  repeat (constructor; [cbn [In]; intros H;
                        repeat (destruct H as [H|H]; [discriminate H|]); exact H|]).
  constructor.
Qed.

Section WithLibraries.

Context {P : Pandas} {W : Net} {E : Engine}.

Lemma read_columns_labels (csv : Csv) (parse_dates : list string) :
  labels (read_columns csv parse_dates) = keys (csv_columns csv).
Proof. unfold labels, read_columns, keys. cbn [columns]. now rewrite map_map. Qed.

Lemma read_stable_has_columns (csv : Csv) (t : string) (df : DataFrame) :
  _read_csv_stable csv t = Ok df ->
  forall c, In c (timestamp_cols t) -> mem c (labels df) = true.
Proof.
  unfold _read_csv_stable, read_csv. fold (timestamp_cols t).
  destruct (forallb _ (timestamp_cols t)) eqn:Hall; [|discriminate].
  intros [= <-] c Hc. rewrite read_columns_labels.
  rewrite forallb_forall in Hall. exact (Hall c Hc).
Qed.

(** X22: [run_extract_load] stops at the first source file it cannot
    read, and the store is as it was: nothing is loaded.  When the files
    before it are there with the timestamp columns of their tables, it
    raises [FileNotFoundError] with the path of a file that is missing,
    and [ValueError] for a file that lacks a timestamp column of its
    table. *)
Theorem pipeline_missing_file_loads_nothing (fs : FS) (csv_folder : string)
    (s : Store) (pre : Dict string) (t f : string) (post : Dict string) :
  _default_table_to_csv csv_folder = pre ++ (t, f) :: post ->
  forallb (readable fs csv_folder) pre = true ->
  (dict_get fs (path_join csv_folder f) = None ->
   run_extract_load fs csv_folder s
   = (Raise (FileNotFoundError (path_join csv_folder f)), s))
  /\ (forall csv,
        dict_get fs (path_join csv_folder f) = Some (FCsv csv) ->
        has_header csv = true ->
        has_columns csv (timestamp_cols t) = false ->
        run_extract_load fs csv_folder s
        = (Raise (ValueError "Missing column provided to 'parse_dates'"), s)).
Proof.
  intros Hsplit Hpre. unfold run_extract_load. cbv zeta. rewrite Hsplit.
  unfold extract. split.
  - intros Hf.
    rewrite (read_tables_stops fs csv_folder pre t f post []
               (FileNotFoundError (path_join csv_folder f)) Hpre);
      [reflexivity | now rewrite Hf].
  - intros csv Hf _ Hcols.
    rewrite (read_tables_stops fs csv_folder pre t f post []
               (ValueError "Missing column provided to 'parse_dates'") Hpre);
      [reflexivity | rewrite Hf; exact (missing_column_raises csv t Hcols)].
Qed.

(** X23: the tables [run_extract_load] returns are the nine source
    tables in the order of the mapping, each read from its file and
    holding the timestamp columns of its table, and then the empty
    holidays table, for the pipeline gives no holidays URL. *)
Theorem pipeline_returns_loaded_tables (fs : FS) (csv_folder : string)
    (s s' : Store) (tables : Dict DataFrame) :
  run_extract_load fs csv_folder s = (Ok tables, s') ->
  exists sources,
    tables = sources ++ [("public_holidays"%string, empty_holidays)]
    /\ tables_of fs csv_folder (_default_table_to_csv csv_folder) sources
    /\ keys tables
       = keys (_default_table_to_csv csv_folder) ++ ["public_holidays"%string]
    /\ forall t df c,
         In (t, df) sources ->
         In c (timestamp_cols t) ->
         mem c (labels df) = true.
Proof.
  unfold run_extract_load. cbv zeta. unfold extract.
  destruct (read_tables fs csv_folder (_default_table_to_csv csv_folder) [])
    as [result|e] eqn:Hread; cbn [bind _normalize_public_holidays];
    [|discriminate].
  apply read_tables_result in Hread as (sources & -> & Hsources);
    [|exact (NoDup_default_tables csv_folder)].
  cbn [app Extract.tables table] in *.
  pose proof (tables_of_keys _ _ _ _ Hsources) as Hkeys.
  assert (Hfresh : ~ In "public_holidays"%string (keys sources)).
  { rewrite Hkeys. unfold _default_table_to_csv. cbn [keys map fst In].
    intros H. repeat (destruct H as [H|H]; [discriminate H|]). exact H. }
  rewrite (dict_set_fresh sources _ empty_holidays Hfresh).
  destruct (load (ADict (sources ++ [("public_holidays"%string, empty_holidays)]))
              AnEngine s) as [[[]|e] s1] eqn:Hload; [|discriminate].
  intros [= <- <-].
  exists sources. split; [reflexivity|]. split; [exact Hsources|].
  split; [now rewrite keys_app, Hkeys|].
  intros t df c Hin Hc.
  unfold tables_of in Hsources.
  clear Hkeys Hfresh Hload.
  induction Hsources as [|tf nd m l [Hk (csv & _ & Hread)] _ IH]; [contradiction|].
  destruct Hin as [Heq|Hin]; [|now apply IH].
  subst nd. cbn [fst snd] in *. subst t.
  exact (read_stable_has_columns csv (fst tf) df Hread c Hc).
Qed.

End WithLibraries.

End PipelineMore.

(* ------------------------------------------------------------------ *)
(** * The further theorems at concrete inputs *)

Module MoreWitnesses.

Import Text Re Transform Frame Cleaner Extract Sql Load Query Pipeline Spec.
Import Notions Doubles Inputs.
Import CleanerMore PersistMore ExtractMore LoadMore TransformMore QueryMore PipelineMore.

Local Open Scope list_scope.

Lemma NoDup_one (name : string) : NoDup [name].
Proof. constructor; [intros [] | constructor]. Qed.

Lemma clean_strips_text_witness :
  NoDup (keys orders_tables)
  /\ dict_get orders_tables "olist_orders" = Some orders_frame
  /\ well_formed orders_frame
  /\ exists df',
       dict_get (clean (P := pandas) orders_tables) "olist_orders" = Some df'
       /\ Forall2 (fun before after =>
                     fst after = fst before
                     /\ (is_object (dtype (snd before)) = true ->
                         Forall stripped_cell (cells (snd after))))
                  (columns orders_frame) (columns df').
Proof.
  assert (Hwf : well_formed orders_frame) by (repeat constructor).
  split; [exact (NoDup_one "olist_orders")|]. split; [reflexivity|].
  split; [exact Hwf|].
  exact (clean_strips_text (P := pandas) orders_tables "olist_orders" orders_frame
           (NoDup_one "olist_orders") eq_refl Hwf).
Defined.


Lemma clean_holiday_dates_at_midnight_witness :
  mem (lower "Public_Holidays") _HOLIDAYS_TABLE_HINTS = true
  /\ exists df' col',
       dict_get (clean (P := pandas) holidays_tables) "Public_Holidays" = Some df'
       /\ dict_get (columns df') "date" = Some col'
       /\ Forall at_midnight (cells col').
Proof.
  split; [reflexivity|].
  exact (clean_holiday_dates_at_midnight (P := pandas) holidays_tables "Public_Holidays"
           (mkFrame 1 [ ("date", mkColumn DObject [CStr "T86400000000001"]);
                        ("launchYear", mkColumn DInt [CInt 1]) ])
           (mkColumn DObject [CStr "T86400000000001"])
           (NoDup_one "Public_Holidays") eq_refl eq_refl eq_refl eq_refl).
Defined.

Lemma clean_leaves_other_columns_witness :
  is_object DInt = false
  /\ mem "launchYear" _DATE_COLUMNS_KNOWN = false
  /\ exists df',
       dict_get (clean (P := pandas) holidays_tables) "Public_Holidays" = Some df'
       /\ dict_get (columns df') "launchYear" = Some (mkColumn DInt [CInt 1]).
Proof.
  split; [reflexivity|]. split; [reflexivity|].
  exact (clean_leaves_other_columns (P := pandas) holidays_tables "Public_Holidays"
           (mkFrame 1 [ ("date", mkColumn DObject [CStr "T86400000000001"]);
                        ("launchYear", mkColumn DInt [CInt 1]) ])
           "launchYear" (mkColumn DInt [CInt 1])
           (NoDup_one "Public_Holidays") eq_refl eq_refl eq_refl eq_refl).
Defined.

Lemma load_cleaned_reads_present_tables_witness :
  (dict_get cleaned_dir (path_join "data_cleaned" "_schema.json")
   = Some (FJson (json_dump cleaned_schema))
   /\ NoDup (keys cleaned_schema)
   /\ forallb (listed_ok cleaned_dir "data_cleaned") cleaned_schema = true
   /\ exists loaded,
        load_cleaned (P := pandas) "data_cleaned" cleaned_dir = Ok loaded
        /\ keys loaded = ["olist_orders"]%string)
  /\ (has_header orders_csv = true
      /\ has_columns orders_csv ["order_approved_at"] = false
      /\ load_cleaned (P := pandas) "data_cleaned" stale_dir
         = Raise (ValueError "Missing column provided to 'parse_dates'")).
Proof.
  assert (Hnd : NoDup (keys cleaned_schema)).
  { constructor; [intros [H|[]]; discriminate H | exact (NoDup_one "olist_sellers")]. }
  split.
  - split; [reflexivity|]. split; [exact Hnd|]. split; [reflexivity|].
    destruct (proj1 (proj2 (load_cleaned_reads_present_tables (P := pandas)
                              "data_cleaned" cleaned_dir cleaned_schema))
                    eq_refl Hnd eq_refl)
      as (loaded & Hload & Hkeys & _).
    exists loaded. split; [exact Hload | exact Hkeys].
  - split; [reflexivity|]. split; [reflexivity|].
    exact (proj2 (proj2 (load_cleaned_reads_present_tables (P := pandas)
                           "data_cleaned" stale_dir stale_schema))
                 [("olist_sellers", [])] "olist_orders" ["order_approved_at"] []
                 orders_csv eq_refl eq_refl eq_refl eq_refl eq_refl eq_refl).
Defined.

Lemma save_cleaned_touches_only_its_files_witness :
  dict_get (save_cleaned (P := pandas) orders_tables "data_cleaned" dataset)
           "dataset/olist_orders_dataset.csv"
  = dict_get dataset "dataset/olist_orders_dataset.csv".
Proof.
  apply (save_cleaned_touches_only_its_files (P := pandas) orders_tables
           "data_cleaned" dataset "dataset/olist_orders_dataset.csv").
  - discriminate.
  - intros n [<-|[]]. discriminate.
Defined.


Lemma extract_first_missing_file_witness :
  forallb (readable orders_dataset "dataset")
          [("olist_orders", "olist_orders_dataset.csv")] = true
  /\ extract (P := pandas) (W := net URLError_) orders_dataset "dataset"
       ([("olist_orders", "olist_orders_dataset.csv")]
        ++ ("olist_sellers", "olist_sellers_dataset.csv")
        :: [("olist_products", "olist_products_dataset.csv")])
       (Some holidays_url)
     = Raise (FileNotFoundError "dataset/olist_sellers_dataset.csv")
  /\ has_header orders_csv = true
  /\ has_columns orders_csv (timestamp_cols "olist_orders") = false
  /\ extract (P := pandas) (W := net URLError_) short_dataset "dataset"
       ([] ++ ("olist_orders", "olist_orders_dataset.csv") :: [])
       (Some holidays_url)
     = Raise (ValueError "Missing column provided to 'parse_dates'").
Proof.
  split; [reflexivity|]. split.
  - exact (proj1 (extract_first_missing_file (P := pandas) (W := net URLError_)
                    orders_dataset "dataset"
                    [("olist_orders", "olist_orders_dataset.csv")]
                    "olist_sellers" "olist_sellers_dataset.csv"
                    [("olist_products", "olist_products_dataset.csv")]
                    (Some holidays_url) eq_refl) eq_refl).
  - split; [reflexivity|]. split; [reflexivity|].
    exact (proj2 (extract_first_missing_file (P := pandas) (W := net URLError_)
                    short_dataset "dataset" []
                    "olist_orders" "olist_orders_dataset.csv" []
                    (Some holidays_url) eq_refl) orders_csv eq_refl eq_refl eq_refl).
Defined.

Lemma extract_one_table_per_entry_witness :
  exists r sources holidays,
    extract (P := pandas) (W := net URLError_) orders_dataset "dataset"
      [("olist_orders", "olist_orders_dataset.csv")] (Some holidays_url) = Ok r
    /\ tables r = sources ++ [("public_holidays"%string, holidays)]
    /\ tables_of (P := pandas) orders_dataset "dataset"
         [("olist_orders", "olist_orders_dataset.csv")] sources
    /\ keys (tables r) = ["olist_orders"; "public_holidays"]%string.
Proof.
  assert (Hfresh : ~ In "public_holidays"%string
                     (keys [("olist_orders", "olist_orders_dataset.csv")]%string)).
  { intros [H|[]]. discriminate H. }
  destruct (extract (P := pandas) (W := net URLError_) orders_dataset "dataset"
              [("olist_orders", "olist_orders_dataset.csv")] (Some holidays_url))
    as [r|e] eqn:Hrun.
  - destruct (extract_one_table_per_entry (P := pandas) (W := net URLError_)
                orders_dataset "dataset" [("olist_orders", "olist_orders_dataset.csv")]
                (Some holidays_url) r (NoDup_one "olist_orders") Hfresh Hrun)
      as (sources & holidays & Hr & Hsources & Hkeys).
    exists r, sources, holidays. split; [reflexivity|]. split; [exact Hr|].
    split; [exact Hsources | exact Hkeys].
  - vm_compute in Hrun. discriminate Hrun.
Defined.

Lemma holidays_ignore_other_fields_witness :
  Forall2 same_holiday_fields [JObj new_year_with_types] [JObj new_year]
  /\ _normalize_public_holidays (P := pandas) (Some (JArr [JObj new_year_with_types]))
     = _normalize_public_holidays (P := pandas) (Some (JArr [JObj new_year])).
Proof.
  assert (Hsame : Forall2 same_holiday_fields [JObj new_year_with_types] [JObj new_year]).
  { constructor; [|constructor]. cbn [same_holiday_fields]. unfold cols.
    repeat (constructor; [reflexivity|]). constructor. }
  split; [exact Hsame|].
  exact (holidays_ignore_other_fields (P := pandas) _ _ Hsame).
Defined.

Lemma holidays_feed_with_bad_record_raises_witness :
  Forall (good_record (P := pandas)) [JObj new_year]
  /\ (exists msg,
        get_public_holidays (P := pandas)
          (W := net (Response 200 (Decoded (JArr ([JObj new_year]
                                                  ++ JStr "2017-04-14" :: [])))))
          holidays_url "2017" "BR"
        = Raise (AttributeError msg))
  /\ get_public_holidays (P := pandas)
       (W := net (Response 200 (Decoded (JArr ([JObj new_year]
                                               ++ JObj new_year_object :: [])))))
       holidays_url "2017" "BR"
     = Raise (ValueError "If using all scalar values, you must pass an index").
Proof.
  assert (Hgood : Forall (good_record (P := pandas)) [JObj new_year]).
  { constructor; [|constructor]. exists new_year. eexists.
    split; [reflexivity | vm_compute; reflexivity]. }
  split; [exact Hgood|]. split.
  - exact (proj1 (holidays_feed_with_bad_record_raises (P := pandas)
                    (W := net (Response 200 (Decoded (JArr ([JObj new_year]
                                                            ++ JStr "2017-04-14" :: [])))))
                    holidays_url "2017" "BR" [JObj new_year] (JStr "2017-04-14") []
                    eq_refl Hgood) eq_refl).
  - exact (proj2 (holidays_feed_with_bad_record_raises (P := pandas)
                    (W := net (Response 200 (Decoded (JArr ([JObj new_year]
                                                            ++ JObj new_year_object :: [])))))
                    holidays_url "2017" "BR" [JObj new_year] (JObj new_year_object) []
                    eq_refl Hgood) new_year_object _ eq_refl eq_refl).
Defined.

Lemma sanitize_nulls_nested_cells_witness :
  well_formed nested_frame
  /\ same_shape nested_frame (_sanitize_for_sqlite nested_frame)
  /\ dict_get (columns (_sanitize_for_sqlite nested_frame)) "types"
     = Some (mkColumn DObject [CNull; CStr "x"]).
Proof.
  assert (Hwf : well_formed nested_frame) by (repeat constructor).
  split; [exact Hwf|].
  split; [exact (proj1 (sanitize_nulls_nested_cells nested_frame Hwf)) | reflexivity].
Defined.

Lemma statements_are_trimmed_sql_witness :
  In "DROP VIEW IF EXISTS v" (_split_sql_statements drop_script)
  /\ truthy "DROP VIEW IF EXISTS v" = true
  /\ strip "DROP VIEW IF EXISTS v" = "DROP VIEW IF EXISTS v"%string
  /\ _looks_like_sql "DROP VIEW IF EXISTS v" = true.
Proof.
  assert (Hin : In "DROP VIEW IF EXISTS v"%string (_split_sql_statements drop_script)).
  { vm_compute. now left. }
  split; [exact Hin|].
  exact (statements_are_trimmed_sql drop_script "DROP VIEW IF EXISTS v" Hin).
Defined.

Lemma select_like_looks_like_sql_witness :
  _is_select_like "  With t AS (SELECT 1) SELECT * FROM t" = true
  /\ _looks_like_sql "  With t AS (SELECT 1) SELECT * FROM t" = true.
Proof.
  split; [reflexivity|].
  exact (select_like_looks_like_sql "  With t AS (SELECT 1) SELECT * FROM t" eq_refl).
Defined.

Lemma created_view_name_is_identifier_witness :
  _extract_created_view_name "create temporary view Orders_2017 as select 1"
  = Some "Orders_2017"%string
  /\ exists c rest,
       "Orders_2017"%string = String c rest
       /\ ident_start c = true /\ all_chars isword rest = true.
Proof.
  assert (Hname : _extract_created_view_name "create temporary view Orders_2017 as select 1"
                  = Some "Orders_2017"%string) by (vm_compute; reflexivity).
  split; [exact Hname|].
  exact (created_view_name_is_identifier _ _ Hname).
Defined.

Lemma created_view_is_recognised_witness :
  _extract_created_view_name
    ("CREATE VIEW " ++ String "o" "rders" ++ " AS " ++ "SELECT * FROM olist_orders;")
  = Some "orders"%string
  /\ _extract_created_view_name
       ("CREATE VIEW IF NOT EXISTS " ++ String "o" "rders" ++ " AS "
        ++ "SELECT * FROM olist_orders;")
     = Some "orders"%string.
Proof.
  exact (created_view_is_recognised "o" "rders" "SELECT * FROM olist_orders;"
           eq_refl eq_refl).
Defined.

Lemma temp_view_only_when_spelled_out_witness :
  _extract_created_view_name (String "v" "" ++ " AS " ++ "SELECT 1") = None
  /\ _extract_created_view_name
       ("CREATE TEMPORARY VIEW " ++ String "v" "" ++ " AS " ++ "SELECT 1")
     = Some "v"%string
  /\ _extract_created_view_name
       ("CREATE TEMP VIEW " ++ String "v" "" ++ " AS " ++ "SELECT 1")
     = None.
Proof.
  split; [reflexivity|].
  exact (temp_view_only_when_spelled_out "v" "" "SELECT 1" eq_refl eq_refl eq_refl).
Defined.

Lemma read_sql_normalises_line_ends_witness :
  exists sql,
    _read_sql (one_script (String "a" (String CR (String LF "b")))) "v" = Ok sql
    /\ all_chars (fun c => negb (is_cr c)) sql = true.
Proof.
  destruct (read_sql_normalises_line_ends
              (one_script (String "a" (String CR (String LF "b")))) "v"
              (String "a" (String CR (String LF "b"))) eq_refl)
    as (sql & Hread & Hno & _).
  exists sql. split; assumption.
Defined.

Lemma setup_only_script_returns_empty_witness :
  _split_sql_statements drop_script <> []
  /\ existsb _is_select_like (_split_sql_statements drop_script) = false
  /\ _run_df (E := Lite) (one_script drop_script) "v" None empty_db
     = match exec_each (E := Lite) (_split_sql_statements drop_script) empty_db with
       | (Ok _, s') => (Ok no_frame, s')
       | (Raise e, s') => (Raise e, s')
       end.
Proof.
  assert (Hne : _split_sql_statements drop_script <> [])
    by (vm_compute; discriminate).
  assert (Hview : forall p, In p (_split_sql_statements drop_script) ->
                    _extract_created_view_name p = None).
  { intros p Hin. vm_compute in Hin. destruct Hin as [<-|[]]. vm_compute. reflexivity. }
  split; [exact Hne|]. split; [vm_compute; reflexivity|].
  exact (setup_only_script_returns_empty Lite (one_script drop_script) "v" None
           empty_db drop_script eq_refl Hne eq_refl Hview).
Defined.

Lemma pipeline_missing_file_loads_nothing_witness :
  forallb (readable dataset_without_translation "dataset")
          (removelast (_default_table_to_csv "dataset")) = true
  /\ run_extract_load (P := pandas) (W := net URLError_) (E := Lite)
       dataset_without_translation "dataset" empty_db
     = (Raise (FileNotFoundError "dataset/product_category_name_translation.csv"),
        empty_db).
Proof.
  split; [reflexivity|].
  exact (proj1 (pipeline_missing_file_loads_nothing (P := pandas) (W := net URLError_)
                  (E := Lite) dataset_without_translation "dataset" empty_db
                  (removelast (_default_table_to_csv "dataset"))
                  "product_category_name_translation"
                  "product_category_name_translation.csv" []
                  eq_refl eq_refl) eq_refl).
Defined.

Lemma pipeline_returns_loaded_tables_witness :
  exists tables s',
    run_extract_load (P := pandas) (W := net URLError_) (E := Lite)
      full_dataset "dataset" empty_db
    = (Ok tables, s')
    /\ keys tables = keys (_default_table_to_csv "dataset") ++ ["public_holidays"%string]
    /\ dict_get tables "public_holidays" = Some empty_holidays.
Proof.
  destruct (run_extract_load (P := pandas) (W := net URLError_) (E := Lite)
              full_dataset "dataset" empty_db) as [[tables|e] s'] eqn:Hrun.
  - exists tables, s'. split; [reflexivity|].
    destruct (pipeline_returns_loaded_tables (P := pandas) (W := net URLError_)
                (E := Lite) full_dataset "dataset" empty_db s' tables Hrun)
      as (sources & Htables & Hsources & Hkeys & _).
    split; [exact Hkeys|].
    vm_compute in Hrun. injection Hrun as <- _. reflexivity.
  - vm_compute in Hrun. discriminate Hrun.
Defined.

End MoreWitnesses.
